(** * Authentication core of the restaurant-finder bot backend

    A shallow embedding of the Go packages [pkg/jwt], [pkg/crypto],
    [pkg/response], [internal/domain], [internal/repository/postgres],
    [internal/usecase] (the auth, request-log and restaurant use cases),
    [internal/delivery/http/middleware], [internal/delivery/http/handler]
    (the auth handler) and [internal/delivery/http/router] (the auth routes),
    followed by the properties of the two-stage login flow, of the tokens and
    the gates in front of the routes, of the users table, and of the
    request-log and restaurant searches.

    Conventions.
    - Go [string] is [string] (a sequence of bytes); [len] is [String.length].
    - [time.Time] and [time.Duration] are integers counting nanoseconds
      (since the Unix epoch for instants).
    - [uuid.UUID] is represented by its canonical text form.
    - A Go [error] is represented by its message; [(T, error)] is [Result T].
    - Everything that reads the clock, draws randomness or talks to the
      database is a computation in the monad [M] over [World]. *)

From Stdlib Require Import ZArith String Ascii List Bool Lia.
From Stdlib Require Import Floats.PrimFloat.
Import ListNotations.
Local Open Scope string_scope.
Local Open Scope Z_scope.

(** ** Results, the world and the monad *)

Inductive Result (A : Type) : Type :=
| Ok (a : A)
| Err (e : string).
Arguments Ok {A} a.
Arguments Err {A} e.

Definition UUID := string.
Definition Time := Z.
Definition Duration := Z.

Definition Second : Duration := 1000000000.
Definition Minute : Duration := 60 * Second.

(** A row of the [users] table created by the migration: [id] is the primary
    key, [email] is UNIQUE, [totp_secret] is the only nullable column. *)
Record Row : Type := mkRow {
  r_id : UUID;
  r_email : string;
  r_password : string;
  r_full_name : string;
  r_is_active : bool;
  r_is_2fa_enabled : bool;
  r_totp_secret : option string;
  r_created_at : Time;
  r_updated_at : Time
}.

(** The environment of the process.
    - [clock] is the wall clock; each reading advances it by the next element
      of [ticks] (by nothing once [ticks] is used up).
    - [entropy] feeds [uuid.New], the bcrypt salt and the TOTP secret.
    - [db_faults] are the errors the database driver is about to raise for
      reasons outside the model (connection loss, cancelled context, ...):
      each statement consumes one entry, [Some e] makes it fail with [e].
    - [users] is the table.
    - [totp_log] records the arguments of every call made to the TOTP
      engine's code validation; no definition ever reads it. *)
Record World : Type := mkWorld {
  clock : Time;
  ticks : list N;
  entropy : list string;
  db_faults : list (option string);
  users : list Row;
  totp_log : list (string * string)
}.

Definition M (A : Type) : Type := World -> Result A * World.

Definition ret {A} (a : A) : M A := fun w => (Ok a, w).

Definition fail {A} (e : string) : M A := fun w => (Err e, w).

Definition bind {A B} (c : M A) (k : A -> M B) : M B :=
  fun w =>
    match c w with
    | (Ok a, w') => k a w'
    | (Err e, w') => (Err e, w')
    end.

(** [attempt c] runs [c] and hands its outcome, error included, to the
    continuation: the Go idiom [v, err := f(); if err != nil { ... }]. *)
Definition attempt {A} (c : M A) : M (Result A) :=
  fun w => let (r, w') := c w in (Ok r, w').

Definition lift {A} (r : Result A) : M A := fun w => (r, w).

Declare Scope go_scope.
Delimit Scope go_scope with go.
Notation "x <- c ;; k" := (bind c (fun x => k))
  (at level 100, c at next level, right associativity) : go_scope.
Notation "c ;;; k" := (bind c (fun _ => k))
  (at level 100, right associativity) : go_scope.
Local Open Scope go_scope.

(** The clock after one reading. *)
Definition tick (w : World) : World :=
  match ticks w with
  | [] => w
  | d :: rest =>
      mkWorld (clock w + Z.of_N d) rest (entropy w) (db_faults w) (users w) (totp_log w)
  end.

(** [time.Now()] *)
Definition time_Now : M Time := fun w => (Ok (clock w), tick w).

(** One draw from the random source (empty once the source is used up). *)
Definition rand_Read : M string :=
  fun w =>
    match entropy w with
    | [] => (Ok "", w)
    | e :: rest =>
        (Ok e, mkWorld (clock w) (ticks w) rest (db_faults w) (users w) (totp_log w))
    end.

(** [uuid.New()] *)
Definition uuid_New : M UUID := rand_Read.

(** ** External libraries

    The repository calls three libraries whose code is not part of it:
    golang.org/x/crypto/bcrypt, github.com/pquerna/otp/totp and
    github.com/golang-jwt/jwt/v5. The primitives of each are the fields of
    a record [Lib]; everything built on top of them is defined here. *)

Module bcrypt.

Definition DefaultCost : Z := 10.

(** [GenerateFromPassword password cost salt]; [CompareHashAndPassword
    hash password] is [true] when the Go function returns a [nil] error. *)
Record Lib : Type := mkLib {
  GenerateFromPassword : string -> Z -> string -> Result string;
  CompareHashAndPassword : string -> string -> bool
}.

End bcrypt.

Module totp.

(** [totp.GenerateOpts], the fields the code fills in. *)
Record GenerateOpts : Type := mkGenerateOpts {
  Issuer : string;
  AccountName : string;
  SecretSize : Z
}.

(** [otp.Key]: what [key.Secret()] and [key.URL()] return. *)
Record Key : Type := mkKey {
  Secret : string;
  URL : string
}.

(** The primitives: [GenerateFrom opts random] is key generation from the
    random bytes drawn, [ValidateCustom passcode secret t] is the library's
    [ValidateCustom] at instant [t] with the default options (period 30 s,
    skew 1, six digits, SHA-1), [true] when it reports a match. *)
Record Lib : Type := mkLib {
  GenerateFrom : GenerateOpts -> string -> Result Key;
  ValidateCustom : string -> string -> Time -> bool
}.

(** The call is noted in the world's log. *)
Definition record_call (passcode secret : string) (w : World) : World :=
  mkWorld (clock w) (ticks w) (entropy w) (db_faults w) (users w)
          (totp_log w ++ [(passcode, secret)]).

Section API.

Variable lib : Lib.

(** [totp.Generate(opts)] *)
Definition Generate (opts : GenerateOpts) : M Key :=
  random <- rand_Read ;;
  lift (GenerateFrom lib opts random).

(** [totp.Validate(passcode, secret)]: validation at the current instant;
    the error of the underlying call is dropped. *)
Definition Validate (passcode secret : string) : M bool :=
  now <- time_Now ;;
  fun w => (Ok (ValidateCustom lib passcode secret now), record_call passcode secret w).

End API.

End totp.

Module jwtlib.

Inductive SigningMethod : Type :=
| HS256 | HS384 | HS512 | RS256 | ES256 | EdDSA | NoneMethod.

(** The type assertion of a signing method to the HMAC family. *)
Definition isHMAC (m : SigningMethod) : bool :=
  match m with
  | HS256 | HS384 | HS512 => true
  | _ => false
  end.

(** [jwt.NewNumericDate]: an instant cut to [jwt.TimePrecision], one second. *)
Definition NewNumericDate (t : Time) : Time := t - t mod Second.

(** [jwt.RegisteredClaims], the fields the code sets. *)
Record RegisteredClaims : Type := mkRegisteredClaims {
  ExpiresAt : option Time;
  IssuedAt : option Time;
  NotBefore : option Time;
  Issuer : string;
  Subject : string
}.

(** [jwt.Token] as the parser holds it before verification. *)
Record Token (C : Type) : Type := mkToken {
  Method : SigningMethod;
  Claims : C;
  SigningInput : string;
  Signature : string
}.
Arguments mkToken {C}.
Arguments Method {C}.
Arguments Claims {C}.
Arguments SigningInput {C}.
Arguments Signature {C}.

(** The primitives: [SignedString method claims key] (encode the header and
    the claims, sign, join the three segments), [decode] (split a compact
    token and decode its segments, without any verification) and [Verify
    method signing_input signature key]; [DecodeError] is the message of the
    error the parser returns for a string it cannot decode, [VerifyError] the
    message of the error of a verification that fails. *)
Record Lib (C : Type) : Type := mkLib {
  SignedString : SigningMethod -> C -> string -> Result string;
  decode : string -> option (Token C);
  Verify : SigningMethod -> string -> string -> string -> bool;
  DecodeError : string -> string;
  VerifyError : SigningMethod -> string -> string -> string -> string
}.
Arguments mkLib {C}.
Arguments SignedString {C}.
Arguments decode {C}.
Arguments Verify {C}.
Arguments DecodeError {C}.
Arguments VerifyError {C}.

(** What the library promises about its own output: a string it signed with
    an HMAC method decodes to the same method and claims, and its signature
    verifies under the same key. *)
Definition roundtrip {C : Type} (lib : Lib C) : Prop :=
  forall m c key s,
    isHMAC m = true ->
    SignedString lib m c key = Ok s ->
    exists input sig,
      decode lib s = Some (mkToken m c input sig) /\
      Verify lib m input sig key = true.

Section Parser.

Context {C : Type}.
Variable lib : Lib C.
Variable registered : C -> RegisteredClaims.

(** [Validator.verifyExpiresAt] and [verifyNotBefore] with no leeway and
    the claim not required: an absent claim passes. *)
Definition verifyExpiresAt (c : C) (now : Time) : bool :=
  match ExpiresAt (registered c) with
  | None => true
  | Some exp => now <? exp
  end.

Definition verifyNotBefore (c : C) (now : Time) : bool :=
  match NotBefore (registered c) with
  | None => true
  | Some nbf => negb (now <? nbf)
  end.

(** [Validator.Validate] with the default options: the clock is compared
    with [exp], then with [nbf]; every check that fails adds its error. *)
Definition Validate (c : C) (now : Time) : list string :=
  ((if verifyExpiresAt c now then [] else ["token is expired"]) ++
   (if verifyNotBefore c now then [] else ["token is not valid yet"]))%list.

(** [joinedError.Error]: the messages, separated by a comma and a space. *)
Fixpoint joinErrors (errs : list string) : string :=
  match errs with
  | [] => ""
  | [e] => e
  | e :: rest => e ++ ", " ++ joinErrors rest
  end.

(** [jwt.ParseWithClaims] with the default parser options: decode, ask the
    key function for the key, verify the signature, then validate the time
    claims against the clock. Each error is wrapped the way the library's
    [newError] does it. *)
Definition ParseWithClaims (tokenString : string)
    (keyFunc : Token C -> Result string) : M (Token C) :=
  match decode lib tokenString with
  | None => fail (DecodeError lib tokenString)
  | Some token =>
      match keyFunc token with
      | Err e => fail ("token is unverifiable: error while executing keyfunc: " ++ e)
      | Ok key =>
          if Verify lib (Method token) (SigningInput token) (Signature token) key
          then
            now <- time_Now ;;
            match Validate (Claims token) now with
            | [] => ret token
            | errs => fail ("token has invalid claims: " ++ joinErrors errs)
            end
          else
            fail ("token signature is invalid: " ++
                  VerifyError lib (Method token) (SigningInput token) (Signature token)
                    key)
      end
  end.

End Parser.

End jwtlib.

(** ** Package [pkg/crypto] *)

Module crypto.

Section Crypto.

Variable lib : bcrypt.Lib.

Definition HashPassword (password : string) : M string :=
  salt <- rand_Read ;;
  match bcrypt.GenerateFromPassword lib password bcrypt.DefaultCost salt with
  | Err e => fail e
  | Ok hash => ret hash
  end.

Definition CheckPassword (password hash : string) : bool :=
  bcrypt.CompareHashAndPassword lib hash password.

End Crypto.

End crypto.

(** ** Package [pkg/jwt] *)

Module jwt.

Record Claims : Type := mkClaims {
  UserID : UUID;
  Email : string;
  Is2FA : bool;
  TempAuth : bool;
  Registered : jwtlib.RegisteredClaims
}.

Record JWTManager : Type := mkJWTManager {
  secretKey : string;
  expiry : Duration
}.

Definition NewJWTManager (secretKey : string) (expiry : Duration) : JWTManager :=
  mkJWTManager secretKey expiry.

Section Manager.

Variable lib : jwtlib.Lib Claims.

Definition GenerateToken (j : JWTManager) (userID : UUID) (email : string)
    (is2FA : bool) : M string :=
  t1 <- time_Now ;;
  t2 <- time_Now ;;
  t3 <- time_Now ;;
  let claims :=
    mkClaims userID email is2FA false
      (jwtlib.mkRegisteredClaims
         (Some (jwtlib.NewNumericDate (t1 + expiry j)))
         (Some (jwtlib.NewNumericDate t2))
         (Some (jwtlib.NewNumericDate t3))
         "telegram-bot-api"
         userID) in
  lift (jwtlib.SignedString lib jwtlib.HS256 claims (secretKey j)).

Definition GenerateTempToken (j : JWTManager) (userID : UUID) (email : string)
    : M string :=
  t1 <- time_Now ;;
  t2 <- time_Now ;;
  t3 <- time_Now ;;
  let claims :=
    mkClaims userID email false true
      (jwtlib.mkRegisteredClaims
         (Some (jwtlib.NewNumericDate (t1 + 15 * Minute)))
         (Some (jwtlib.NewNumericDate t2))
         (Some (jwtlib.NewNumericDate t3))
         "telegram-bot-api"
         userID) in
  lift (jwtlib.SignedString lib jwtlib.HS256 claims (secretKey j)).

(** The key function handed to the parser by [ValidateToken]. *)
Definition keyFunc (j : JWTManager) (token : jwtlib.Token Claims) : Result string :=
  if negb (jwtlib.isHMAC (jwtlib.Method token))
  then Err "unexpected signing method"
  else Ok (secretKey j).

(** When the parser returns no error, the claims are of type [Claims] and
    [token.Valid] is set, so the final [errors.New("invalid token")] of the
    Go function is never reached. *)
Definition ValidateToken (j : JWTManager) (tokenString : string) : M Claims :=
  r <- attempt (jwtlib.ParseWithClaims lib Registered tokenString (keyFunc j)) ;;
  match r with
  | Err e => fail e
  | Ok token => ret (jwtlib.Claims token)
  end.

Definition ValidateTempToken (j : JWTManager) (tokenString : string) : M Claims :=
  r <- attempt (ValidateToken j tokenString) ;;
  match r with
  | Err e => fail e
  | Ok claims =>
      if negb (TempAuth claims) then fail "not a temporary token"
      else ret claims
  end.

End Manager.

End jwt.

(** The libraries as the process links them. *)
Record Libs : Type := mkLibs {
  lib_bcrypt : bcrypt.Lib;
  lib_totp : totp.Lib;
  lib_jwt : jwtlib.Lib jwt.Claims
}.

(** ** Package [internal/domain] *)

Module domain.

Record User : Type := mkUser {
  ID : UUID;
  Email : string;
  Password : string;
  FullName : string;
  IsActive : bool;
  Is2FAEnabled : bool;
  TOTPSecret : string;
  CreatedAt : Time;
  UpdatedAt : Time
}.

Definition set_Password (u : User) (p : string) : User :=
  mkUser (ID u) (Email u) p (FullName u) (IsActive u) (Is2FAEnabled u)
         (TOTPSecret u) (CreatedAt u) (UpdatedAt u).

Definition set_TOTPSecret (u : User) (s : string) : User :=
  mkUser (ID u) (Email u) (Password u) (FullName u) (IsActive u) (Is2FAEnabled u)
         s (CreatedAt u) (UpdatedAt u).

Definition set_Is2FAEnabled (u : User) (b : bool) : User :=
  mkUser (ID u) (Email u) (Password u) (FullName u) (IsActive u) b
         (TOTPSecret u) (CreatedAt u) (UpdatedAt u).

Record UserRegisterRequest : Type := mkUserRegisterRequest {
  RegEmail : string;
  RegPassword : string;
  RegFullName : string
}.

Record UserLoginRequest : Type := mkUserLoginRequest {
  LoginEmail : string;
  LoginPassword : string
}.

Record Verify2FARequest : Type := mkVerify2FARequest {
  VerifyUserID : UUID;
  Code : string
}.

(** [AuthResponse]; the pointer field [User] is [AuthUser]. *)
Record AuthResponse : Type := mkAuthResponse {
  Token : string;
  TempToken : string;
  Requires2FA : bool;
  AuthUser : option User;
  QRCodeURL : string;
  BackupCodes : string
}.

End domain.

(** ** Package [internal/usecase], the auth use case *)

Module usecase.

Import domain.

(** [type UserRepository interface] *)
Record UserRepository : Type := mkUserRepository {
  Create : User -> M unit;
  GetByEmail : string -> M User;
  GetByID : UUID -> M User;
  Update : User -> M unit;
  UpdateTOTPSecret : UUID -> string -> M unit;
  Enable2FA : UUID -> M unit
}.

Record AuthUsecase : Type := mkAuthUsecase {
  userRepo : UserRepository;
  jwtManager : jwt.JWTManager
}.

Definition NewAuthUsecase (userRepo : UserRepository) (jwtManager : jwt.JWTManager)
    : AuthUsecase :=
  mkAuthUsecase userRepo jwtManager.

Section Auth.

Variable libs : Libs.

Definition Register (a : AuthUsecase) (req : UserRegisterRequest) : M User :=
  existing <- attempt (GetByEmail (userRepo a) (RegEmail req)) ;;
  match existing with
  | Ok _ => fail "user already exists"
  | Err _ =>
      hashed <- attempt (crypto.HashPassword (lib_bcrypt libs) (RegPassword req)) ;;
      match hashed with
      | Err e => fail ("failed to hash password: " ++ e)
      | Ok hashedPassword =>
          id <- uuid_New ;;
          created <- time_Now ;;
          updated <- time_Now ;;
          let user :=
            mkUser id (RegEmail req) hashedPassword (RegFullName req)
                   true false "" created updated in
          r <- attempt (Create (userRepo a) user) ;;
          match r with
          | Err e => fail ("failed to create user: " ++ e)
          | Ok _ => ret (set_Password user "")
          end
      end
  end.

Definition Login (a : AuthUsecase) (req : UserLoginRequest) : M AuthResponse :=
  found <- attempt (GetByEmail (userRepo a) (LoginEmail req)) ;;
  match found with
  | Err _ => fail "invalid credentials"
  | Ok user =>
      if negb (crypto.CheckPassword (lib_bcrypt libs) (LoginPassword req) (Password user))
      then fail "invalid credentials"
      else if negb (IsActive user)
      then fail "user account is disabled"
      else if Is2FAEnabled user
      then
        r <- attempt (jwt.GenerateTempToken (lib_jwt libs) (jwtManager a)
                        (ID user) (Email user)) ;;
        match r with
        | Err e => fail ("failed to generate temp token: " ++ e)
        | Ok tempToken => ret (mkAuthResponse "" tempToken true None "" "")
        end
      else
        r <- attempt (jwt.GenerateToken (lib_jwt libs) (jwtManager a)
                        (ID user) (Email user) (Is2FAEnabled user)) ;;
        match r with
        | Err e => fail ("failed to generate token: " ++ e)
        | Ok token =>
            ret (mkAuthResponse token "" false (Some (set_Password user "")) "" "")
        end
  end.

Definition Setup2FA (a : AuthUsecase) (userID : UUID) : M AuthResponse :=
  found <- attempt (GetByID (userRepo a) userID) ;;
  match found with
  | Err _ => fail "user not found"
  | Ok user =>
      generated <- attempt (totp.Generate (lib_totp libs)
                              (totp.mkGenerateOpts "Telegram Bot API" (Email user) 32)) ;;
      match generated with
      | Err e => fail ("failed to generate TOTP secret: " ++ e)
      | Ok key =>
          r <- attempt (UpdateTOTPSecret (userRepo a) userID (totp.Secret key)) ;;
          match r with
          | Err e => fail ("failed to save TOTP secret: " ++ e)
          | Ok _ =>
              let qrCodeURL := totp.URL key in
              ret (mkAuthResponse "" "" false None qrCodeURL (totp.Secret key))
          end
      end
  end.

Definition Verify2FA (a : AuthUsecase) (tempToken code : string) : M AuthResponse :=
  validated <- attempt (jwt.ValidateTempToken (lib_jwt libs) (jwtManager a) tempToken) ;;
  match validated with
  | Err _ => fail "invalid or expired temporary token"
  | Ok claims =>
      found <- attempt (GetByID (userRepo a) (jwt.UserID claims)) ;;
      match found with
      | Err _ => fail "user not found"
      | Ok user =>
          valid <- totp.Validate (lib_totp libs) code (TOTPSecret user) ;;
          if negb valid then fail "invalid 2FA code"
          else
            user <- (if negb (Is2FAEnabled user)
                     then
                       r <- attempt (Enable2FA (userRepo a) (ID user)) ;;
                       match r with
                       | Err e => fail ("failed to enable 2FA: " ++ e)
                       | Ok _ => ret (set_Is2FAEnabled user true)
                       end
                     else ret user) ;;
            r <- attempt (jwt.GenerateToken (lib_jwt libs) (jwtManager a)
                            (ID user) (Email user) (Is2FAEnabled user)) ;;
            match r with
            | Err e => fail ("failed to generate token: " ++ e)
            | Ok token =>
                let user := set_TOTPSecret (set_Password user "") "" in
                ret (mkAuthResponse token "" false (Some user) "" "")
            end
      end
  end.

End Auth.

End usecase.

(** ** Package [internal/usecase], the request-log use case *)

Module request_log.

(** [domain.RequestLog] *)
Record RequestLog : Type := mkRequestLog {
  ID : UUID;
  IPAddress : string;
  HTTPMethod : string;
  Path : string;
  UserAgent : string;
  StatusCode : Z;
  ResponseTime : Z;
  UserID : option UUID;
  CreatedAt : Time
}.

(** [domain.CreateRequestLogRequest] *)
Record CreateRequestLogRequest : Type := mkCreateRequestLogRequest {
  ReqIPAddress : string;
  ReqHTTPMethod : string;
  ReqPath : string;
  ReqUserAgent : string;
  ReqStatusCode : Z;
  ReqResponseTime : Z;
  ReqUserID : option UUID
}.

Section Usecase.

(** The statistics map of [GetStats], whatever it holds. *)
Variable Stats : Type.

(** [type RequestLogRepository interface] *)
Record RequestLogRepository : Type := mkRequestLogRepository {
  Create : RequestLog -> M unit;
  GetByUserID : UUID -> Z -> Z -> M (list RequestLog);
  GetByIPAddress : string -> Z -> Z -> M (list RequestLog);
  GetStats : Time -> Time -> M Stats
}.

Record RequestLogUsecase : Type := mkRequestLogUsecase {
  requestLogRepo : RequestLogRepository
}.

Definition NewRequestLogUsecase (requestLogRepo : RequestLogRepository)
    : RequestLogUsecase :=
  mkRequestLogUsecase requestLogRepo.

Definition LogRequest (r : RequestLogUsecase) (req : CreateRequestLogRequest) : M unit :=
  id <- uuid_New ;;
  created <- time_Now ;;
  let requestLog :=
    mkRequestLog id (ReqIPAddress req) (ReqHTTPMethod req) (ReqPath req)
                 (ReqUserAgent req) (ReqStatusCode req) (ReqResponseTime req)
                 (ReqUserID req) created in
  e <- attempt (Create (requestLogRepo r) requestLog) ;;
  match e with
  | Err e => fail ("failed to log request: " ++ e)
  | Ok _ => ret tt
  end.

Definition GetUserRequestLogs (r : RequestLogUsecase) (userID : UUID) (limit offset : Z)
    : M (list RequestLog) :=
  let limit := if limit <=? 0 then 50 else limit in
  let limit := if 100 <? limit then 100 else limit in
  let offset := if offset <? 0 then 0 else offset in
  logs <- attempt (GetByUserID (requestLogRepo r) userID limit offset) ;;
  match logs with
  | Err e => fail ("failed to get user request logs: " ++ e)
  | Ok logs => ret logs
  end.

Definition GetIPRequestLogs (r : RequestLogUsecase) (ipAddress : string)
    (limit offset : Z) : M (list RequestLog) :=
  let limit := if limit <=? 0 then 50 else limit in
  let limit := if 100 <? limit then 100 else limit in
  let offset := if offset <? 0 then 0 else offset in
  logs <- attempt (GetByIPAddress (requestLogRepo r) ipAddress limit offset) ;;
  match logs with
  | Err e => fail ("failed to get IP request logs: " ++ e)
  | Ok logs => ret logs
  end.

(** [endDate.Sub(startDate)]: the difference, kept within the range of
    [time.Duration]. *)
Definition Sub (t u : Time) : Duration :=
  Z.max (- 2 ^ 63) (Z.min (2 ^ 63 - 1) (t - u)).

Definition GetRequestStats (r : RequestLogUsecase) (startDate endDate : Time) : M Stats :=
  if endDate <? startDate then fail "end date cannot be before start date"
  else
    let maxDuration := 30 * 24 * (60 * Minute) in
    if maxDuration <? Sub endDate startDate then fail "date range cannot exceed 30 days"
    else
      stats <- attempt (GetStats (requestLogRepo r) startDate endDate) ;;
      match stats with
      | Err e => fail ("failed to get request stats: " ++ e)
      | Ok stats => ret stats
      end.

End Usecase.

End request_log.

(** ** Package [internal/usecase], the restaurant use case

    [float64] is the primitive binary64 type, with its own comparison. The
    Go standard library's [strings.TrimSpace] is a parameter. *)

Module restaurant.

Record OpeningHours : Type := mkOpeningHours {
  OpenNow : bool;
  WeekdayText : list string
}.

Record Location : Type := mkLocation {
  Lat : float;
  Lng : float
}.

Record Geometry : Type := mkGeometry {
  GeoLocation : option Location
}.

Record Photo : Type := mkPhoto {
  PhotoReference : string;
  Height : Z;
  Width : Z;
  HTMLAttributions : list string
}.

(** [domain.Restaurant] *)
Record Restaurant : Type := mkRestaurant {
  PlaceID : string;
  Name : string;
  FormattedAddress : string;
  Rating : float;
  UserRatingsTotal : Z;
  PriceLevel : Z;
  Hours : option OpeningHours;
  Geo : option Geometry;
  Photos : list Photo;
  Types : list string;
  BusinessStatus : string
}.

(** [domain.RestaurantSearchRequest] *)
Record RestaurantSearchRequest : Type := mkRestaurantSearchRequest {
  Query : string;
  ReqLocation : string;
  Radius : Z;
  ReqType : string
}.

(** [domain.RestaurantSearchResponse] *)
Record RestaurantSearchResponse : Type := mkRestaurantSearchResponse {
  Restaurants : list Restaurant;
  Status : string;
  NextPageToken : string
}.

(** [type RestaurantRepository interface] *)
Record RestaurantRepository : Type := mkRestaurantRepository {
  RepoSearchByName : string -> string -> M RestaurantSearchResponse;
  RepoSearchNearby : float -> float -> Z -> string -> M RestaurantSearchResponse
}.

Record RestaurantUsecase : Type := mkRestaurantUsecase {
  restaurantRepo : RestaurantRepository
}.

Definition NewRestaurantUsecase (restaurantRepo : RestaurantRepository)
    : RestaurantUsecase :=
  mkRestaurantUsecase restaurantRepo.

Section Usecase.

Variable TrimSpace : string -> string.

Definition enhanceRestaurantData (restaurant : Restaurant) : Restaurant :=
  let name := TrimSpace (Name restaurant) in
  let address := TrimSpace (FormattedAddress restaurant) in
  let rating := Rating restaurant in
  let rating := if PrimFloat.ltb rating 0 then 0%float else rating in
  let rating := if PrimFloat.ltb 5 rating then 5%float else rating in
  let status :=
    if String.eqb (BusinessStatus restaurant) "" then "OPERATIONAL"
    else BusinessStatus restaurant in
  mkRestaurant (PlaceID restaurant) name address rating (UserRatingsTotal restaurant)
               (PriceLevel restaurant) (Hours restaurant) (Geo restaurant)
               (Photos restaurant) (Types restaurant) status.

(** The body of the loop of [filterAndEnhanceResults]: the restaurants that
    are kept, enhanced, in their order. *)
Fixpoint filtered (restaurants : list Restaurant) : list Restaurant :=
  match restaurants with
  | [] => []
  | restaurant :: rest =>
      if String.eqb (TrimSpace (Name restaurant)) "" then filtered rest
      else if String.eqb (BusinessStatus restaurant) "CLOSED_PERMANENTLY" then filtered rest
      else enhanceRestaurantData restaurant :: filtered rest
  end.

Definition filterAndEnhanceResults (restaurants : list Restaurant) : list Restaurant :=
  let filtered := filtered restaurants in
  if Nat.ltb 10 (List.length filtered) then firstn 10 filtered else filtered.

Definition SearchByName (r : RestaurantUsecase) (req : RestaurantSearchRequest)
    : M RestaurantSearchResponse :=
  if String.eqb (TrimSpace (Query req)) "" then fail "search query cannot be empty"
  else
    let query := TrimSpace (Query req) in
    if Nat.ltb (String.length query) 2 then
      fail "search query must be at least 2 characters"
    else
      result <- attempt (RepoSearchByName (restaurantRepo r) query (ReqLocation req)) ;;
      match result with
      | Err e => fail ("failed to search restaurants: " ++ e)
      | Ok result =>
          ret (mkRestaurantSearchResponse
                 (filterAndEnhanceResults (Restaurants result))
                 (Status result) (NextPageToken result))
      end.

Definition SearchNearby (r : RestaurantUsecase) (lat lng : float) (radius : Z)
    (restaurantType : string) : M RestaurantSearchResponse :=
  if PrimFloat.ltb lat (-90) || PrimFloat.ltb 90 lat then fail "invalid latitude"
  else if PrimFloat.ltb lng (-180) || PrimFloat.ltb 180 lng then fail "invalid longitude"
  else
    let radius := if radius <=? 0 then 1000 else radius in
    let radius := if 50000 <? radius then 50000 else radius in
    result <- attempt (RepoSearchNearby (restaurantRepo r) lat lng radius restaurantType) ;;
    match result with
    | Err e => fail ("failed to search nearby restaurants: " ++ e)
    | Ok result =>
        ret (mkRestaurantSearchResponse
               (filterAndEnhanceResults (Restaurants result))
               (Status result) (NextPageToken result))
    end.

End Usecase.

End restaurant.

(** ** Package [internal/repository/postgres], the user repository *)

Module postgres.

Import domain.

Definition ErrNoRows : string := "no rows in result set".

Definition ErrUniqueViolation : string :=
  "duplicate key value violates unique constraint".

(** One round trip to the database: the driver either raises its pending
    fault or lets the statement through. *)
Definition driver : M unit :=
  fun w =>
    match db_faults w with
    | [] => (Ok tt, w)
    | f :: rest =>
        let w' := mkWorld (clock w) (ticks w) (entropy w) rest (users w) (totp_log w) in
        match f with
        | Some e => (Err e, w')
        | None => (Ok tt, w')
        end
    end.

Definition set_users (w : World) (rows : list Row) : World :=
  mkWorld (clock w) (ticks w) (entropy w) (db_faults w) rows (totp_log w).

Definition Microsecond : Duration := 1000.

(** What a [TIMESTAMP WITH TIME ZONE] column keeps of an instant: the
    microseconds. The driver drops the rest when it encodes a [time.Time],
    and [NOW()] has no more. *)
Definition timestamptz (t : Time) : Time := t - t mod Microsecond.

(** [db.QueryRow(ctx, "SELECT ... WHERE <p>").Scan(...)]: the first row
    that satisfies the predicate. *)
Definition QueryRow (p : Row -> bool) : M Row :=
  driver ;;;
  fun w =>
    match find p (users w) with
    | None => (Err ErrNoRows, w)
    | Some row => (Ok row, w)
    end.

(** The scan of a row into a [domain.User]: a NULL [totp_secret] leaves the
    field at its zero value. *)
Definition scan (row : Row) : User :=
  mkUser (r_id row) (r_email row) (r_password row) (r_full_name row)
         (r_is_active row) (r_is_2fa_enabled row)
         (match r_totp_secret row with
          | Some secret => secret
          | None => ""
          end)
         (r_created_at row) (r_updated_at row).

(** [UPDATE users SET ... WHERE id = $1] *)
Definition update_where_id (id : UUID) (f : Row -> Row) (rows : list Row) : list Row :=
  map (fun row => if String.eqb (r_id row) id then f row else row) rows.

Definition Create (user : User) : M unit :=
  r <- attempt driver ;;
  match r with
  | Err e => fail ("failed to create user: " ++ e)
  | Ok _ =>
      fun w =>
        if existsb (fun row => (String.eqb (r_id row) (ID user)) || (String.eqb (r_email row) (Email user)))
                   (users w)
        then (Err ("failed to create user: " ++ ErrUniqueViolation), w)
        else
          (Ok tt,
           set_users w
             (users w ++
                [mkRow (ID user) (Email user) (Password user) (FullName user)
                       (IsActive user) (Is2FAEnabled user) None
                       (timestamptz (CreatedAt user)) (timestamptz (UpdatedAt user))]))
  end.

Definition GetByEmail (email : string) : M User :=
  r <- attempt (QueryRow (fun row => String.eqb (r_email row) email)) ;;
  match r with
  | Err e =>
      if String.eqb e ErrNoRows then fail "user not found"
      else fail ("failed to get user by email: " ++ e)
  | Ok row => ret (scan row)
  end.

Definition GetByID (id : UUID) : M User :=
  r <- attempt (QueryRow (fun row => String.eqb (r_id row) id)) ;;
  match r with
  | Err e =>
      if String.eqb e ErrNoRows then fail "user not found"
      else fail ("failed to get user by ID: " ++ e)
  | Ok row => ret (scan row)
  end.

Definition Update (user : User) : M unit :=
  r <- attempt driver ;;
  match r with
  | Err e => fail ("failed to update user: " ++ e)
  | Ok _ =>
      fun w =>
        if existsb (fun row => String.eqb (r_id row) (ID user)) (users w) &&
           existsb (fun row => negb (String.eqb (r_id row) (ID user)) && (String.eqb (r_email row) (Email user)))
                   (users w)
        then (Err ("failed to update user: " ++ ErrUniqueViolation), w)
        else
          (Ok tt,
           set_users w
             (update_where_id (ID user)
                (fun row =>
                   mkRow (r_id row) (Email user) (Password user) (FullName user)
                         (IsActive user) (Is2FAEnabled user) (r_totp_secret row)
                         (r_created_at row) (timestamptz (UpdatedAt user)))
                (users w)))
  end.

Definition UpdateTOTPSecret (userID : UUID) (secret : string) : M unit :=
  r <- attempt driver ;;
  match r with
  | Err e => fail ("failed to update TOTP secret: " ++ e)
  | Ok _ =>
      fun w =>
        (Ok tt,
         set_users w
           (update_where_id userID
              (fun row =>
                 mkRow (r_id row) (r_email row) (r_password row) (r_full_name row)
                       (r_is_active row) (r_is_2fa_enabled row) (Some secret)
                       (r_created_at row) (timestamptz (clock w)))
              (users w)))
  end.

Definition Enable2FA (userID : UUID) : M unit :=
  r <- attempt driver ;;
  match r with
  | Err e => fail ("failed to enable 2FA: " ++ e)
  | Ok _ =>
      fun w =>
        (Ok tt,
         set_users w
           (update_where_id userID
              (fun row =>
                 mkRow (r_id row) (r_email row) (r_password row) (r_full_name row)
                       (r_is_active row) true (r_totp_secret row)
                       (r_created_at row) (timestamptz (clock w)))
              (users w)))
  end.

(** The repository the process hands to the use case. *)
Definition NewUserRepository : usecase.UserRepository :=
  usecase.mkUserRepository Create GetByEmail GetByID Update UpdateTOTPSecret Enable2FA.

End postgres.

(** ** Package [pkg/response] *)

Module response.

Record ErrorDetail : Type := mkErrorDetail {
  ErrCode : string;
  ErrMessage : string;
  Details : string
}.

(** What a handler puts in the [Data] field. *)
Inductive Payload : Type :=
| NoData
| UserData (u : domain.User)
| AuthData (a : domain.AuthResponse).

Record APIResponse : Type := mkAPIResponse {
  Success_ : bool;
  Message : string;
  Data : Payload;
  Error : option ErrorDetail
}.

(** The status line and the JSON body sent to the client. *)
Record Response : Type := mkResponse {
  Status : Z;
  Body : APIResponse
}.

Definition StatusOK : Z := 200.
Definition StatusCreated : Z := 201.
Definition StatusBadRequest : Z := 400.
Definition StatusUnauthorized : Z := 401.
Definition StatusInternalServerError : Z := 500.

Definition Success (message : string) (data : Payload) : Response :=
  mkResponse StatusOK (mkAPIResponse true message data None).

Definition Created (message : string) (data : Payload) : Response :=
  mkResponse StatusCreated (mkAPIResponse true message data None).

Definition BadRequest (message : string) (details : list string) : Response :=
  mkResponse StatusBadRequest
    (mkAPIResponse false "Bad Request" NoData
       (Some (mkErrorDetail "BAD_REQUEST" message
                (match details with
                 | d :: _ => d
                 | [] => ""
                 end)))).

Definition Unauthorized (message : string) : Response :=
  mkResponse StatusUnauthorized
    (mkAPIResponse false "Unauthorized" NoData
       (Some (mkErrorDetail "UNAUTHORIZED" message ""))).

Definition InternalServerError (message : string) (details : list string) : Response :=
  mkResponse StatusInternalServerError
    (mkAPIResponse false "Internal Server Error" NoData
       (Some (mkErrorDetail "INTERNAL_SERVER_ERROR" message
                (match details with
                 | d :: _ => d
                 | [] => ""
                 end)))).

End response.

(** ** The request context

    What the handlers read from [fiber.Ctx]: the [Authorization] header
    (empty when absent), the outcome of [BodyParser] on the request body, and
    the values stored with [c.Locals]. *)

Module fiber.

Record Locals : Type := mkLocals {
  user_id : option UUID;
  user_email : option string;
  is_2fa : option bool;
  temp_token : option string
}.

Definition no_locals : Locals := mkLocals None None None None.

Record Ctx (B : Type) : Type := mkCtx {
  Authorization : string;
  ParsedBody : Result B;
  locals : Locals
}.
Arguments mkCtx {B}.
Arguments Authorization {B}.
Arguments ParsedBody {B}.
Arguments locals {B}.

(** A middleware either answers the request or calls [c.Next()] with the
    values it stored. *)
Inductive Outcome : Type :=
| Respond (r : response.Response)
| Next (l : Locals).

End fiber.

(** [strings.Split(s, " ")] *)
Fixpoint Split (s : string) : list string :=
  match s with
  | EmptyString => [EmptyString]
  | String c rest =>
      if Ascii.eqb c " "%char then EmptyString :: Split rest
      else
        match Split rest with
        | part :: parts => String c part :: parts
        | [] => [String c EmptyString]
        end
  end.

(** ** Package [internal/delivery/http/middleware] *)

Module middleware.

Import fiber.

Section Middleware.

Variable libs : Libs.

Definition AuthMiddleware (jwtManager : jwt.JWTManager) {B} (c : Ctx B) : M Outcome :=
  let authHeader := Authorization c in
  if String.eqb authHeader "" then
    ret (Respond (response.Unauthorized "Authorization header is required"))
  else
    match Split authHeader with
    | [scheme; tokenString] =>
        if negb (String.eqb scheme "Bearer") then
          ret (Respond (response.Unauthorized "Invalid authorization header format"))
        else
          r <- attempt (jwt.ValidateToken (lib_jwt libs) jwtManager tokenString) ;;
          match r with
          | Err _ => ret (Respond (response.Unauthorized "Invalid or expired token"))
          | Ok claims =>
              if jwt.TempAuth claims then
                ret (Respond (response.Unauthorized
                                "Temporary token cannot be used for this endpoint"))
              else
                ret (Next (mkLocals (Some (jwt.UserID claims)) (Some (jwt.Email claims))
                                    (Some (jwt.Is2FA claims)) (temp_token (locals c))))
          end
    | _ => ret (Respond (response.Unauthorized "Invalid authorization header format"))
    end.

Definition TempAuthMiddleware (jwtManager : jwt.JWTManager) {B} (c : Ctx B) : M Outcome :=
  let authHeader := Authorization c in
  if String.eqb authHeader "" then
    ret (Respond (response.Unauthorized "Authorization header is required"))
  else
    match Split authHeader with
    | [scheme; tokenString] =>
        if negb (String.eqb scheme "Bearer") then
          ret (Respond (response.Unauthorized "Invalid authorization header format"))
        else
          r <- attempt (jwt.ValidateTempToken (lib_jwt libs) jwtManager tokenString) ;;
          match r with
          | Err _ =>
              ret (Respond (response.Unauthorized "Invalid or expired temporary token"))
          | Ok claims =>
              ret (Next (mkLocals (Some (jwt.UserID claims)) (Some (jwt.Email claims))
                                  (is_2fa (locals c)) (Some tokenString)))
          end
    | _ => ret (Respond (response.Unauthorized "Invalid authorization header format"))
    end.

(** [OptionalAuthMiddleware]: picks up the user of a valid session token and
    lets every request through. *)
Definition OptionalAuthMiddleware (jwtManager : jwt.JWTManager) {B} (c : Ctx B)
    : M Outcome :=
  let authHeader := Authorization c in
  if String.eqb authHeader "" then ret (Next (locals c))
  else
    match Split authHeader with
    | [scheme; tokenString] =>
        if negb (String.eqb scheme "Bearer") then ret (Next (locals c))
        else
          r <- attempt (jwt.ValidateToken (lib_jwt libs) jwtManager tokenString) ;;
          match r with
          | Err _ => ret (Next (locals c))
          | Ok claims =>
              if jwt.TempAuth claims then ret (Next (locals c))
              else
                ret (Next (mkLocals (Some (jwt.UserID claims)) (Some (jwt.Email claims))
                                    (Some (jwt.Is2FA claims)) (temp_token (locals c))))
          end
    | _ => ret (Next (locals c))
    end.

End Middleware.

End middleware.

(** ** Package [internal/delivery/http/handler], the auth handler *)

Module handler.

Import fiber.
Import domain.

Section Handler.

Variable libs : Libs.

Record AuthHandler : Type := mkAuthHandler {
  authUsecase : usecase.AuthUsecase
}.

Definition NewAuthHandler (authUsecase : usecase.AuthUsecase) : AuthHandler :=
  mkAuthHandler authUsecase.

Definition Register (h : AuthHandler) (c : Ctx UserRegisterRequest)
    : M response.Response :=
  match ParsedBody c with
  | Err e => ret (response.BadRequest "Invalid request body" [e])
  | Ok req =>
      if String.eqb (RegEmail req) "" then ret (response.BadRequest "Email is required" [])
      else if String.eqb (RegPassword req) "" then ret (response.BadRequest "Password is required" [])
      else if String.eqb (RegFullName req) "" then ret (response.BadRequest "Full name is required" [])
      else if (Z.of_nat (String.length (RegPassword req)) <? 8)%Z then
        ret (response.BadRequest "Password must be at least 8 characters" [])
      else
        r <- attempt (usecase.Register libs (authUsecase h) req) ;;
        match r with
        | Err e => ret (response.BadRequest e [])
        | Ok user =>
            ret (response.Created "User registered successfully" (response.UserData user))
        end
  end.

Definition Login (h : AuthHandler) (c : Ctx UserLoginRequest) : M response.Response :=
  match ParsedBody c with
  | Err e => ret (response.BadRequest "Invalid request body" [e])
  | Ok req =>
      if String.eqb (LoginEmail req) "" then ret (response.BadRequest "Email is required" [])
      else if String.eqb (LoginPassword req) "" then
        ret (response.BadRequest "Password is required" [])
      else
        r <- attempt (usecase.Login libs (authUsecase h) req) ;;
        match r with
        | Err e => ret (response.Unauthorized e)
        | Ok authResp =>
            let message :=
              if Requires2FA authResp then "2FA verification required"
              else "Login successful" in
            ret (response.Success message (response.AuthData authResp))
        end
  end.

Definition Setup2FA {B} (h : AuthHandler) (c : Ctx B) : M response.Response :=
  match user_id (locals c) with
  | None => ret (response.Unauthorized "Invalid user context")
  | Some userID =>
      r <- attempt (usecase.Setup2FA libs (authUsecase h) userID) ;;
      match r with
      | Err e => ret (response.InternalServerError e [])
      | Ok authResp =>
          ret (response.Success "2FA setup successful" (response.AuthData authResp))
      end
  end.

Definition Verify2FA (h : AuthHandler) (c : Ctx Verify2FARequest)
    : M response.Response :=
  match ParsedBody c with
  | Err e => ret (response.BadRequest "Invalid request body" [e])
  | Ok req =>
      if String.eqb (Code req) "" then ret (response.BadRequest "2FA code is required" [])
      else if negb (Nat.eqb (String.length (Code req)) 6) then
        ret (response.BadRequest "2FA code must be 6 digits" [])
      else
        match temp_token (locals c) with
        | None => ret (response.Unauthorized "Invalid temporary token")
        | Some tempToken =>
            r <- attempt (usecase.Verify2FA libs (authUsecase h) tempToken (Code req)) ;;
            match r with
            | Err e => ret (response.Unauthorized e)
            | Ok authResp =>
                ret (response.Success "2FA verification successful"
                       (response.AuthData authResp))
            end
        end
  end.

(** The map [GetProfile] sends as the data of its answer. *)
Record Profile : Type := mkProfile {
  profile_id : UUID;
  profile_email : string;
  profile_is_2fa_enabled : bool
}.

(** What becomes of a [GetProfile] request: the 200 answer
    [response.Success(c, message, userProfile)], another answer, or the panic
    of a type assertion on a value that was never stored. *)
Inductive ProfileAnswer : Type :=
| ProfileOK (message : string) (profile : Profile)
| ProfileRefused (r : response.Response)
| ProfilePanic.

Definition GetProfile {B} (h : AuthHandler) (c : Ctx B) : M ProfileAnswer :=
  match user_email (locals c) with
  | None => ret (ProfileRefused (response.Unauthorized "Invalid user context"))
  | Some userEmail =>
      match user_id (locals c) with
      | None => ret ProfilePanic
      | Some userID =>
          match is_2fa (locals c) with
          | None => ret ProfilePanic
          | Some is2FA =>
              ret (ProfileOK "Profile retrieved successfully"
                     (mkProfile userID userEmail is2FA))
          end
      end
  end.

End Handler.

End handler.

(** ** Package [internal/delivery/http/router], the auth routes *)

Module router.

Import fiber.

Section Routes.

Variable libs : Libs.
Variable jwtManager : jwt.JWTManager.

(** A route with one middleware in front of its handler. *)
Definition guarded {B} (mw : Ctx B -> M Outcome) (h : Ctx B -> M response.Response)
    (c : Ctx B) : M response.Response :=
  o <- mw c ;;
  match o with
  | Respond r => ret r
  | Next l => h (mkCtx (Authorization c) (ParsedBody c) l)
  end.

Definition authUsecase : usecase.AuthUsecase :=
  usecase.NewAuthUsecase postgres.NewUserRepository jwtManager.

Definition authHandler : handler.AuthHandler := handler.NewAuthHandler authUsecase.

(** POST /api/v1/auth/register *)
Definition auth_register := handler.Register libs authHandler.

(** POST /api/v1/auth/login *)
Definition auth_login := handler.Login libs authHandler.

(** POST /api/v1/auth/2fa/verify *)
Definition auth_2fa_verify :=
  guarded (middleware.TempAuthMiddleware libs jwtManager)
          (handler.Verify2FA libs authHandler).

(** POST /api/v1/auth/2fa/setup *)
Definition auth_2fa_setup {B} :=
  guarded (B := B) (middleware.AuthMiddleware libs jwtManager)
          (handler.Setup2FA libs authHandler).

(** GET /api/v1/auth/profile *)
Definition auth_profile {B} (c : Ctx B) : M handler.ProfileAnswer :=
  o <- middleware.AuthMiddleware libs jwtManager c ;;
  match o with
  | Respond r => ret (handler.ProfileRefused r)
  | Next l => handler.GetProfile authHandler (mkCtx (Authorization c) (ParsedBody c) l)
  end.

End Routes.

End router.

(** ** A reference instance of the libraries

    [reference.libs] is an executable instance of [Libs], used to run the
    code on concrete requests. The TOTP engine follows RFC 4226 and RFC 6238
    (HMAC-SHA-1, 30 s period, skew 1, six digits) as the library does; the
    password hash and the token codec are simple stand-ins with the same
    interface. *)

Module reference.

(** *** SHA-1 and HMAC over byte lists *)

Definition w32 (x : Z) : Z := x mod 4294967296.

Definition rotl (n x : Z) : Z :=
  w32 (Z.lor (Z.shiftl x n) (Z.shiftr x (32 - n))).

Definition bytes_of_string (s : string) : list Z :=
  map (fun c => Z.of_nat (nat_of_ascii c)) (list_ascii_of_string s).

(** Big-endian bytes of [x], [n] of them. *)
Fixpoint be_bytes (n : nat) (x : Z) : list Z :=
  match n with
  | O => []
  | S k => be_bytes k (Z.shiftr x 8) ++ [x mod 256]
  end.

Definition sha1_pad (msg : list Z) : list Z :=
  let len := Z.of_nat (List.length msg) in
  let zeros := Z.to_nat ((55 - len) mod 64) in
  msg ++ [128] ++ repeat 0 zeros ++ be_bytes 8 (8 * len).

Fixpoint words_of_bytes (fuel : nat) (bs : list Z) : list Z :=
  match fuel, bs with
  | S k, b0 :: b1 :: b2 :: b3 :: rest =>
      (b0 * 16777216 + b1 * 65536 + b2 * 256 + b3) :: words_of_bytes k rest
  | _, _ => []
  end.

(** The message schedule, most recent word first. *)
Fixpoint extend (n : nat) (rev_w : list Z) : list Z :=
  match n with
  | O => rev_w
  | S k =>
      let x :=
        rotl 1 (Z.lxor (Z.lxor (nth 2 rev_w 0) (nth 7 rev_w 0))
                       (Z.lxor (nth 13 rev_w 0) (nth 15 rev_w 0))) in
      extend k (x :: rev_w)
  end.

Definition sha1_f (t : nat) (b c d : Z) : Z :=
  if Nat.ltb t 20 then Z.lor (Z.land b c) (Z.land (Z.lxor b 4294967295) d)
  else if Nat.ltb t 40 then Z.lxor (Z.lxor b c) d
  else if Nat.ltb t 60 then Z.lor (Z.lor (Z.land b c) (Z.land b d)) (Z.land c d)
  else Z.lxor (Z.lxor b c) d.

Definition sha1_k (t : nat) : Z :=
  if Nat.ltb t 20 then 1518500249
  else if Nat.ltb t 40 then 1859775393
  else if Nat.ltb t 60 then 2400959708
  else 3395469782.

Definition sha1_state : Type := (Z * Z * Z * Z * Z)%type.

Fixpoint sha1_rounds (t : nat) (ws : list Z) (st : sha1_state) : sha1_state :=
  match ws with
  | [] => st
  | wt :: rest =>
      let '(a, b, c, d, e) := st in
      let temp := w32 (rotl 5 a + sha1_f t b c d + e + sha1_k t + wt) in
      sha1_rounds (S t) rest (temp, a, rotl 30 b, c, d)
  end.

Definition sha1_block (st : sha1_state) (block : list Z) : sha1_state :=
  let ws := rev (extend 64 (rev block)) in
  let '(a, b, c, d, e) := st in
  let '(a', b', c', d', e') := sha1_rounds 0 ws st in
  (w32 (a + a'), w32 (b + b'), w32 (c + c'), w32 (d + d'), w32 (e + e')).

Fixpoint sha1_blocks (fuel : nat) (ws : list Z) (st : sha1_state) : sha1_state :=
  match fuel with
  | O => st
  | S k =>
      match ws with
      | [] => st
      | _ => sha1_blocks k (skipn 16 ws) (sha1_block st (firstn 16 ws))
      end
  end.

Definition sha1 (msg : list Z) : list Z :=
  let padded := sha1_pad msg in
  let ws := words_of_bytes (List.length padded) padded in
  let '(a, b, c, d, e) :=
    sha1_blocks (List.length ws) ws
      (1732584193, 4023233417, 2562383102, 271733878, 3285377520) in
  be_bytes 4 a ++ be_bytes 4 b ++ be_bytes 4 c ++ be_bytes 4 d ++ be_bytes 4 e.

Definition hmac_sha1 (key msg : list Z) : list Z :=
  let key := if Nat.ltb 64 (List.length key) then sha1 key else key in
  let key := (key ++ repeat 0 (64 - List.length key))%list in
  sha1 (map (Z.lxor 92) key ++ sha1 (map (Z.lxor 54) key ++ msg))%list.

(** *** Base32 (RFC 4648, standard alphabet) *)

Definition base32_value (c : ascii) : option Z :=
  let n := Z.of_nat (nat_of_ascii c) in
  if (65 <=? n) && (n <=? 90) then Some (n - 65)
  else if (50 <=? n) && (n <=? 55) then Some (n - 24)
  else None.

Fixpoint base32_values (cs : list ascii) : option (list Z) :=
  match cs with
  | [] => Some []
  | c :: rest =>
      match base32_value c, base32_values rest with
      | Some v, Some vs => Some (v :: vs)
      | _, _ => None
      end
  end.

Fixpoint strip_padding (cs : list ascii) : list ascii :=
  match cs with
  | [] => []
  | c :: rest =>
      match strip_padding rest with
      | [] => if Ascii.eqb c "="%char then [] else [c]
      | rest' => c :: rest'
      end
  end.

(** Bytes out of a stream of 5-bit values; [acc] holds [nbits] pending bits. *)
Fixpoint base32_bytes (vs : list Z) (acc nbits : Z) : list Z :=
  match vs with
  | [] => []
  | v :: rest =>
      let acc := acc * 32 + v in
      let nbits := nbits + 5 in
      if 8 <=? nbits
      then Z.shiftr acc (nbits - 8) :: base32_bytes rest (acc mod 2 ^ (nbits - 8)) (nbits - 8)
      else base32_bytes rest acc nbits
  end.

Definition base32_decode (s : string) : option (list Z) :=
  let cs := list_ascii_of_string s in
  if negb (Nat.eqb (Nat.modulo (List.length cs) 8) 0) then None
  else
    let data := strip_padding cs in
    match Nat.modulo (List.length data) 8 with
    | 0%nat | 2%nat | 4%nat | 5%nat | 7%nat =>
        match base32_values data with
        | Some vs => Some (base32_bytes vs 0 0)
        | None => None
        end
    | _ => None
    end.

(** *** HOTP and TOTP *)

Definition is_space (c : ascii) : bool :=
  let n := nat_of_ascii c in
  Nat.eqb n 32 || (Nat.leb 9 n && Nat.leb n 13).

Fixpoint trim_left (cs : list ascii) : list ascii :=
  match cs with
  | c :: rest => if is_space c then trim_left rest else cs
  | [] => []
  end.

(** [strings.TrimSpace] *)
Definition TrimSpace (s : string) : string :=
  string_of_list_ascii (rev (trim_left (rev (trim_left (list_ascii_of_string s))))).

(** [strings.ToUpper] on ASCII letters. *)
Definition ToUpper (s : string) : string :=
  string_of_list_ascii
    (map (fun c =>
            let n := nat_of_ascii c in
            if Nat.leb 97 n && Nat.leb n 122 then ascii_of_nat (n - 32) else c)
         (list_ascii_of_string s)).

Definition pad8 (s : string) : string :=
  let n := Nat.modulo (String.length s) 8 in
  if Nat.eqb n 0 then s
  else s ++ string_of_list_ascii (repeat "="%char (8 - n)).

Definition digit (d : Z) : ascii := ascii_of_nat (48 + Z.to_nat d).

(** [fmt.Sprintf("%06d", v)] for [0 <= v < 1000000]. *)
Definition format6 (v : Z) : string :=
  string_of_list_ascii
    [digit (v / 100000 mod 10); digit (v / 10000 mod 10); digit (v / 1000 mod 10);
     digit (v / 100 mod 10); digit (v / 10 mod 10); digit (v mod 10)].

(** [hotp.GenerateCodeCustom] with six digits and SHA-1; [None] when the
    secret is not valid base32. *)
Definition GenerateCode (secret : string) (counter : Z) : option string :=
  match base32_decode (ToUpper (pad8 (TrimSpace secret))) with
  | None => None
  | Some secretBytes =>
      let sum := hmac_sha1 secretBytes (be_bytes 8 (counter mod 2 ^ 64)) in
      let offset := Z.to_nat (Z.land (nth 19 sum 0) 15) in
      let value :=
        Z.land (nth offset sum 0) 127 * 16777216 +
        nth (offset + 1) sum 0 * 65536 +
        nth (offset + 2) sum 0 * 256 +
        nth (offset + 3) sum 0 in
      Some (format6 (value mod 1000000))
  end.

(** [hotp.ValidateCustom]: [None] is an error, [Some b] the verdict. *)
Definition hotp_Validate (passcode : string) (counter : Z) (secret : string)
    : option bool :=
  let passcode := TrimSpace passcode in
  if negb (Nat.eqb (String.length passcode) 6) then None
  else
    match GenerateCode secret counter with
    | None => None
    | Some otpstr => Some (String.eqb otpstr passcode)
    end.

Fixpoint validate_counters (passcode secret : string) (counters : list Z) : bool :=
  match counters with
  | [] => false
  | counter :: rest =>
      match hotp_Validate passcode counter secret with
      | None => false
      | Some true => true
      | Some false => validate_counters passcode secret rest
      end
  end.

(** [totp.ValidateCustom] with period 30 and skew 1, at instant [t]. *)
Definition ValidateCustom (passcode secret : string) (t : Time) : bool :=
  let counter := (t / Second) / 30 in
  validate_counters passcode secret [counter; counter + 1; counter - 1].

(** Key generation: the random draw is taken as the base32 secret. *)
Definition GenerateFrom (opts : totp.GenerateOpts) (random : string)
    : Result totp.Key :=
  if String.eqb (totp.Issuer opts) "" then Err "Issuer must be set"
  else if String.eqb (totp.AccountName opts) "" then Err "AccountName must be set"
  else
    Ok (totp.mkKey random
          ("otpauth://totp/" ++ totp.Issuer opts ++ ":" ++ totp.AccountName opts ++
           "?issuer=" ++ totp.Issuer opts ++ "&secret=" ++ random)).

Definition totp_lib : totp.Lib := totp.mkLib GenerateFrom ValidateCustom.

(** *** A stand-in password hash: the salt, a separator, the password *)

Fixpoint after_separator (s : string) : option string :=
  match s with
  | EmptyString => None
  | String c rest => if Ascii.eqb c "$"%char then Some rest else after_separator rest
  end.

Definition GenerateFromPassword (password : string) (cost : Z) (salt : string)
    : Result string :=
  if Nat.ltb 72 (String.length password) then Err "password length exceeds 72 bytes"
  else Ok (salt ++ "$" ++ password).

Definition CompareHashAndPassword (hash password : string) : bool :=
  match after_separator hash with
  | Some p => String.eqb p password
  | None => false
  end.

Definition bcrypt_lib : bcrypt.Lib := bcrypt.mkLib GenerateFromPassword CompareHashAndPassword.

(** *** A stand-in token codec

    A token is a sequence of fields; in a field every byte is preceded by an
    underscore and the field ends with a comma. The first ten fields are the
    signing input, the eleventh is the signature. *)

Fixpoint escape (s : string) : string :=
  match s with
  | EmptyString => EmptyString
  | String c rest => String "_"%char (String c (escape rest))
  end.

Fixpoint pack (fields : list string) : string :=
  match fields with
  | [] => EmptyString
  | f :: rest => escape f ++ String ","%char (pack rest)
  end.

(** [unpack s acc]: the fields of [s], the first one prefixed by [acc]. *)
Fixpoint unpack (s : string) (acc : string) : option (list string) :=
  match s with
  | EmptyString => if String.eqb acc "" then Some [] else None
  | String c rest =>
      if Ascii.eqb c ","%char then
        match unpack rest "" with
        | Some fields => Some (acc :: fields)
        | None => None
        end
      else if Ascii.eqb c "_"%char then
        match rest with
        | String d rest' => unpack rest' (acc ++ String d EmptyString)
        | EmptyString => None
        end
      else None
  end.

Fixpoint print_positive (p : positive) : string :=
  match p with
  | xH => "H"
  | xO q => String "O"%char (print_positive q)
  | xI q => String "I"%char (print_positive q)
  end.

Fixpoint parse_positive (s : string) : option positive :=
  match s with
  | String c rest =>
      if Ascii.eqb c "H"%char then
        match rest with EmptyString => Some xH | _ => None end
      else if Ascii.eqb c "O"%char then option_map xO (parse_positive rest)
      else if Ascii.eqb c "I"%char then option_map xI (parse_positive rest)
      else None
  | EmptyString => None
  end.

Definition print_time (t : option Time) : string :=
  match t with
  | None => ""
  | Some 0 => "Z"
  | Some (Zpos p) => String "P"%char (print_positive p)
  | Some (Zneg p) => String "N"%char (print_positive p)
  end.

Definition parse_time (s : string) : option (option Time) :=
  match s with
  | EmptyString => Some None
  | String c rest =>
      if Ascii.eqb c "Z"%char then
        match rest with EmptyString => Some (Some 0) | _ => None end
      else if Ascii.eqb c "P"%char then
        option_map (fun p => Some (Zpos p)) (parse_positive rest)
      else if Ascii.eqb c "N"%char then
        option_map (fun p => Some (Zneg p)) (parse_positive rest)
      else None
  end.

Definition print_bool (b : bool) : string := if b then "true" else "false".

Definition parse_bool (s : string) : option bool :=
  if String.eqb s "true" then Some true
  else if String.eqb s "false" then Some false
  else None.

Definition print_method (m : jwtlib.SigningMethod) : string :=
  match m with
  | jwtlib.HS256 => "HS256"
  | jwtlib.HS384 => "HS384"
  | jwtlib.HS512 => "HS512"
  | jwtlib.RS256 => "RS256"
  | jwtlib.ES256 => "ES256"
  | jwtlib.EdDSA => "EdDSA"
  | jwtlib.NoneMethod => "none"
  end.

Definition parse_method (s : string) : option jwtlib.SigningMethod :=
  if String.eqb s "HS256" then Some jwtlib.HS256
  else if String.eqb s "HS384" then Some jwtlib.HS384
  else if String.eqb s "HS512" then Some jwtlib.HS512
  else if String.eqb s "RS256" then Some jwtlib.RS256
  else if String.eqb s "ES256" then Some jwtlib.ES256
  else if String.eqb s "EdDSA" then Some jwtlib.EdDSA
  else if String.eqb s "none" then Some jwtlib.NoneMethod
  else None.

Definition fields_of (m : jwtlib.SigningMethod) (c : jwt.Claims) : list string :=
  let r := jwt.Registered c in
  [print_method m; jwt.UserID c; jwt.Email c; print_bool (jwt.Is2FA c);
   print_bool (jwt.TempAuth c); print_time (jwtlib.ExpiresAt r);
   print_time (jwtlib.IssuedAt r); print_time (jwtlib.NotBefore r);
   jwtlib.Issuer r; jwtlib.Subject r].

(** The stand-in signature: the method name, the key and the signing input. *)
Definition sign (m : jwtlib.SigningMethod) (input key : string) : string :=
  print_method m ++ ":" ++ key ++ ":" ++ input.

Definition SignedString (m : jwtlib.SigningMethod) (c : jwt.Claims) (key : string)
    : Result string :=
  let input := pack (fields_of m c) in
  Ok (input ++ pack [sign m input key]).

Definition decode (s : string) : option (jwtlib.Token jwt.Claims) :=
  match unpack s "" with
  | Some [fm; fid; femail; f2fa; ftemp; fexp; fiat; fnbf; fiss; fsub; fsig] =>
      match parse_method fm, parse_bool f2fa, parse_bool ftemp,
            parse_time fexp, parse_time fiat, parse_time fnbf with
      | Some m, Some is2fa, Some temp, Some exp, Some iat, Some nbf =>
          Some (jwtlib.mkToken m
                  (jwt.mkClaims fid femail is2fa temp
                     (jwtlib.mkRegisteredClaims exp iat nbf fiss fsub))
                  (pack [fm; fid; femail; f2fa; ftemp; fexp; fiat; fnbf; fiss; fsub])
                  fsig)
      | _, _, _, _, _, _ => None
      end
  | _ => None
  end.

Definition Verify (m : jwtlib.SigningMethod) (input sig key : string) : bool :=
  String.eqb sig (sign m input key).

Definition jwt_lib : jwtlib.Lib jwt.Claims :=
  jwtlib.mkLib SignedString decode Verify
    (fun _ => "token is malformed: token contains an invalid number of segments")
    (fun _ _ _ _ => "signature is invalid").

Definition libs : Libs := mkLibs bcrypt_lib totp_lib jwt_lib.

End reference.

(** ** Observations on the store and sequences of operations *)

(** The claims the manager signs, given the three readings of the clock. *)
Definition issued_claims (userID : UUID) (email : string) (is2FA tempAuth : bool)
    (ttl : Duration) (t1 t2 t3 : Time) : jwt.Claims :=
  jwt.mkClaims userID email is2FA tempAuth
    (jwtlib.mkRegisteredClaims
       (Some (jwtlib.NewNumericDate (t1 + ttl)))
       (Some (jwtlib.NewNumericDate t2))
       (Some (jwtlib.NewNumericDate t3))
       "telegram-bot-api" userID).

(** The world after [n] readings of the clock. *)
Definition after_reads (n : nat) (w : World) : World := Nat.iter n tick w.

(** The predicate of [WHERE id = $1]. *)
Definition by_id (id : UUID) (row : Row) : bool := String.eqb (r_id row) id.

(** The value of [is_2fa_enabled] the repository reads for an account. *)
Definition flag (w : World) (id : UUID) : option bool :=
  option_map r_is_2fa_enabled (find (by_id id) (users w)).

(** The operations of the auth use case, as requests. *)
Inductive Op : Type :=
| OpRegister (req : domain.UserRegisterRequest)
| OpLogin (req : domain.UserLoginRequest)
| OpSetup2FA (userID : UUID)
| OpVerify2FA (tempToken code : string).

(** The world after one operation, whatever its outcome. *)
Definition exec (libs : Libs) (a : usecase.AuthUsecase) (op : Op) (w : World) : World :=
  match op with
  | OpRegister req => snd (usecase.Register libs a req w)
  | OpLogin req => snd (usecase.Login libs a req w)
  | OpSetup2FA userID => snd (usecase.Setup2FA libs a userID w)
  | OpVerify2FA tempToken code => snd (usecase.Verify2FA libs a tempToken code w)
  end.

(** Between two operations the environment may move on: the clock advances
    and its oracles are replaced; the table stays. *)
Definition elapse (dt : N) (ticks' : list N) (entropy' : list string)
    (faults' : list (option string)) (w : World) : World :=
  mkWorld (clock w + Z.of_N dt) ticks' entropy' faults' (users w) (totp_log w).

Inductive Event : Type :=
| Call (op : Op)
| Elapse (dt : N) (ticks' : list N) (entropy' : list string)
         (faults' : list (option string)).

Fixpoint run (libs : Libs) (a : usecase.AuthUsecase) (events : list Event) (w : World)
    : World :=
  match events with
  | [] => w
  | Call op :: rest => run libs a rest (exec libs a op w)
  | Elapse dt t e f :: rest => run libs a rest (elapse dt t e f w)
  end.

(** [keeps R c]: the world after [c] is related by [R] to the world before,
    whatever [c] returns. *)
Definition keeps (R : World -> World -> Prop) {A} (c : M A) : Prop :=
  forall w, R w (snd (c w)).

(** Nothing changed but the clock, its ticks, the random source and the
    pending faults. *)
Definition frame (w w' : World) : Prop :=
  users w' = users w /\ totp_log w' = totp_log w.

Definition same_users (w w' : World) : Prop := users w' = users w.

Definition same_log (w w' : World) : Prop := totp_log w' = totp_log w.

(** Every account keeps the flag it had. *)
Definition same_flags (w w' : World) : Prop :=
  forall id b, flag w id = Some b -> flag w' id = Some b.

(** An account whose flag was set still has it set. *)
Definition flags_stay_set (w w' : World) : Prop :=
  forall id, flag w id = Some true -> flag w' id = Some true.

(** No two rows share an id and no two rows share an email: the primary key
    and the UNIQUE constraint of the [users] table. *)
Definition unique_keys (rows : list Row) : Prop :=
  NoDup (map r_id rows) /\ NoDup (map r_email rows).

Definition keys_stay_unique (w w' : World) : Prop :=
  unique_keys (users w) -> unique_keys (users w').

Definition same_clock (w w' : World) : Prop := clock w' = clock w.

(** [strings.Join(parts, " ")] *)
Fixpoint Join (parts : list string) : string :=
  match parts with
  | [] => EmptyString
  | [part] => part
  | part :: rest => part ++ " " ++ Join rest
  end.


(** The outcome of a call with the message of its error prefixed, the Go
    idiom [fmt.Errorf("prefix: %w", err)]. *)
Definition wrapped {A} (prefix : string) (out : Result A * World) : Result A * World :=
  match out with
  | (Ok x, w') => (Ok x, w')
  | (Err e, w') => (Err (prefix ++ e), w')
  end.

(** Thirty days, in nanoseconds. *)
Definition thirty_days : Duration := 30 * 24 * 3600 * Second.

(** What is left of [Verify2FA] once the engine has accepted the code. *)
Definition after_code (libs : Libs) (j : jwt.JWTManager) (user : domain.User)
    : M domain.AuthResponse :=
  user' <- (if negb (domain.Is2FAEnabled user)
            then
              r <- attempt (postgres.Enable2FA (domain.ID user)) ;;
              match r with
              | Err e => fail ("failed to enable 2FA: " ++ e)
              | Ok _ => ret (domain.set_Is2FAEnabled user true)
              end
            else ret user) ;;
  r <- attempt (jwt.GenerateToken (lib_jwt libs) j
                  (domain.ID user') (domain.Email user')
                  (domain.Is2FAEnabled user')) ;;
  match r with
  | Err e => fail ("failed to generate token: " ++ e)
  | Ok token =>
      ret (domain.mkAuthResponse token "" false
             (Some (domain.set_TOTPSecret (domain.set_Password user' "") ""))
             "" "")
  end.

(** ** Concrete accounts, tokens and worlds *)

Module scenario.

Definition secret : string := "GEZDGNBVGY3TQOJQGEZDGNBVGY3TQOJQ".

(** 2023-11-14 22:13:20 UTC *)
Definition t0 : Time := 1700000000 * Second.

Definition j : jwt.JWTManager := jwt.NewJWTManager "signing-key" (24 * 60 * Minute).

Definition a : usecase.AuthUsecase := router.authUsecase j.

Definition alice : Row :=
  mkRow "id-alice" "alice@example.com" "salt$password123" "Alice A"
        true false None 0 0.

(** Disabled by an administrator. *)
Definition bob : Row :=
  mkRow "id-bob" "bob@example.com" "salt$correct-horse" "Bob B"
        false false None 0 0.

(** Two-factor login enabled, then disabled by an administrator. *)
Definition carol : Row :=
  mkRow "id-carol" "carol@example.com" "salt$battery-staple" "Carol C"
        false true (Some secret) 0 0.

(** Two-factor login enabled. *)
Definition dan : Row :=
  mkRow "id-dan" "dan@example.com" "salt$tr0ub4dor&3" "Dan D"
        true true (Some secret) 0 0.

Definition at_time (t : Time) (rows : list Row) : World :=
  mkWorld t [137; 211; 59; 1009; 73; 401; 17; 303]%N [secret] [] rows [].

Definition w0 : World := at_time t0 [alice; bob; carol; dan].

(** A temporary token, minted with the manager's key at instant [t]. *)
Definition temp_token_for (row : Row) (t : Time) : string :=
  match jwt.GenerateTempToken reference.jwt_lib j (r_id row) (r_email row)
          (at_time t []) with
  | (Ok tok, _) => tok
  | (Err _, _) => ""
  end.

Definition session_token_for (row : Row) (t : Time) : string :=
  match jwt.GenerateToken reference.jwt_lib j (r_id row) (r_email row)
          (r_is_2fa_enabled row) (at_time t []) with
  | (Ok tok, _) => tok
  | (Err _, _) => ""
  end.

Definition login_as (email password : string) : fiber.Ctx domain.UserLoginRequest :=
  fiber.mkCtx "" (Ok (domain.mkUserLoginRequest email password)) fiber.no_locals.

(** A request to the verification route: the token in the [Authorization]
    header, the code in the body. *)
Definition verify_with (tok code : string) : fiber.Ctx domain.Verify2FARequest :=
  fiber.mkCtx ("Bearer " ++ tok) (Ok (domain.mkVerify2FARequest "" code)) fiber.no_locals.

(** The claims of [temp_token_for row t]. *)
Definition temp_claims_for (row : Row) (t : Time) : jwt.Claims :=
  issued_claims (r_id row) (r_email row) false true (15 * Minute)
    t (clock (after_reads 1 (at_time t []))) (clock (after_reads 2 (at_time t []))).

(** Alice has run the two-factor setup and has not verified a code yet. *)
Definition w_setup : World := snd (usecase.Setup2FA reference.libs a "id-alice" w0).

(** Alice's row after the setup. *)
Definition alice_setup : Row :=
  mkRow "id-alice" "alice@example.com" "salt$password123" "Alice A"
        true false (Some secret) 0 t0.

(** The value a computation returned, [d] if it failed. *)
Definition value {A} (d : A) (out : Result A * World) : A :=
  match fst out with
  | Ok x => x
  | Err _ => d
  end.

Definition no_response : domain.AuthResponse :=
  domain.mkAuthResponse "" "" false None "" "".

Definition no_user : domain.User := domain.mkUser "" "" "" "" false false "" 0 0.

(** A newcomer, and a world whose random source yields her salt and her
    id. *)
Definition erin_req : domain.UserRegisterRequest :=
  domain.mkUserRegisterRequest "erin@example.com" "longenough" "Erin E".


Definition w_reg : World :=
  mkWorld t0 [137; 211; 59; 1009; 73; 401; 17; 303]%N ["salt-erin"; "id-erin"] []
          [alice; bob; carol; dan] [].

(** A token for Dan's account whose header names RS256, made by someone who
    does not hold the signing key. *)
Definition rs256_token : string :=
  match jwtlib.SignedString reference.jwt_lib jwtlib.RS256
          (issued_claims "id-dan" "dan@example.com" true false (24 * 60 * Minute) t0 t0 t0)
          "a-key-of-the-sender" with
  | Ok tok => tok
  | Err _ => ""
  end.

(** A request with a [Bearer] token and no body. *)
Definition with_bearer (tok : string) : fiber.Ctx unit :=
  fiber.mkCtx ("Bearer " ++ tok) (Ok tt) fiber.no_locals.

(** A request-log repository over an empty table. *)
Definition no_logs : request_log.RequestLogUsecase unit :=
  request_log.NewRequestLogUsecase unit
    (request_log.mkRequestLogRepository unit
       (fun _ => ret tt) (fun _ _ _ => ret []) (fun _ _ _ => ret []) (fun _ _ => ret tt)).

(** Three places as a search could return them: one without a name, one
    permanently closed, one with a rating out of range and no status. *)
Definition place (name status : string) (rating : float) : restaurant.Restaurant :=
  restaurant.mkRestaurant "place-id" name "1 Main Street " rating 12 2 None None [] []
                          status.

Definition places : list restaurant.Restaurant :=
  [place "   " "OPERATIONAL" 4; place "Old Inn" "CLOSED_PERMANENTLY" 3;
   place " Warung Sate " "" 7].

Definition places_repo : restaurant.RestaurantUsecase :=
  restaurant.NewRestaurantUsecase
    (restaurant.mkRestaurantRepository
       (fun _ _ => ret (restaurant.mkRestaurantSearchResponse places "OK" "next"))
       (fun _ _ _ _ => ret (restaurant.mkRestaurantSearchResponse places "OK" ""))).

End scenario.

(** * Properties *)

(** ** Basic facts about the monad and the clock *)

Lemma tick_clock (w : World) : clock w <= clock (tick w).
Proof. unfold tick; destruct (ticks w); simpl; lia. Qed.

Lemma tick_users (w : World) : users (tick w) = users w.
Proof. unfold tick; destruct (ticks w); reflexivity. Qed.

Lemma tick_totp_log (w : World) : totp_log (tick w) = totp_log w.
Proof. unfold tick; destruct (ticks w); reflexivity. Qed.

#[local] Arguments tick : simpl never.

(** [strings.Split]: a single part is the whole string. *)
Lemma Split_single (s t : string) : Split s = [t] -> t = s.
Proof.
  revert t; induction s as [|c s IH]; intros t H; simpl in H.
  - now inversion H.
  - destruct (Ascii.eqb c " "); [destruct s; simpl in H; try discriminate|].
    + destruct (Ascii.eqb a " "); try discriminate.
      destruct (Split s); discriminate.
    + destruct (Split s) as [|p ps] eqn:E.
      * inversion H; subst. destruct s; simpl in E; try discriminate.
        destruct (Ascii.eqb a " "); try discriminate. destruct (Split s); discriminate.
      * inversion H; subst. now rewrite (IH p eq_refl).
Qed.

(** ** Stepping through a computation that succeeded *)

Lemma bind_ok {A B} (c : M A) (k : A -> M B) (w w' : World) (b : B) :
  bind c k w = (Ok b, w') ->
  exists a w1, c w = (Ok a, w1) /\ k a w1 = (Ok b, w').
Proof.
  unfold bind. destruct (c w) as [[a|e] w1]; [|discriminate].
  intros H; now exists a, w1.
Qed.

Lemma attempt_ok {A} (c : M A) (w w' : World) (r : Result A) :
  attempt c w = (Ok r, w') -> c w = (r, w').
Proof.
  unfold attempt. destruct (c w) as [r1 w1]. intros H; now inversion H.
Qed.

Lemma ret_ok {A} (a b : A) (w w' : World) : ret a w = (Ok b, w') -> a = b /\ w = w'.
Proof. unfold ret; intros H; now inversion H. Qed.

(** [step H as x w1 Hc] splits [H : bind c k w = (Ok _, _)] into the run of
    [c], named [Hc], and the run of the continuation, left in [H]. *)
Tactic Notation "step" hyp(H) "as" ident(x) ident(w1) ident(Hc) :=
  apply bind_ok in H; destruct H as (x & w1 & Hc & H);
  try apply attempt_ok in Hc.

Ltac unfold_repo :=
  unfold router.authUsecase, usecase.NewAuthUsecase, postgres.NewUserRepository in *;
  cbn [usecase.userRepo usecase.jwtManager usecase.Create usecase.GetByEmail
       usecase.GetByID usecase.Update usecase.UpdateTOTPSecret usecase.Enable2FA] in *.

(** ** What the validators accept *)

Section TokenValidation.

Variable lib : jwtlib.Lib jwt.Claims.
Variable j : jwt.JWTManager.

(** A token the validator accepts decodes to the claims it returns, is
    signed with an HMAC method under the manager's key, and is within its
    validity window at the instant read. *)
Lemma ValidateToken_accepts (tok : string) (w w' : World) (claims : jwt.Claims) :
  jwt.ValidateToken lib j tok w = (Ok claims, w') ->
  exists token,
    jwtlib.decode lib tok = Some token /\
    claims = jwtlib.Claims token /\
    jwtlib.isHMAC (jwtlib.Method token) = true /\
    jwtlib.Verify lib (jwtlib.Method token) (jwtlib.SigningInput token)
      (jwtlib.Signature token) (jwt.secretKey j) = true /\
    jwtlib.verifyExpiresAt jwt.Registered claims (clock w) = true /\
    jwtlib.verifyNotBefore jwt.Registered claims (clock w) = true /\
    w' = tick w.
Proof.
  unfold jwt.ValidateToken, jwtlib.ParseWithClaims, jwt.keyFunc, bind, attempt, ret, fail.
  destruct (jwtlib.decode lib tok) as [token|]; [|discriminate].
  destruct (jwtlib.isHMAC (jwtlib.Method token)) eqn:Hm; simpl; [|discriminate].
  destruct (jwtlib.Verify lib _ _ _ _) eqn:Hv; [|discriminate].
  unfold time_Now, jwtlib.Validate.
  destruct (jwtlib.verifyExpiresAt jwt.Registered (jwtlib.Claims token) (clock w)) eqn:He;
    destruct (jwtlib.verifyNotBefore jwt.Registered (jwtlib.Claims token) (clock w)) eqn:Hn;
    simpl; try discriminate.
  intros H; inversion H; subst.
  exists token; repeat split; auto.
Qed.

(** Conversely. *)
Lemma ValidateToken_complete (tok : string) (token : jwtlib.Token jwt.Claims) (w : World) :
  jwtlib.decode lib tok = Some token ->
  jwtlib.isHMAC (jwtlib.Method token) = true ->
  jwtlib.Verify lib (jwtlib.Method token) (jwtlib.SigningInput token)
    (jwtlib.Signature token) (jwt.secretKey j) = true ->
  jwtlib.verifyExpiresAt jwt.Registered (jwtlib.Claims token) (clock w) = true ->
  jwtlib.verifyNotBefore jwt.Registered (jwtlib.Claims token) (clock w) = true ->
  jwt.ValidateToken lib j tok w = (Ok (jwtlib.Claims token), tick w).
Proof.
  intros Hd Hm Hv He Hn.
  unfold jwt.ValidateToken, jwtlib.ParseWithClaims, jwt.keyFunc, bind, attempt, ret, fail.
  rewrite Hd, Hm; simpl. rewrite Hv.
  unfold time_Now, jwtlib.Validate. now rewrite He, Hn.
Qed.

(** The temporary-token validator accepts exactly the tokens the session
    validator accepts whose [temp_auth] flag is set. *)
Lemma ValidateTempToken_accepts (tok : string) (w w' : World) (claims : jwt.Claims) :
  jwt.ValidateTempToken lib j tok w = (Ok claims, w') <->
  jwt.ValidateToken lib j tok w = (Ok claims, w') /\ jwt.TempAuth claims = true.
Proof.
  unfold jwt.ValidateTempToken, bind, attempt, ret, fail.
  destruct (jwt.ValidateToken lib j tok w) as [[c|e] w1]; simpl.
  - destruct (jwt.TempAuth c) eqn:Ht; simpl; split.
    + intros H; inversion H; subst; auto.
    + intros [H _]; exact H.
    + discriminate.
    + intros [H Ht']; inversion H; subst; congruence.
  - split; [discriminate | intros [H _]; discriminate].
Qed.

End TokenValidation.

(** ** The full-session gate and temporary tokens *)

Section SessionGate.

Variable libs : Libs.
Variable j : jwt.JWTManager.

(** C3. A token whose claims carry [temp_auth = true] is answered with 401
    Unauthorized by the middleware that guards the protected routes, at any
    instant and in any state of the store, whether or not its signature and
    expiry are valid. *)
Theorem temp_token_rejected_by_session_gate
    (B : Type) (c : fiber.Ctx B) (tok : string) (token : jwtlib.Token jwt.Claims)
    (w : World) :
  jwtlib.decode (lib_jwt libs) tok = Some token ->
  jwt.TempAuth (jwtlib.Claims token) = true ->
  fiber.Authorization c = "Bearer " ++ tok ->
  exists msg w',
    middleware.AuthMiddleware libs j c w =
      (Ok (fiber.Respond (response.Unauthorized msg)), w').
Proof.
  intros Hd Ht Ha.
  unfold middleware.AuthMiddleware. rewrite Ha.
  change (String.eqb ("Bearer " ++ tok) "") with false. cbv iota.
  change (Split ("Bearer " ++ tok)) with ("Bearer" :: Split tok).
  destruct (Split tok) as [|t [|t' rest]] eqn:Hs.
  - eexists; eexists; reflexivity.
  - apply Split_single in Hs; subst t.
    change (negb (String.eqb "Bearer" "Bearer")) with false. cbv iota.
    unfold bind, attempt, ret.
    destruct (jwt.ValidateToken (lib_jwt libs) j tok w) as [[claims|e] w1] eqn:Hv.
    + apply ValidateToken_accepts in Hv.
      destruct Hv as (token' & Hd' & Hc & _).
      rewrite Hd in Hd'; inversion Hd'; subst token' claims.
      rewrite Ht. eexists; eexists; reflexivity.
    + eexists; eexists; reflexivity.
  - eexists; eexists; reflexivity.
Qed.

(** When the token is moreover valid as a temporary token, it is the
    explicit check of [temp_auth] that turns it away. *)
Lemma valid_temp_token_rejected
    (B : Type) (c : fiber.Ctx B) (tok : string) (claims : jwt.Claims) (w w1 : World) :
  jwt.ValidateTempToken (lib_jwt libs) j tok w = (Ok claims, w1) ->
  Split tok = [tok] ->
  fiber.Authorization c = "Bearer " ++ tok ->
  middleware.AuthMiddleware libs j c w =
    (Ok (fiber.Respond
           (response.Unauthorized "Temporary token cannot be used for this endpoint")),
     w1).
Proof.
  intros Hv Hs Ha. apply ValidateTempToken_accepts in Hv as [Hv Ht].
  unfold middleware.AuthMiddleware. rewrite Ha.
  change (String.eqb ("Bearer " ++ tok) "") with false. cbv iota.
  change (Split ("Bearer " ++ tok)) with ("Bearer" :: Split tok). rewrite Hs.
  change (negb (String.eqb "Bearer" "Bearer")) with false. cbv iota.
  unfold bind, attempt, ret. now rewrite Hv, Ht.
Qed.

End SessionGate.

(** ** Failed logins *)

Section LoginFailures.

Variable libs : Libs.
Variable j : jwt.JWTManager.

Let a : usecase.AuthUsecase := router.authUsecase j.

(** The use case's verdict on a login attempt, by cause. *)
Lemma Login_no_account (req : domain.UserLoginRequest) (w w1 : World) (e : string) :
  postgres.GetByEmail (domain.LoginEmail req) w = (Err e, w1) ->
  usecase.Login libs a req w = (Err "invalid credentials", w1).
Proof.
  intros H. unfold usecase.Login, bind, attempt, fail; simpl. now rewrite H.
Qed.

Lemma Login_wrong_password (req : domain.UserLoginRequest) (w w1 : World)
    (user : domain.User) :
  postgres.GetByEmail (domain.LoginEmail req) w = (Ok user, w1) ->
  crypto.CheckPassword (lib_bcrypt libs) (domain.LoginPassword req)
    (domain.Password user) = false ->
  usecase.Login libs a req w = (Err "invalid credentials", w1).
Proof.
  intros H Hp. unfold usecase.Login, bind, attempt, fail; simpl. now rewrite H, Hp.
Qed.

Lemma Login_inactive (req : domain.UserLoginRequest) (w w1 : World)
    (user : domain.User) :
  postgres.GetByEmail (domain.LoginEmail req) w = (Ok user, w1) ->
  crypto.CheckPassword (lib_bcrypt libs) (domain.LoginPassword req)
    (domain.Password user) = true ->
  domain.IsActive user = false ->
  usecase.Login libs a req w = (Err "user account is disabled", w1).
Proof.
  intros H Hp Ha. unfold usecase.Login, bind, attempt, fail; simpl.
  now rewrite H, Hp, Ha.
Qed.

(** The handler turns every failure of the use case into 401 Unauthorized
    carrying the use case's message. *)
Lemma handler_Login_failure (c : fiber.Ctx domain.UserLoginRequest)
    (req : domain.UserLoginRequest) (w w1 : World) (e : string) :
  fiber.ParsedBody c = Ok req ->
  domain.LoginEmail req <> "" ->
  domain.LoginPassword req <> "" ->
  usecase.Login libs a req w = (Err e, w1) ->
  router.auth_login libs j c w = (Ok (response.Unauthorized e), w1).
Proof.
  intros Hb He Hp H.
  unfold router.auth_login, handler.Login. rewrite Hb.
  apply String.eqb_neq in He, Hp. rewrite He, Hp.
  unfold bind, attempt, ret; simpl. fold a. now rewrite H.
Qed.

(** A login that succeeds without a second factor returns the session
    token together with the stored account, its password cleared and its
    other fields, the TOTP secret among them, as the repository read them. *)
Lemma Login_without_2fa (req : domain.UserLoginRequest) (w w' : World)
    (resp : domain.AuthResponse) :
  usecase.Login libs a req w = (Ok resp, w') ->
  domain.Requires2FA resp = false ->
  exists user w1,
    postgres.GetByEmail (domain.LoginEmail req) w = (Ok user, w1) /\
    domain.Is2FAEnabled user = false /\
    jwt.GenerateToken (lib_jwt libs) j (domain.ID user) (domain.Email user) false w1 =
      (Ok (domain.Token resp), w') /\
    domain.AuthUser resp = Some (domain.set_Password user "").
Proof.
  unfold usecase.Login, a. unfold_repo. intros H Hr.
  step H as found w1 H1. destruct found as [user|e1]; [|discriminate].
  destruct (negb (crypto.CheckPassword _ _ _)); [discriminate|].
  destruct (negb (domain.IsActive user)); [discriminate|].
  destruct (domain.Is2FAEnabled user) eqn:E2.
  - step H as r w2 H2. destruct r as [tempToken|e2]; [|discriminate].
    apply ret_ok in H as [H _]; subst resp. discriminate.
  - step H as r w2 H2. destruct r as [token|e2]; [|discriminate].
    apply ret_ok in H as [H Hw]; subst resp w2.
    exists user, w1. auto.
Qed.

(** C1, as the code has it. A login attempt fails with the message
    "invalid credentials" when no account can be read for the email and when
    the password does not verify; it fails with the different message "user
    account is disabled" when the password verifies and the account is
    inactive. The login route answers all three with 401 Unauthorized and the
    use case's message. *)
Theorem login_failure_by_cause
    (c : fiber.Ctx domain.UserLoginRequest) (req : domain.UserLoginRequest)
    (w : World) :
  fiber.ParsedBody c = Ok req ->
  domain.LoginEmail req <> "" ->
  domain.LoginPassword req <> "" ->
  let password_ok user :=
    crypto.CheckPassword (lib_bcrypt libs) (domain.LoginPassword req)
      (domain.Password user) in
  let verdict (message : string) (w1 : World) :=
    usecase.Login libs a req w = (Err message, w1) /\
    router.auth_login libs j c w = (Ok (response.Unauthorized message), w1) in
  (forall e w1,
     postgres.GetByEmail (domain.LoginEmail req) w = (Err e, w1) ->
     verdict "invalid credentials" w1) /\
  (forall user w1,
     postgres.GetByEmail (domain.LoginEmail req) w = (Ok user, w1) ->
     password_ok user = false ->
     verdict "invalid credentials" w1) /\
  (forall user w1,
     postgres.GetByEmail (domain.LoginEmail req) w = (Ok user, w1) ->
     password_ok user = true ->
     domain.IsActive user = false ->
     verdict "user account is disabled" w1).
Proof.
  intros Hb He Hp password_ok verdict.
  assert (Hv : forall m w1, usecase.Login libs a req w = (Err m, w1) -> verdict m w1).
  { intros m w1 H; split; [exact H | now apply handler_Login_failure with (req := req)]. }
  split; [|split].
  - intros e w1 H. apply Hv. now apply Login_no_account with (e := e).
  - intros user w1 H Hw. apply Hv. now apply Login_wrong_password with (user := user).
  - intros user w1 H Hw Hi. apply Hv. now apply Login_inactive with (user := user).
Qed.

End LoginFailures.

(** ** Token lifetimes and the round trip *)

Lemma NewNumericDate_le (t : Time) : jwtlib.NewNumericDate t <= t.
Proof.
  unfold jwtlib.NewNumericDate, Second.
  pose proof (Z.mod_pos_bound t 1000000000 ltac:(lia)). lia.
Qed.

Lemma NewNumericDate_add_seconds (t n : Z) :
  jwtlib.NewNumericDate (t + n * Second) = jwtlib.NewNumericDate t + n * Second.
Proof.
  unfold jwtlib.NewNumericDate. rewrite Z.mod_add by (unfold Second; lia).
  unfold Second. lia.
Qed.

Section Issuer.

Variable lib : jwtlib.Lib jwt.Claims.

Lemma GenerateToken_unfold (j : jwt.JWTManager) (id : UUID) (email : string)
    (is2FA : bool) (w : World) :
  jwt.GenerateToken lib j id email is2FA w =
    (jwtlib.SignedString lib jwtlib.HS256
       (issued_claims id email is2FA false (jwt.expiry j)
          (clock w) (clock (after_reads 1 w)) (clock (after_reads 2 w)))
       (jwt.secretKey j),
     after_reads 3 w).
Proof. reflexivity. Qed.

Lemma GenerateTempToken_unfold (j : jwt.JWTManager) (id : UUID) (email : string)
    (w : World) :
  jwt.GenerateTempToken lib j id email w =
    (jwtlib.SignedString lib jwtlib.HS256
       (issued_claims id email false true (15 * Minute)
          (clock w) (clock (after_reads 1 w)) (clock (after_reads 2 w)))
       (jwt.secretKey j),
     after_reads 3 w).
Proof. reflexivity. Qed.

Hypothesis lib_roundtrip : jwtlib.roundtrip lib.

(** C4. The temporary token expires a fixed fifteen minutes after the
    instant of issuance (cut to the second, as every date in a token is),
    whatever session lifetime the manager is configured with: two managers
    that differ only in that setting issue the same temporary token. The
    session token expires the configured lifetime after issuance. Both
    functions issue their token whenever the library signs. *)
Theorem token_lifetimes (key : string) (ttl : Duration) (id : UUID) (email : string)
    (is2FA : bool) (w : World) :
  let j := jwt.NewJWTManager key ttl in
  let expires_at tok t :=
    exists token,
      jwtlib.decode lib tok = Some token /\
      jwtlib.ExpiresAt (jwt.Registered (jwtlib.Claims token)) = Some t in
  (forall ttl',
     jwt.GenerateTempToken lib (jwt.NewJWTManager key ttl') id email w =
     jwt.GenerateTempToken lib j id email w) /\
  (forall tok w',
     jwt.GenerateTempToken lib j id email w = (Ok tok, w') ->
     expires_at tok (jwtlib.NewNumericDate (clock w + 15 * Minute)) /\
     jwtlib.NewNumericDate (clock w + 15 * Minute) =
       jwtlib.NewNumericDate (clock w) + 900 * Second) /\
  (forall tok w',
     jwt.GenerateToken lib j id email is2FA w = (Ok tok, w') ->
     expires_at tok (jwtlib.NewNumericDate (clock w + ttl)) /\
     forall n, ttl = n * Second ->
       jwtlib.NewNumericDate (clock w + ttl) = jwtlib.NewNumericDate (clock w) + ttl) /\
  ((forall c k, exists s, jwtlib.SignedString lib jwtlib.HS256 c k = Ok s) ->
   (exists tok w',
      jwt.GenerateTempToken lib j id email w = (Ok tok, w') /\
      expires_at tok (jwtlib.NewNumericDate (clock w + 15 * Minute))) /\
   (exists tok w',
      jwt.GenerateToken lib j id email is2FA w = (Ok tok, w') /\
      expires_at tok (jwtlib.NewNumericDate (clock w + ttl)))).
Proof.
  intros j expires_at.
  assert (Htemp : forall tok w',
             jwt.GenerateTempToken lib j id email w = (Ok tok, w') ->
             expires_at tok (jwtlib.NewNumericDate (clock w + 15 * Minute))).
  { intros tok w' H. rewrite GenerateTempToken_unfold in H.
    assert (Hs := f_equal fst H); cbn [fst] in Hs.
    apply lib_roundtrip in Hs; [|reflexivity].
    destruct Hs as (input & sig & Hd & _).
    eexists; split; [exact Hd | reflexivity]. }
  assert (Hsession : forall tok w',
             jwt.GenerateToken lib j id email is2FA w = (Ok tok, w') ->
             expires_at tok (jwtlib.NewNumericDate (clock w + ttl))).
  { intros tok w' H. rewrite GenerateToken_unfold in H.
    assert (Hs := f_equal fst H); cbn [fst] in Hs.
    apply lib_roundtrip in Hs; [|reflexivity].
    destruct Hs as (input & sig & Hd & _).
    eexists; split; [exact Hd | reflexivity]. }
  split; [|split; [|split]].
  - reflexivity.
  - intros tok w' H. split; [exact (Htemp tok w' H)|].
    change (15 * Minute) with (900 * Second). apply NewNumericDate_add_seconds.
  - intros tok w' H. split; [exact (Hsession tok w' H)|].
    intros n Hn. rewrite Hn. apply NewNumericDate_add_seconds.
  - intros Hsign. split.
    + destruct (jwt.GenerateTempToken lib j id email w) as [[tok|e] w'] eqn:E.
      * exists tok, w'. split; [reflexivity | exact (Htemp tok w' eq_refl)].
      * exfalso. rewrite GenerateTempToken_unfold in E.
        assert (Hs := f_equal fst E); cbn [fst] in Hs.
        match type of Hs with
        | jwtlib.SignedString _ _ ?c ?k = _ => destruct (Hsign c k) as [s Hk]
        end.
        rewrite Hk in Hs. discriminate.
    + destruct (jwt.GenerateToken lib j id email is2FA w) as [[tok|e] w'] eqn:E.
      * exists tok, w'. split; [reflexivity | exact (Hsession tok w' eq_refl)].
      * exfalso. rewrite GenerateToken_unfold in E.
        assert (Hs := f_equal fst E); cbn [fst] in Hs.
        match type of Hs with
        | jwtlib.SignedString _ _ ?c ?k = _ => destruct (Hsign c k) as [s Hk]
        end.
        rewrite Hk in Hs. discriminate.
Qed.

(** C9. A session token issued for [(id, email)] validates under the same
    manager at any later instant before its expiry, and the claims returned
    carry that id and that email. *)
Theorem session_token_roundtrip (j : jwt.JWTManager) (id : UUID) (email : string)
    (w w1 w2 : World) (tok : string) :
  jwt.GenerateToken lib j id email false w = (Ok tok, w1) ->
  clock w1 <= clock w2 ->
  clock w2 < jwtlib.NewNumericDate (clock w + jwt.expiry j) ->
  exists claims w3,
    jwt.ValidateToken lib j tok w2 = (Ok claims, w3) /\
    jwt.UserID claims = id /\
    jwt.Email claims = email.
Proof.
  intros H Hle Hlt. rewrite GenerateToken_unfold in H.
  assert (Hs := f_equal fst H); assert (Hw := f_equal snd H); cbn [fst snd] in Hs, Hw.
  apply lib_roundtrip in Hs; [|reflexivity].
  destruct Hs as (input & sig & Hd & Hv).
  eexists; eexists; split.
  - apply (ValidateToken_complete lib j tok _ w2 Hd); auto; simpl.
    + unfold jwtlib.verifyExpiresAt; simpl. now apply Z.ltb_lt.
    + unfold jwtlib.verifyNotBefore; simpl. apply negb_true_iff, Z.ltb_ge.
      pose proof (NewNumericDate_le (clock (after_reads 2 w))).
      pose proof (tick_clock (after_reads 2 w)) as Hc.
      change (tick (after_reads 2 w)) with (after_reads 3 w) in Hc.
      rewrite Hw in Hc. change (after_reads 2 w) with (tick (tick w)) in *. lia.
  - split; reflexivity.
Qed.

End Issuer.

(** ** What a computation leaves in place *)

Create HintDb keeps discriminated.

Section Keeps.

Variable R : World -> World -> Prop.
Hypothesis R_refl : forall w, R w w.
Hypothesis R_trans : forall w1 w2 w3, R w1 w2 -> R w2 w3 -> R w1 w3.

Lemma keeps_ret {A} (a : A) : keeps R (ret a).
Proof. intros w; apply R_refl. Qed.

Lemma keeps_fail {A} (e : string) : keeps R (@fail A e).
Proof. intros w; apply R_refl. Qed.

Lemma keeps_lift {A} (r : Result A) : keeps R (lift r).
Proof. intros w; apply R_refl. Qed.

Lemma keeps_attempt {A} (c : M A) : keeps R c -> keeps R (attempt c).
Proof.
  intros H w. specialize (H w). unfold attempt. now destruct (c w).
Qed.

Lemma keeps_bind {A B} (c : M A) (k : A -> M B) :
  keeps R c -> (forall a, keeps R (k a)) -> keeps R (bind c k).
Proof.
  intros Hc Hk w. specialize (Hc w). unfold bind.
  destruct (c w) as [[a|e] w1]; simpl in *; [|exact Hc].
  eapply R_trans; [exact Hc | apply Hk].
Qed.

End Keeps.

Ltac keeps_step :=
  lazymatch goal with
  | |- keeps _ (bind _ _) => apply keeps_bind; [solve [eauto with keeps] | | intros ?]
  | |- keeps _ (attempt _) => apply keeps_attempt
  | |- keeps _ (ret _) => apply keeps_ret; solve [eauto with keeps]
  | |- keeps _ (fail _) => apply keeps_fail; solve [eauto with keeps]
  | |- keeps _ (lift _) => apply keeps_lift; solve [eauto with keeps]
  | |- keeps _ (match ?x with _ => _ end) => destruct x
  | |- keeps _ _ => solve [eauto with keeps]
  | |- _ => solve [eauto with keeps]
  end.

Ltac keeps_tac := repeat keeps_step.

Lemma frame_refl (w : World) : frame w w.
Proof. split; reflexivity. Qed.

Lemma frame_trans (w1 w2 w3 : World) : frame w1 w2 -> frame w2 w3 -> frame w1 w3.
Proof. unfold frame; intros [] []; split; congruence. Qed.

Lemma same_users_refl (w : World) : same_users w w.
Proof. reflexivity. Qed.

Lemma same_users_trans (w1 w2 w3 : World) :
  same_users w1 w2 -> same_users w2 w3 -> same_users w1 w3.
Proof. unfold same_users; congruence. Qed.

Lemma same_log_refl (w : World) : same_log w w.
Proof. reflexivity. Qed.

Lemma same_log_trans (w1 w2 w3 : World) :
  same_log w1 w2 -> same_log w2 w3 -> same_log w1 w3.
Proof. unfold same_log; congruence. Qed.

Lemma same_flags_refl (w : World) : same_flags w w.
Proof. intros id b H; exact H. Qed.

Lemma same_flags_trans (w1 w2 w3 : World) :
  same_flags w1 w2 -> same_flags w2 w3 -> same_flags w1 w3.
Proof. unfold same_flags; auto. Qed.

Lemma flags_stay_set_refl (w : World) : flags_stay_set w w.
Proof. intros id H; exact H. Qed.

Lemma flags_stay_set_trans (w1 w2 w3 : World) :
  flags_stay_set w1 w2 -> flags_stay_set w2 w3 -> flags_stay_set w1 w3.
Proof. unfold flags_stay_set; auto. Qed.

#[local] Hint Resolve frame_refl frame_trans same_users_refl same_users_trans
  same_log_refl same_log_trans same_flags_refl same_flags_trans
  flags_stay_set_refl flags_stay_set_trans : keeps.

Lemma same_users_flags (w w' : World) : same_users w w' -> same_flags w w'.
Proof. unfold same_users, same_flags, flag; intros H id b. now rewrite H. Qed.

Lemma same_flags_stay_set (w w' : World) : same_flags w w' -> flags_stay_set w w'.
Proof. unfold same_flags, flags_stay_set; auto. Qed.

Lemma keeps_weaken (R R' : World -> World -> Prop) {A} (c : M A) :
  (forall w w', R w w' -> R' w w') -> keeps R c -> keeps R' c.
Proof. intros H Hc w; apply H, Hc. Qed.

Lemma keeps_frame_users {A} (c : M A) : keeps frame c -> keeps same_users c.
Proof. apply keeps_weaken; now intros w w' []. Qed.

Lemma keeps_frame_log {A} (c : M A) : keeps frame c -> keeps same_log c.
Proof. apply keeps_weaken; now intros w w' []. Qed.

Lemma keeps_users_flags {A} (c : M A) : keeps same_users c -> keeps same_flags c.
Proof. apply keeps_weaken, same_users_flags. Qed.

Lemma keeps_flags_stay_set {A} (c : M A) : keeps same_flags c -> keeps flags_stay_set c.
Proof. apply keeps_weaken, same_flags_stay_set. Qed.

#[local] Hint Resolve keeps_frame_users keeps_frame_log keeps_users_flags
  keeps_flags_stay_set : keeps.

(** The primitives that touch neither the table nor the log. *)
Lemma frame_time_Now : keeps frame time_Now.
Proof. intros w; split; [apply tick_users | apply tick_totp_log]. Qed.

Lemma frame_rand_Read : keeps frame rand_Read.
Proof. intros w; unfold rand_Read; destruct (entropy w); split; reflexivity. Qed.

Lemma frame_driver : keeps frame postgres.driver.
Proof.
  intros w; unfold postgres.driver; destruct (db_faults w) as [|[e|] rest];
    split; reflexivity.
Qed.

#[local] Hint Resolve frame_time_Now frame_rand_Read frame_driver : keeps.

Lemma frame_QueryRow (p : Row -> bool) : keeps frame (postgres.QueryRow p).
Proof.
  unfold postgres.QueryRow. keeps_tac.
  intros w; destruct (find p (users w)); split; reflexivity.
Qed.

#[local] Hint Resolve frame_QueryRow : keeps.

Lemma frame_GetByEmail (email : string) : keeps frame (postgres.GetByEmail email).
Proof. unfold postgres.GetByEmail. keeps_tac. Qed.

Lemma frame_GetByID (id : UUID) : keeps frame (postgres.GetByID id).
Proof. unfold postgres.GetByID. keeps_tac. Qed.

Lemma frame_GenerateToken lib j id email is2FA :
  keeps frame (jwt.GenerateToken lib j id email is2FA).
Proof. unfold jwt.GenerateToken. keeps_tac. Qed.

Lemma frame_GenerateTempToken lib j id email :
  keeps frame (jwt.GenerateTempToken lib j id email).
Proof. unfold jwt.GenerateTempToken. keeps_tac. Qed.

Lemma frame_ValidateToken lib j tok : keeps frame (jwt.ValidateToken lib j tok).
Proof. unfold jwt.ValidateToken, jwtlib.ParseWithClaims. keeps_tac. Qed.

#[local] Hint Resolve frame_GetByEmail frame_GetByID frame_GenerateToken
  frame_GenerateTempToken frame_ValidateToken : keeps.

Lemma frame_ValidateTempToken lib j tok : keeps frame (jwt.ValidateTempToken lib j tok).
Proof. unfold jwt.ValidateTempToken. keeps_tac. Qed.

Lemma frame_HashPassword lib password : keeps frame (crypto.HashPassword lib password).
Proof. unfold crypto.HashPassword. keeps_tac. Qed.

Lemma frame_totp_Generate lib opts : keeps frame (totp.Generate lib opts).
Proof. unfold totp.Generate. keeps_tac. Qed.

#[local] Hint Resolve frame_ValidateTempToken frame_HashPassword frame_totp_Generate
  : keeps.

(** ** The table under the repository's statements *)

Lemma find_update_where_id (id id' : UUID) (f : Row -> Row) (rows : list Row) :
  (forall row, r_id (f row) = r_id row) ->
  find (by_id id) (postgres.update_where_id id' f rows) =
  option_map (fun row => if String.eqb (r_id row) id' then f row else row)
             (find (by_id id) rows).
Proof.
  intros Hf. induction rows as [|row rows IH]; [reflexivity|].
  unfold postgres.update_where_id in *. cbn [map find].
  unfold by_id at 1 3.
  destruct (String.eqb (r_id row) id') eqn:E.
  - rewrite Hf. destruct (String.eqb (r_id row) id); [simpl; now rewrite E | exact IH].
  - destruct (String.eqb (r_id row) id); [simpl; now rewrite E | exact IH].
Qed.

Lemma find_app_some {A} (p : A -> bool) (l l' : list A) (x : A) :
  find p l = Some x -> find p (l ++ l') = Some x.
Proof.
  induction l as [|y l IH]; simpl; [discriminate|].
  destruct (p y); auto.
Qed.

Lemma find_app_none {A} (p : A -> bool) (l l' : list A) :
  find p l = None -> find p (l ++ l') = find p l'.
Proof.
  induction l as [|y l IH]; simpl; [reflexivity|].
  destruct (p y); [discriminate | auto].
Qed.

Lemma find_none_of_existsb {A} (p q : A -> bool) (l : list A) :
  existsb (fun x => p x || q x) l = false -> find p l = None.
Proof.
  induction l as [|y l IH]; simpl; [reflexivity|].
  destruct (p y); simpl; [discriminate|].
  destruct (q y); simpl; [discriminate | exact IH].
Qed.

(** [Create] adds a row for an id that had none, or leaves the table. *)
Lemma Create_same_flags (user : domain.User) : keeps same_flags (postgres.Create user).
Proof.
  unfold postgres.Create. keeps_tac.
  intros w id b H.
  match goal with |- context [existsb ?p ?l] => destruct (existsb p l) end;
    [exact H|].
  unfold flag in *; simpl.
  destruct (find (by_id id) (users w)) as [row|] eqn:E; [|discriminate].
  now rewrite (find_app_some _ _ _ _ E).
Qed.

Lemma Create_ok (user : domain.User) (w w' : World) :
  postgres.Create user w = (Ok tt, w') ->
  flag w' (domain.ID user) = Some (domain.Is2FAEnabled user).
Proof.
  unfold postgres.Create, bind, attempt, fail.
  destruct (postgres.driver w) as [[[]|e] w1]; [|discriminate].
  match goal with |- context [existsb ?p ?l] => destruct (existsb p l) eqn:E end;
    [discriminate|].
  intros H; inversion H; subst; clear H.
  unfold flag; simpl.
  rewrite find_app_none.
  - simpl. unfold by_id; simpl. now rewrite String.eqb_refl.
  - exact (find_none_of_existsb (by_id (domain.ID user)) _ _ E).
Qed.

Lemma UpdateTOTPSecret_same_flags (id : UUID) (secret : string) :
  keeps same_flags (postgres.UpdateTOTPSecret id secret).
Proof.
  unfold postgres.UpdateTOTPSecret. keeps_tac.
  intros w id' b H. unfold flag in *; simpl.
  rewrite find_update_where_id by reflexivity.
  destruct (find (by_id id') (users w)) as [row|]; [|discriminate].
  simpl in *. now destruct (String.eqb (r_id row) id).
Qed.

Lemma Enable2FA_flags_stay_set (id : UUID) : keeps flags_stay_set (postgres.Enable2FA id).
Proof.
  unfold postgres.Enable2FA. keeps_tac.
  intros w id' H. unfold flag in *; simpl.
  rewrite find_update_where_id by reflexivity.
  destruct (find (by_id id') (users w)) as [row|]; [|discriminate].
  simpl in *. now destruct (String.eqb (r_id row) id).
Qed.

Lemma Enable2FA_ok (id : UUID) (w w' : World) (b : bool) :
  postgres.Enable2FA id w = (Ok tt, w') ->
  flag w id = Some b ->
  flag w' id = Some true.
Proof.
  unfold postgres.Enable2FA, bind, attempt, fail.
  destruct (postgres.driver w) as [[[]|e] w1] eqn:Hd; [|discriminate].
  intros H Hf; inversion H; subst; clear H.
  assert (Hu : users w1 = users w).
  { pose proof (frame_driver w) as [Hu _]. now rewrite Hd in Hu. }
  unfold flag in *; simpl.
  rewrite find_update_where_id by reflexivity. rewrite Hu.
  destruct (find (by_id id) (users w)) as [row|] eqn:E; [|discriminate].
  apply find_some in E. destruct E as [_ E]. unfold by_id in E.
  simpl. now rewrite E.
Qed.

Lemma totp_Validate_same_users lib code secret :
  keeps same_users (totp.Validate lib code secret).
Proof.
  unfold totp.Validate.
  apply keeps_bind; [eauto with keeps | eauto with keeps | intros now w; reflexivity].
Qed.

#[local] Hint Resolve Create_same_flags UpdateTOTPSecret_same_flags
  Enable2FA_flags_stay_set totp_Validate_same_users : keeps.

(** What the repository returns is the scan of the first matching row. *)
Lemma QueryRow_ok (p : Row -> bool) (w w' : World) (row : Row) :
  postgres.QueryRow p w = (Ok row, w') ->
  find p (users w) = Some row /\ frame w w'.
Proof.
  intros H. pose proof (frame_QueryRow p w) as Hf. rewrite H in Hf. split; [|exact Hf].
  unfold postgres.QueryRow in H. step H as u w1 Hd.
  pose proof (frame_driver w) as [Hu _]. rewrite Hd in Hu; simpl in Hu.
  rewrite <- Hu. destruct (find p (users w1)); inversion H; reflexivity.
Qed.

Lemma GetByID_ok (id : UUID) (w w' : World) (user : domain.User) :
  postgres.GetByID id w = (Ok user, w') ->
  exists row,
    postgres.QueryRow (by_id id) w = (Ok row, w') /\ user = postgres.scan row.
Proof.
  unfold postgres.GetByID. intros H. step H as r w1 Hq.
  destruct r as [row|e].
  - apply ret_ok in H as [H1 H2]; subst. now exists row.
  - destruct (String.eqb e postgres.ErrNoRows); discriminate.
Qed.

Section Flag.

Variable libs : Libs.
Variable j : jwt.JWTManager.

Let a : usecase.AuthUsecase := router.authUsecase j.

Lemma Login_frame (req : domain.UserLoginRequest) : keeps frame (usecase.Login libs a req).
Proof. unfold usecase.Login, a. unfold_repo. keeps_tac. Qed.

Lemma Register_same_flags (req : domain.UserRegisterRequest) :
  keeps same_flags (usecase.Register libs a req).
Proof. unfold usecase.Register, uuid_New, a. unfold_repo. keeps_tac. Qed.

Lemma Setup2FA_same_flags (id : UUID) : keeps same_flags (usecase.Setup2FA libs a id).
Proof. unfold usecase.Setup2FA, a. unfold_repo. keeps_tac. Qed.

Lemma Verify2FA_flags_stay_set (tok code : string) :
  keeps flags_stay_set (usecase.Verify2FA libs a tok code).
Proof. unfold usecase.Verify2FA, a. unfold_repo. keeps_tac. Qed.

Lemma Register_ok (req : domain.UserRegisterRequest) (w w' : World) (u : domain.User) :
  usecase.Register libs a req w = (Ok u, w') ->
  domain.Is2FAEnabled u = false /\ flag w' (domain.ID u) = Some false.
Proof.
  unfold usecase.Register, a. unfold_repo. intros H.
  step H as existing w1 H1. destruct existing as [?|e1]; [discriminate|].
  step H as hashed w2 H2. destruct hashed as [hashedPassword|e2]; [|discriminate].
  step H as id w3 H3. step H as created w4 H4. step H as updated w5 H5.
  step H as r w6 H6. destruct r as [[]|e6]; [|discriminate].
  apply ret_ok in H as [Hu Hw]; subst u w6.
  apply Create_ok in H6. split; [reflexivity | exact H6].
Qed.

Lemma Verify2FA_ok (tok code : string) (w w' : World) (resp : domain.AuthResponse) :
  usecase.Verify2FA libs a tok code w = (Ok resp, w') ->
  exists u,
    domain.AuthUser resp = Some u /\
    domain.Is2FAEnabled u = true /\
    flag w' (domain.ID u) = Some true.
Proof.
  unfold usecase.Verify2FA, a. unfold_repo. intros H.
  step H as validated w1 H1. destruct validated as [claims|e1]; [|discriminate].
  step H as found w2 H2. destruct found as [user|e2]; [|discriminate].
  step H as valid w3 H3. destruct valid; [|discriminate]. cbn [negb] in H.
  step H as user' w4 H4. step H as r w5 H5. destruct r as [token|e5]; [|discriminate].
  apply ret_ok in H as [Hr Hw]; subst resp w5.
  apply GetByID_ok in H2 as (row & Hq & Hu).
  apply QueryRow_ok in Hq as [Hfind [Hu12 _]].
  assert (Hid : r_id row = jwt.UserID claims).
  { apply find_some in Hfind as [_ Hp]. now apply String.eqb_eq in Hp. }
  assert (Hflag2 : flag w2 (domain.ID user) = Some (domain.Is2FAEnabled user)).
  { unfold flag. rewrite Hu12. subst user; simpl. rewrite Hid, Hfind. reflexivity. }
  pose proof (totp_Validate_same_users (lib_totp libs) code (domain.TOTPSecret user) w2)
    as Hu23. rewrite H3 in Hu23; unfold same_users in Hu23; simpl in Hu23.
  assert (Hflag3 : flag w3 (domain.ID user) = Some (domain.Is2FAEnabled user)).
  { unfold flag in *. now rewrite Hu23. }
  pose proof (frame_GenerateToken (lib_jwt libs) j (domain.ID user') (domain.Email user')
                (domain.Is2FAEnabled user') w4) as [Hu45 _].
  rewrite H5 in Hu45; simpl in Hu45.
  assert (H4' : domain.ID user' = domain.ID user /\ domain.Is2FAEnabled user' = true /\
                flag w4 (domain.ID user) = Some true).
  { destruct (domain.Is2FAEnabled user) eqn:E2; cbn [negb] in H4.
    - apply ret_ok in H4 as [Hu' Hw']; subst user' w4. auto.
    - step H4 as r w4' H6. destruct r as [[]|e6]; [|discriminate].
      apply ret_ok in H4 as [Hu' Hw']; subst user' w4'.
      repeat split. now apply Enable2FA_ok with (w := w3) (b := false). }
  destruct H4' as (Hid' & He' & Hf4).
  eexists; split; [reflexivity|]. split; [exact He'|].
  simpl. rewrite Hid'. unfold flag in *. now rewrite Hu45.
Qed.

Lemma Enable2FA_failed (id : UUID) (w w' : World) (e : string) :
  postgres.Enable2FA id w = (Err e, w') -> users w' = users w.
Proof.
  unfold postgres.Enable2FA, bind, attempt, fail.
  pose proof (frame_driver w) as [Hu _].
  destruct (postgres.driver w) as [[[]|e1] w1]; [discriminate|].
  intros H; inversion H; subst. exact Hu.
Qed.

(** A [Verify2FA] that fails leaves every flag as it was, provided signing
    with HS256 never fails (the session token is signed after the flag is
    set). *)
Lemma Verify2FA_failed_same_flags (tok code : string) (w w' : World) (e : string) :
  (forall c key, exists s, jwtlib.SignedString (lib_jwt libs) jwtlib.HS256 c key = Ok s) ->
  usecase.Verify2FA libs a tok code w = (Err e, w') ->
  same_flags w w'.
Proof.
  intros Hsign H. apply same_users_flags. unfold same_users.
  assert (Hgen : forall id email b v e' v',
             jwt.GenerateToken (lib_jwt libs) j id email b v <> (Err e', v')).
  { intros id email b v e' v'. rewrite GenerateToken_unfold.
    destruct (Hsign (issued_claims id email b false (jwt.expiry j) (clock v)
                       (clock (after_reads 1 v)) (clock (after_reads 2 v)))
                    (jwt.secretKey j)) as [s Hs].
    rewrite Hs. discriminate. }
  unfold usecase.Verify2FA, a in H. unfold_repo.
  unfold bind at 1, attempt at 1 in H.
  pose proof (frame_ValidateTempToken (lib_jwt libs) j tok w) as [H1 _].
  destruct (jwt.ValidateTempToken (lib_jwt libs) j tok w) as [[claims|e1] w1];
    cbn [snd] in H1; [|inversion H; subst; exact H1].
  unfold bind at 1, attempt at 1 in H.
  pose proof (frame_GetByID (jwt.UserID claims) w1) as [H2 _].
  destruct (postgres.GetByID (jwt.UserID claims) w1) as [[user|e2] w2];
    cbn [snd] in H2; [|inversion H; subst; congruence].
  unfold bind at 1 in H.
  pose proof (totp_Validate_same_users (lib_totp libs) code (domain.TOTPSecret user) w2)
    as H3. unfold same_users in H3.
  destruct (totp.Validate (lib_totp libs) code (domain.TOTPSecret user) w2)
    as [[valid|e3] w3]; cbn [snd] in H3; [|inversion H; subst; congruence].
  destruct valid; cbn [negb] in H; [|inversion H; subst; congruence].
  unfold bind at 1 in H.
  destruct (domain.Is2FAEnabled user); cbn [negb] in H.
  - unfold ret at 1 in H. unfold bind at 1, attempt at 1 in H.
    match type of H with
    | context [jwt.GenerateToken ?l ?m ?i ?x ?b ?v] =>
        pose proof (Hgen i x b v) as Hg;
        destruct (jwt.GenerateToken l m i x b v) as [[token|e5] w5]
    end; [discriminate | now contradiction (Hg e5 w5)].
  - unfold bind at 1, attempt at 1 in H.
    pose proof (Enable2FA_failed (domain.ID user) w3) as H4.
    destruct (postgres.Enable2FA (domain.ID user) w3) as [[[]|e4] w4].
    + unfold ret at 1 in H. unfold bind at 1, attempt at 1 in H.
      match type of H with
      | context [jwt.GenerateToken ?l ?m ?i ?x ?b ?v] =>
          pose proof (Hgen i x b v) as Hg;
          destruct (jwt.GenerateToken l m i x b v) as [[token|e5] w5]
      end; [discriminate | now contradiction (Hg e5 w5)].
    + specialize (H4 w4 e4 eq_refl). inversion H; subst. congruence.
Qed.

Lemma exec_flags_stay_set (op : Op) (w : World) : flags_stay_set w (exec libs a op w).
Proof.
  destruct op; simpl.
  - apply same_flags_stay_set, Register_same_flags.
  - apply same_flags_stay_set, same_users_flags. apply (Login_frame req w).
  - apply same_flags_stay_set, Setup2FA_same_flags.
  - apply Verify2FA_flags_stay_set.
Qed.

End Flag.

(** ** Second-factor verification *)

Section Verify.

Variable libs : Libs.
Variable j : jwt.JWTManager.

Let a : usecase.AuthUsecase := router.authUsecase j.

Lemma after_code_same_log (user : domain.User) : keeps same_log (after_code libs j user).
Proof.
  unfold after_code. keeps_tac.
  unfold postgres.Enable2FA. keeps_tac. intros w; reflexivity.
Qed.

Lemma after_code_not_invalid (user : domain.User) (w : World) :
  fst (after_code libs j user w) <> Err "invalid 2FA code".
Proof.
  unfold after_code, bind, attempt, ret, fail.
  destruct (negb (domain.Is2FAEnabled user)).
  - destruct (postgres.Enable2FA (domain.ID user) w) as [[[]|e] w1]; cbn [fst].
    + match goal with
      | |- context [jwt.GenerateToken ?l ?m ?i ?x ?b ?v] =>
          destruct (jwt.GenerateToken l m i x b v) as [[tok|e] w2]
      end; cbn [fst]; discriminate.
    + discriminate.
  - match goal with
    | |- context [jwt.GenerateToken ?l ?m ?i ?x ?b ?v] =>
        destruct (jwt.GenerateToken l m i x b v) as [[tok|e] w2]
    end; cbn [fst]; discriminate.
Qed.

(** With a valid temporary token and an existing account, [Verify2FA] asks
    the engine about the code and the stored secret, at the instant it reads
    after the lookup, and goes on only if the engine accepts. *)
Lemma Verify2FA_unfold (tok code : string) (w w1 w2 : World)
    (claims : jwt.Claims) (row : Row) :
  jwt.ValidateTempToken (lib_jwt libs) j tok w = (Ok claims, w1) ->
  postgres.QueryRow (by_id (jwt.UserID claims)) w1 = (Ok row, w2) ->
  let secret := domain.TOTPSecret (postgres.scan row) in
  usecase.Verify2FA libs a tok code w =
    (if totp.ValidateCustom (lib_totp libs) code secret (clock w2)
     then after_code libs j (postgres.scan row)
     else fail "invalid 2FA code")
      (totp.record_call code secret (tick w2)).
Proof.
  intros Hv Hq secret.
  assert (Hg : postgres.GetByID (jwt.UserID claims) w1 = (Ok (postgres.scan row), w2)).
  { unfold postgres.GetByID, bind, attempt, ret.
    change (fun row0 : Row => String.eqb (r_id row0) (jwt.UserID claims))
      with (by_id (jwt.UserID claims)).
    now rewrite Hq. }
  unfold usecase.Verify2FA, a. unfold_repo.
  unfold bind at 1. unfold attempt at 1. rewrite Hv.
  unfold bind at 1. unfold attempt at 1. rewrite Hg.
  unfold bind at 1. unfold totp.Validate at 1. unfold bind at 1, time_Now at 1.
  fold secret.
  now destruct (totp.ValidateCustom (lib_totp libs) code secret (clock w2)).
Qed.

Lemma Verify2FA_asks_engine (tok code : string) (w w1 w2 : World)
    (claims : jwt.Claims) (row : Row) :
  jwt.ValidateTempToken (lib_jwt libs) j tok w = (Ok claims, w1) ->
  postgres.QueryRow (by_id (jwt.UserID claims)) w1 = (Ok row, w2) ->
  let secret := domain.TOTPSecret (postgres.scan row) in
  let accepted := totp.ValidateCustom (lib_totp libs) code secret (clock w2) in
  (fst (usecase.Verify2FA libs a tok code w) = Err "invalid 2FA code" <->
   accepted = false) /\
  totp_log (snd (usecase.Verify2FA libs a tok code w)) =
    (totp_log w ++ [(code, secret)])%list.
Proof.
  intros Hv Hq secret accepted.
  assert (Hlog : totp_log w2 = totp_log w).
  { pose proof (frame_ValidateTempToken (lib_jwt libs) j tok w) as [_ H1].
    pose proof (frame_QueryRow (by_id (jwt.UserID claims)) w1) as [_ H2].
    rewrite Hv in H1. rewrite Hq in H2. simpl in *. congruence. }
  rewrite (Verify2FA_unfold tok code w w1 w2 claims row Hv Hq).
  fold secret. fold accepted.
  destruct accepted.
  - split.
    + split; [|discriminate]. intros H.
      now apply after_code_not_invalid in H.
    + rewrite (after_code_same_log (postgres.scan row)).
      simpl. now rewrite tick_totp_log, Hlog.
  - split; [split; reflexivity|].
    simpl. now rewrite tick_totp_log, Hlog.
Qed.

(** C6, as the code has it. For an account whose [totp_secret] is NULL the
    repository hands the use case the empty string, and [Verify2FA] with a
    valid temporary token asks the engine about the code and the empty
    secret: it fails with "invalid 2FA code" exactly when the engine rejects
    the code for the empty secret. *)
Theorem verify2fa_absent_secret (tok code : string) (w w1 w2 : World)
    (claims : jwt.Claims) (row : Row) :
  jwt.ValidateTempToken (lib_jwt libs) j tok w = (Ok claims, w1) ->
  postgres.QueryRow (by_id (jwt.UserID claims)) w1 = (Ok row, w2) ->
  r_totp_secret row = None ->
  (fst (usecase.Verify2FA libs a tok code w) = Err "invalid 2FA code" <->
   totp.ValidateCustom (lib_totp libs) code "" (clock w2) = false) /\
  totp_log (snd (usecase.Verify2FA libs a tok code w)) =
    (totp_log w ++ [(code, "")])%list.
Proof.
  intros Hv Hq Hs.
  pose proof (Verify2FA_asks_engine tok code w w1 w2 claims row Hv Hq) as H.
  unfold postgres.scan in H; cbn [domain.TOTPSecret] in H. rewrite Hs in H.
  exact H.
Qed.

Let h : handler.AuthHandler := router.authHandler j.

Lemma frame_TempAuthMiddleware {B} (c : fiber.Ctx B) :
  keeps frame (middleware.TempAuthMiddleware libs j c).
Proof. unfold middleware.TempAuthMiddleware. keeps_tac. Qed.

Lemma handler_Verify2FA_bad_length (c : fiber.Ctx domain.Verify2FARequest)
    (req : domain.Verify2FARequest) (w : World) :
  fiber.ParsedBody c = Ok req ->
  String.length (domain.Code req) <> 6%nat ->
  exists msg, handler.Verify2FA libs h c w = (Ok (response.BadRequest msg []), w).
Proof.
  intros Hb Hl. unfold handler.Verify2FA. rewrite Hb.
  destruct (String.eqb (domain.Code req) ""); [now eexists|].
  apply Nat.eqb_neq in Hl. rewrite Hl. now eexists.
Qed.

(** C8, as the code has it. The handler turns away, with 400 Bad Request
    and before anything else runs, every request whose code is not exactly
    six bytes long; on the route the engine is not called for such a request.
    A code of six bytes, digits or not, is handed to the use case, which with
    a valid temporary token and an existing account passes it to the engine. *)
Theorem verify2fa_code_length_gate
    (c : fiber.Ctx domain.Verify2FARequest) (req : domain.Verify2FARequest)
    (w : World) :
  fiber.ParsedBody c = Ok req ->
  (String.length (domain.Code req) <> 6%nat ->
   (exists msg, handler.Verify2FA libs h c w = (Ok (response.BadRequest msg []), w)) /\
   totp_log (snd (router.auth_2fa_verify libs j c w)) = totp_log w) /\
  (String.length (domain.Code req) = 6%nat ->
   forall tok claims w1 row w2,
     fiber.temp_token (fiber.locals c) = Some tok ->
     jwt.ValidateTempToken (lib_jwt libs) j tok w = (Ok claims, w1) ->
     postgres.QueryRow (by_id (jwt.UserID claims)) w1 = (Ok row, w2) ->
     totp_log (snd (handler.Verify2FA libs h c w)) =
       (totp_log w ++ [(domain.Code req, domain.TOTPSecret (postgres.scan row))])%list).
Proof.
  intros Hb. split.
  - intros Hl. split; [now apply handler_Verify2FA_bad_length with (req := req)|].
    unfold router.auth_2fa_verify, router.guarded, bind.
    pose proof (frame_TempAuthMiddleware c w) as [_ Hm].
    destruct (middleware.TempAuthMiddleware libs j c w) as [[[r|l]|e] w1];
      simpl in Hm; try exact Hm.
    fold (router.authHandler j). fold h.
    destruct (handler_Verify2FA_bad_length
                (fiber.mkCtx (fiber.Authorization c) (fiber.ParsedBody c) l) req w1 Hb Hl)
      as [msg Hh].
    now rewrite Hh.
  - intros Hl tok claims w1 row w2 Ht Hv Hq.
    unfold handler.Verify2FA. rewrite Hb.
    destruct (String.eqb (domain.Code req) "") eqn:E.
    + apply String.eqb_eq in E. rewrite E in Hl. discriminate.
    + apply Nat.eqb_eq in Hl. rewrite Hl, Ht. cbn [negb].
      unfold bind, attempt. unfold h, router.authHandler, handler.NewAuthHandler.
      cbn [handler.authUsecase]. fold a.
      pose proof (Verify2FA_asks_engine tok (domain.Code req) w w1 w2 claims row Hv Hq)
        as [_ Hlog].
      destruct (usecase.Verify2FA libs a tok (domain.Code req) w) as [[resp|e] w3];
        exact Hlog.
Qed.

End Verify.

(** ** The second-factor flag *)

(** [Enable2FA] touches the flag of no other account. *)
Lemma Enable2FA_others (id id' : UUID) (w w' : World) (r : Result unit) :
  postgres.Enable2FA id w = (r, w') ->
  id' <> id ->
  flag w' id' = flag w id'.
Proof.
  unfold postgres.Enable2FA, bind, attempt, fail. intros H Hne.
  destruct (postgres.driver w) as [[[]|e] w1] eqn:Hd;
    destruct (frame_driver w) as [Hu _]; rewrite Hd in Hu; cbn [snd] in Hu;
    inversion H; subst; clear H; unfold flag.
  - cbn [users postgres.set_users]. rewrite find_update_where_id by reflexivity.
    rewrite Hu. destruct (find (by_id id') (users w)) as [row|] eqn:E; [|reflexivity].
    apply find_some in E as [_ E]. unfold by_id in E. apply String.eqb_eq in E.
    cbn [option_map]. destruct (String.eqb (r_id row) id) eqn:E'; [|reflexivity].
    apply String.eqb_eq in E'. congruence.
  - now rewrite Hu.
Qed.

Section Monotonic.

Variable libs : Libs.
Variable j : jwt.JWTManager.

Let a : usecase.AuthUsecase := router.authUsecase j.

(** A [Verify2FA] that succeeds acts on the account its token names and on
    no other. *)
Lemma Verify2FA_ok_others (tok code : string) (w w' : World)
    (resp : domain.AuthResponse) :
  usecase.Verify2FA libs a tok code w = (Ok resp, w') ->
  exists claims w1 u,
    jwt.ValidateTempToken (lib_jwt libs) j tok w = (Ok claims, w1) /\
    domain.AuthUser resp = Some u /\
    domain.ID u = jwt.UserID claims /\
    forall id, id <> domain.ID u -> flag w' id = flag w id.
Proof.
  unfold usecase.Verify2FA, a. unfold_repo. intros H.
  step H as validated w1 H1. destruct validated as [claims|e1]; [|discriminate].
  step H as found w2 H2. destruct found as [user|e2]; [|discriminate].
  step H as valid w3 H3. destruct valid; [|discriminate]. cbn [negb] in H.
  step H as user' w4 H4. step H as r w5 H5. destruct r as [token|e5]; [|discriminate].
  apply ret_ok in H as [Hr Hw]; subst resp w5.
  assert (Hid : domain.ID user = jwt.UserID claims).
  { apply GetByID_ok in H2 as (row & Hq & Hu).
    apply QueryRow_ok in Hq as [Hfind _].
    apply find_some in Hfind as [_ Hp]. apply String.eqb_eq in Hp.
    subst user. exact Hp. }
  assert (Hu1 : users w1 = users w).
  { destruct (frame_ValidateTempToken (lib_jwt libs) j tok w) as [Hu _].
    now rewrite H1 in Hu. }
  assert (Hu2 : users w2 = users w1).
  { destruct (frame_GetByID (jwt.UserID claims) w1) as [Hu _]. now rewrite H2 in Hu. }
  assert (Hu3 : users w3 = users w2).
  { pose proof (totp_Validate_same_users (lib_totp libs) code (domain.TOTPSecret user) w2)
      as Hu. unfold same_users in Hu. now rewrite H3 in Hu. }
  assert (Hu5 : users w' = users w4).
  { destruct (frame_GenerateToken (lib_jwt libs) j (domain.ID user') (domain.Email user')
                (domain.Is2FAEnabled user') w4) as [Hu _]. now rewrite H5 in Hu. }
  assert (H4' : domain.ID user' = domain.ID user /\
                forall id, id <> domain.ID user -> flag w4 id = flag w3 id).
  { destruct (domain.Is2FAEnabled user); cbn [negb] in H4.
    - apply ret_ok in H4 as [Hu' Hw']; subst user' w4. auto.
    - step H4 as r w4' H6. destruct r as [[]|e6]; [|discriminate].
      apply ret_ok in H4 as [Hu' Hw']; subst user' w4'.
      split; [reflexivity|]. intros id Hne.
      now apply (Enable2FA_others _ _ _ _ _ H6). }
  destruct H4' as [Hid' Hothers].
  exists claims, w1. eexists. split; [exact H1|]. split; [reflexivity|].
  unfold domain.set_TOTPSecret, domain.set_Password; cbn [domain.ID].
  split; [congruence|].
  intros id Hne. rewrite Hid' in Hne. specialize (Hothers id Hne).
  assert (E5 : flag w' id = flag w4 id) by (unfold flag; now rewrite Hu5).
  assert (E3 : flag w3 id = flag w id) by (unfold flag; congruence).
  congruence.
Qed.

(** [Verify2FA] does succeed: with a valid temporary token, the account in
    the table, a code the engine accepts, a database that answers and a
    library that signs. *)
Lemma Verify2FA_succeeds (tok code : string) (w w1 w2 : World)
    (claims : jwt.Claims) (row : Row) :
  (forall c key, exists s, jwtlib.SignedString (lib_jwt libs) jwtlib.HS256 c key = Ok s) ->
  jwt.ValidateTempToken (lib_jwt libs) j tok w = (Ok claims, w1) ->
  postgres.QueryRow (by_id (jwt.UserID claims)) w1 = (Ok row, w2) ->
  totp.ValidateCustom (lib_totp libs) code (domain.TOTPSecret (postgres.scan row))
    (clock w2) = true ->
  db_faults w2 = [] ->
  exists resp w',
    usecase.Verify2FA libs a tok code w = (Ok resp, w') /\
    flag w' (jwt.UserID claims) = Some true.
Proof.
  intros Hsign Hv Hq Hcode Hdb.
  assert (Hok : exists resp w', usecase.Verify2FA libs a tok code w = (Ok resp, w')).
  { unfold a. rewrite (Verify2FA_unfold libs j tok code w w1 w2 claims row Hv Hq).
    cbv zeta. rewrite Hcode.
    set (w3 := totp.record_call code (domain.TOTPSecret (postgres.scan row)) (tick w2)).
    assert (Hd : postgres.driver w3 = (Ok tt, w3)).
    { unfold postgres.driver.
      assert (E : db_faults w3 = []).
      { unfold w3, totp.record_call; cbn [db_faults]. unfold tick.
        destruct (ticks w2); exact Hdb. }
      now rewrite E. }
    assert (Hgen : forall id email b v, exists s v',
               jwt.GenerateToken (lib_jwt libs) j id email b v = (Ok s, v')).
    { intros id email b v. rewrite GenerateToken_unfold.
      match goal with
      | |- context [jwtlib.SignedString ?l ?m ?c ?k] => destruct (Hsign c k) as [s Hs]
      end.
      rewrite Hs. now eexists; eexists. }
    unfold after_code.
    destruct (domain.Is2FAEnabled (postgres.scan row)); cbn [negb].
    - unfold bind at 1, ret at 1. unfold bind at 1, attempt at 1.
      match goal with
      | |- context [jwt.GenerateToken ?l ?m ?i ?x ?b ?v] =>
          destruct (Hgen i x b v) as (s & v' & Hg); rewrite Hg
      end.
      now eexists; eexists.
    - unfold bind at 1. unfold bind at 1, attempt at 1.
      unfold postgres.Enable2FA at 1. unfold bind at 1, attempt at 1. rewrite Hd.
      unfold ret at 1. unfold bind at 1, attempt at 1.
      match goal with
      | |- context [jwt.GenerateToken ?l ?m ?i ?x ?b ?v] =>
          destruct (Hgen i x b v) as (s & v' & Hg); rewrite Hg
      end.
      now eexists; eexists. }
  destruct Hok as (resp & w' & Hok). exists resp, w'. split; [exact Hok|].
  pose proof (Verify2FA_ok libs j tok code w w' resp Hok) as (u & Hu & _ & Hflag).
  pose proof (Verify2FA_ok_others tok code w w' resp Hok)
    as (claims' & w1' & u' & Hv' & Hu' & Hid & _).
  rewrite Hv in Hv'. rewrite Hu in Hu'.
  assert (Ec : claims' = claims) by congruence.
  assert (Eu : u' = u) by congruence.
  subst claims' u'. now rewrite <- Hid.
Qed.

(** C5. An account is created with [is_2fa_enabled] false. A successful
    [Verify2FA] acts on the account that its temporary token names: it leaves
    the flag of that account true and the flag of every other account as it
    was; and it does succeed, given a valid temporary token, the account in
    the table, a code the engine accepts, a database that answers and a
    library that signs. A [Verify2FA] that fails, and every other operation
    of the use case, leaves the flag of every account as it was (for
    [Verify2FA], as long as signing with HS256 cannot fail); and along any
    sequence of operations, with the environment moving on in between, a flag
    that is true stays true. *)
Theorem two_factor_flag_monotonic :
  (forall req w u w',
     usecase.Register libs a req w = (Ok u, w') ->
     domain.Is2FAEnabled u = false /\ flag w' (domain.ID u) = Some false) /\
  (forall tok code w resp w',
     usecase.Verify2FA libs a tok code w = (Ok resp, w') ->
     exists claims w1 u,
       jwt.ValidateTempToken (lib_jwt libs) j tok w = (Ok claims, w1) /\
       domain.AuthUser resp = Some u /\
       domain.ID u = jwt.UserID claims /\
       domain.Is2FAEnabled u = true /\
       flag w' (domain.ID u) = Some true /\
       forall id, id <> domain.ID u -> flag w' id = flag w id) /\
  (forall tok code w w1 w2 claims row,
     (forall c key, exists s,
        jwtlib.SignedString (lib_jwt libs) jwtlib.HS256 c key = Ok s) ->
     jwt.ValidateTempToken (lib_jwt libs) j tok w = (Ok claims, w1) ->
     postgres.QueryRow (by_id (jwt.UserID claims)) w1 = (Ok row, w2) ->
     totp.ValidateCustom (lib_totp libs) code (domain.TOTPSecret (postgres.scan row))
       (clock w2) = true ->
     db_faults w2 = [] ->
     exists resp w',
       usecase.Verify2FA libs a tok code w = (Ok resp, w') /\
       flag w' (jwt.UserID claims) = Some true) /\
  (forall tok code w e w',
     (forall c key, exists s,
        jwtlib.SignedString (lib_jwt libs) jwtlib.HS256 c key = Ok s) ->
     usecase.Verify2FA libs a tok code w = (Err e, w') ->
     same_flags w w') /\
  (forall op w,
     (forall tok code, op <> OpVerify2FA tok code) ->
     same_flags w (exec libs a op w)) /\
  (forall events w id,
     flag w id = Some true ->
     flag (run libs a events w) id = Some true).
Proof.
  split; [|split; [|split; [|split; [|split]]]].
  - intros req w u w'. apply Register_ok.
  - intros tok code w resp w' H.
    pose proof (Verify2FA_ok libs j tok code w w' resp H) as (u & Hu & He & Hflag).
    pose proof (Verify2FA_ok_others tok code w w' resp H)
      as (claims & w1 & u' & Hv & Hu' & Hid & Hothers).
    assert (Eu : u' = u) by congruence. subst u'.
    exists claims, w1, u. repeat split; auto.
  - intros tok code w w1 w2 claims row. apply Verify2FA_succeeds.
  - intros tok code w e w'. apply Verify2FA_failed_same_flags.
  - intros op w Hop. destruct op; simpl.
    + apply Register_same_flags.
    + apply same_users_flags. apply (Login_frame libs j req w).
    + apply Setup2FA_same_flags.
    + now contradiction (Hop tempToken code).
  - intros events. induction events as [|[op|dt t e f] events IH]; intros w id H; simpl.
    + exact H.
    + apply IH. now apply exec_flags_stay_set.
    + apply IH. exact H.
Qed.

End Monotonic.


(** ** Two-factor setup *)

Section Setup.

Variable libs : Libs.
Variable j : jwt.JWTManager.

Let a : usecase.AuthUsecase := router.authUsecase j.
Let h : handler.AuthHandler := router.authHandler j.

Lemma UpdateTOTPSecret_ok (id : UUID) (secret : string) (w w' : World) (row : Row) :
  postgres.UpdateTOTPSecret id secret w = (Ok tt, w') ->
  find (by_id id) (users w') = Some row ->
  r_totp_secret row = Some secret.
Proof.
  unfold postgres.UpdateTOTPSecret, bind, attempt, fail.
  destruct (postgres.driver w) as [[[]|e] w1]; [|discriminate].
  intros H Hf; inversion H; subst; clear H. simpl in Hf.
  rewrite find_update_where_id in Hf by reflexivity.
  destruct (find (by_id id) (users w1)) as [row1|] eqn:E; [|discriminate].
  apply find_some in E as [_ E]. unfold by_id in E.
  simpl in Hf. rewrite E in Hf. now inversion Hf.
Qed.

(** C10. A successful [Setup2FA] returns the secret it has just generated
    and stored, raw, in the [BackupCodes] field of its response, next to the
    provisioning URI in [QRCodeURL]; the handler sends that response as the
    data of its 200 answer. *)
Theorem setup2fa_exposes_secret (id : UUID) (w w' : World) (resp : domain.AuthResponse) :
  usecase.Setup2FA libs a id w = (Ok resp, w') ->
  exists user w1 key w2,
    postgres.GetByID id w = (Ok user, w1) /\
    totp.Generate (lib_totp libs)
      (totp.mkGenerateOpts "Telegram Bot API" (domain.Email user) 32) w1 = (Ok key, w2) /\
    domain.BackupCodes resp = totp.Secret key /\
    domain.QRCodeURL resp = totp.URL key /\
    (forall row, find (by_id id) (users w') = Some row ->
                 r_totp_secret row = Some (totp.Secret key)) /\
    (forall B (c : fiber.Ctx B),
       fiber.user_id (fiber.locals c) = Some id ->
       handler.Setup2FA libs h c w =
         (Ok (response.Success "2FA setup successful" (response.AuthData resp)), w')).
Proof.
  intros H. unfold a in H. pose proof H as H0.
  unfold usecase.Setup2FA in H.
  unfold router.authUsecase, usecase.NewAuthUsecase, postgres.NewUserRepository in H.
  cbn [usecase.userRepo usecase.GetByID usecase.UpdateTOTPSecret] in H.
  step H as found w1 H1. destruct found as [user|e1]; [|discriminate].
  step H as generated w2 H2. destruct generated as [key|e2]; [|discriminate].
  step H as r w3 H3. destruct r as [[]|e3]; [|discriminate].
  apply ret_ok in H as [Hr Hw]; subst resp w3.
  exists user, w1, key, w2. repeat split; auto.
  - intros row. now apply UpdateTOTPSecret_ok with (w := w2).
  - intros B c Hc. unfold handler.Setup2FA. rewrite Hc.
    unfold bind, attempt, ret, h, router.authHandler, handler.NewAuthHandler.
    cbn [handler.authUsecase]. now rewrite H0.
Qed.

End Setup.

(** ** The reference libraries *)

(** The engine reproduces the test values of RFC 4226, appendix D. *)
Example reference_hotp_vectors :
  map (reference.GenerateCode "GEZDGNBVGY3TQOJQGEZDGNBVGY3TQOJQ") [0; 1; 2; 3; 4] =
  [Some "755224"; Some "287082"; Some "359152"; Some "969429"; Some "338314"].
Proof. vm_compute. reflexivity. Qed.

Lemma append_empty_r (s : string) : s ++ "" = s.
Proof. induction s as [|c s IH]; simpl; [reflexivity | now rewrite IH]. Qed.

Lemma append_assoc (s1 s2 s3 : string) : (s1 ++ s2) ++ s3 = s1 ++ (s2 ++ s3).
Proof. induction s1 as [|c s1 IH]; simpl; [reflexivity | now rewrite IH]. Qed.

Lemma unpack_field (f rest acc : string) :
  reference.unpack (reference.escape f ++ String ","%char rest) acc =
  option_map (cons (acc ++ f)) (reference.unpack rest "").
Proof.
  revert acc; induction f as [|c f IH]; intros acc.
  - simpl. rewrite append_empty_r. now destruct (reference.unpack rest "").
  - simpl. rewrite IH, append_assoc. reflexivity.
Qed.

Lemma pack_app (l1 l2 : list string) :
  reference.pack (l1 ++ l2) = reference.pack l1 ++ reference.pack l2.
Proof.
  induction l1 as [|f l1 IH]; simpl; [reflexivity|].
  rewrite IH, append_assoc. reflexivity.
Qed.

Lemma unpack_pack (l : list string) : reference.unpack (reference.pack l) "" = Some l.
Proof.
  induction l as [|f l IH]; simpl; [reflexivity|].
  now rewrite unpack_field, IH.
Qed.

Lemma parse_print_positive (p : positive) :
  reference.parse_positive (reference.print_positive p) = Some p.
Proof. induction p as [p IH|p IH|]; simpl; try rewrite IH; reflexivity. Qed.

Lemma parse_print_time (t : option Time) :
  reference.parse_time (reference.print_time t) = Some t.
Proof.
  destruct t as [[|p|p]|]; simpl; try rewrite parse_print_positive; reflexivity.
Qed.

Lemma parse_print_bool (b : bool) : reference.parse_bool (reference.print_bool b) = Some b.
Proof. now destruct b. Qed.

Lemma parse_print_method (m : jwtlib.SigningMethod) :
  reference.parse_method (reference.print_method m) = Some m.
Proof. now destruct m. Qed.

(** The stand-in codec keeps the promise of the token library. *)
Lemma reference_jwt_roundtrip : jwtlib.roundtrip reference.jwt_lib.
Proof.
  intros m c key s _ H.
  change (Ok (reference.pack (reference.fields_of m c) ++
              reference.pack
                [reference.sign m (reference.pack (reference.fields_of m c)) key]) =
          Ok s) in H.
  rewrite <- pack_app in H.
  assert (Hs : forall x y : string, Ok x = Ok y -> x = y)
    by (intros x y E; now inversion E).
  apply Hs in H; subst s; clear Hs.
  exists (reference.pack (reference.fields_of m c)).
  exists (reference.sign m (reference.pack (reference.fields_of m c)) key).
  split.
  - cbn [jwtlib.decode reference.jwt_lib]. unfold reference.decode.
    rewrite unpack_pack.
    cbn [reference.fields_of app].
    rewrite parse_print_method, !parse_print_bool, !parse_print_time.
    destruct c as [uid email is2fa temp [exp iat nbf iss sub]]. reflexivity.
  - cbn [jwtlib.Verify reference.jwt_lib]. unfold reference.Verify.
    apply String.eqb_refl.
Qed.

(** ** The code on concrete requests *)

Section Concrete.

Import scenario.

Let libs : Libs := reference.libs.

(** C1 as stated fails: with the right password, the disabled account of Bob
    is told "user account is disabled", while an unknown email is told
    "invalid credentials"; the two 401 answers differ. *)
Lemma login_disabled_account_distinguishable :
  fst (usecase.Login libs a (domain.mkUserLoginRequest "bob@example.com" "correct-horse") w0)
    = Err "user account is disabled" /\
  fst (usecase.Login libs a (domain.mkUserLoginRequest "nobody@example.com" "correct-horse") w0)
    = Err "invalid credentials" /\
  fst (router.auth_login libs j (login_as "bob@example.com" "correct-horse") w0) <>
  fst (router.auth_login libs j (login_as "nobody@example.com" "correct-horse") w0).
Proof.
  vm_compute. split; [reflexivity|]. split; [reflexivity|]. discriminate.
Qed.

Lemma login_failure_by_cause_witness :
  usecase.Login libs a (domain.mkUserLoginRequest "bob@example.com" "correct-horse") w0 =
    (Err "user account is disabled", snd (postgres.GetByEmail "bob@example.com" w0)) /\
  router.auth_login libs j (login_as "bob@example.com" "correct-horse") w0 =
    (Ok (response.Unauthorized "user account is disabled"),
     snd (postgres.GetByEmail "bob@example.com" w0)).
Proof.
  destruct (login_failure_by_cause libs j (login_as "bob@example.com" "correct-horse")
              (domain.mkUserLoginRequest "bob@example.com" "correct-horse") w0)
    as (_ & _ & H).
  - reflexivity.
  - discriminate.
  - discriminate.
  - apply (H (postgres.scan bob)); vm_compute; reflexivity.
Defined.

(** C2, the failing input: Carol's account is inactive, so [Login] refuses
    her; yet [Verify2FA], given a temporary token issued five minutes earlier
    and the current code, returns a session token that the gate of the
    protected routes lets through. *)
Lemma verify2fa_inactive_account_gets_session :
  r_is_active carol = false /\
  fst (usecase.Login libs a
         (domain.mkUserLoginRequest "carol@example.com" "battery-staple") w0)
    = Err "user account is disabled" /\
  match usecase.Verify2FA libs a (temp_token_for carol (t0 - 5 * Minute)) "921300" w0 with
  | (Ok resp, w') =>
      option_map domain.IsActive (domain.AuthUser resp) = Some false /\
      match middleware.AuthMiddleware libs j
              (fiber.mkCtx ("Bearer " ++ domain.Token resp) (Ok tt) fiber.no_locals) w'
      with
      | (Ok (fiber.Next l), _) => fiber.user_id l = Some "id-carol"
      | _ => False
      end
  | (Err _, _) => False
  end.
Proof. vm_compute. repeat split; reflexivity. Qed.

Lemma temp_token_rejected_by_session_gate_witness :
  exists msg w',
    middleware.AuthMiddleware libs j
      (fiber.mkCtx ("Bearer " ++ temp_token_for dan t0) (Ok tt) fiber.no_locals) w0
      = (Ok (fiber.Respond (response.Unauthorized msg)), w').
Proof.
  destruct (reference_jwt_roundtrip jwtlib.HS256 (temp_claims_for dan t0)
              "signing-key" (temp_token_for dan t0) eq_refl)
    as (input & sig & Hd & _).
  - vm_compute. reflexivity.
  - apply (temp_token_rejected_by_session_gate libs j unit _ (temp_token_for dan t0)
             _ w0 Hd); reflexivity.
Defined.

Lemma token_lifetimes_witness :
  (exists token,
     jwtlib.decode reference.jwt_lib (temp_token_for dan t0) = Some token /\
     jwtlib.ExpiresAt (jwt.Registered (jwtlib.Claims token)) =
       Some (jwtlib.NewNumericDate (t0 + 15 * Minute))) /\
  (exists token,
     jwtlib.decode reference.jwt_lib (session_token_for dan t0) = Some token /\
     jwtlib.ExpiresAt (jwt.Registered (jwtlib.Claims token)) =
       Some (jwtlib.NewNumericDate (t0 + 24 * 60 * Minute))) /\
  jwtlib.NewNumericDate (t0 + 24 * 60 * Minute) =
    jwtlib.NewNumericDate t0 + 24 * 60 * Minute /\
  (exists tok w',
     jwt.GenerateToken reference.jwt_lib j "id-dan" "dan@example.com" true (at_time t0 [])
       = (Ok tok, w') /\
     exists token,
       jwtlib.decode reference.jwt_lib tok = Some token /\
       jwtlib.ExpiresAt (jwt.Registered (jwtlib.Claims token)) =
         Some (jwtlib.NewNumericDate (t0 + 24 * 60 * Minute))).
Proof.
  destruct (token_lifetimes reference.jwt_lib reference_jwt_roundtrip
              "signing-key" (24 * 60 * Minute) "id-dan" "dan@example.com" true
              (at_time t0 []))
    as (_ & Htemp & Hsession & Hissues).
  split; [|split; [|split]].
  - apply (Htemp (temp_token_for dan t0) (after_reads 3 (at_time t0 []))).
    vm_compute. reflexivity.
  - apply (Hsession (session_token_for dan t0) (after_reads 3 (at_time t0 []))).
    vm_compute. reflexivity.
  - destruct (Hsession (session_token_for dan t0) (after_reads 3 (at_time t0 [])))
      as [_ H]; [vm_compute; reflexivity|].
    apply (H (24 * 60 * 60)). reflexivity.
  - destruct Hissues as [_ H]; [|exact H].
    intros c k. eexists. reflexivity.
Defined.

Lemma two_factor_flag_monotonic_witness :
  flag (snd (usecase.Register libs a erin_req w_reg))
       (domain.ID (value no_user (usecase.Register libs a erin_req w_reg))) = Some false /\
  flag w_setup "id-alice" = Some false /\
  same_flags w_setup
    (snd (usecase.Verify2FA libs a (temp_token_for alice t0) "000000" w_setup)) /\
  same_flags w_setup
    (exec libs a
       (OpLogin (domain.mkUserLoginRequest "alice@example.com" "password123")) w_setup) /\
  exists resp w',
    usecase.Verify2FA libs a (temp_token_for alice t0) "921300" w_setup = (Ok resp, w') /\
    flag w' "id-alice" = Some true /\
    flag w' "id-bob" = flag w_setup "id-bob" /\
    flag (run libs a
            [Call (OpLogin (domain.mkUserLoginRequest "alice@example.com" "password123"));
             Elapse 60000000000 [5; 7; 11; 13; 17]%N [secret] [];
             Call (OpSetup2FA "id-alice");
             Call (OpVerify2FA (temp_token_for alice t0) "000000");
             Call (OpRegister erin_req)]
            w') "id-alice" = Some true.
Proof.
  destruct (two_factor_flag_monotonic libs j)
    as (Hreg & Hok & Hsucceeds & Hfails & Hother & Hrun).
  split; [|split; [|split; [|split]]].
  - apply (Hreg erin_req w_reg). vm_compute. reflexivity.
  - vm_compute. reflexivity.
  - apply (Hfails (temp_token_for alice t0) "000000" w_setup "invalid 2FA code").
    + intros c key. eexists. reflexivity.
    + vm_compute. reflexivity.
  - apply Hother. intros tok code. discriminate.
  - destruct (Hsucceeds (temp_token_for alice t0) "921300" w_setup (tick w_setup)
                (tick w_setup) (temp_claims_for alice t0) alice_setup)
      as (resp & w' & Hv & Hflag).
    + intros c key. eexists. reflexivity.
    + vm_compute. reflexivity.
    + vm_compute. reflexivity.
    + vm_compute. reflexivity.
    + reflexivity.
    + exists resp, w'. split; [exact Hv|]. split; [exact Hflag|]. split.
      * destruct (Hok _ _ _ _ _ Hv) as (claims & w1 & u & Hc & _ & Hid & _ & _ & Hothers).
        assert (E : jwt.ValidateTempToken (lib_jwt libs) j (temp_token_for alice t0) w_setup
                    = (Ok (temp_claims_for alice t0), tick w_setup))
          by (vm_compute; reflexivity).
        rewrite E in Hc. apply Hothers. rewrite Hid.
        assert (Ec : temp_claims_for alice t0 = claims) by congruence.
        rewrite <- Ec. discriminate.
      * apply Hrun. exact Hflag.
Defined.

(** C6 as stated fails: Alice's account has no secret, and [Verify2FA], given
    a valid temporary token and the code that HMAC-SHA-1 yields for the empty
    key at that instant, succeeds and switches her two-factor flag on. *)
Lemma verify2fa_absent_secret_accepts_code :
  r_totp_secret alice = None /\
  match usecase.Verify2FA libs a (temp_token_for alice t0) "501315" w0 with
  | (Ok resp, w') => domain.Token resp <> "" /\ flag w' "id-alice" = Some true
  | (Err _, _) => False
  end.
Proof. vm_compute. repeat split; try reflexivity. discriminate. Qed.

Lemma verify2fa_absent_secret_witness :
  fst (usecase.Verify2FA libs a (temp_token_for alice t0) "000000" w0)
    = Err "invalid 2FA code" <->
  totp.ValidateCustom (lib_totp libs) "000000" "" (clock (tick w0)) = false.
Proof.
  apply (verify2fa_absent_secret libs j (temp_token_for alice t0) "000000" w0
           (tick w0) (tick w0) (temp_claims_for alice t0) alice).
  - vm_compute. reflexivity.
  - vm_compute. reflexivity.
  - reflexivity.
Defined.

(** C7, the failing input: after the two-factor setup, and before any code
    was verified, Alice logs in; the account returned with her session token
    has the password cleared and the TOTP secret still in it. *)
Lemma login_returns_totp_secret :
  flag w_setup "id-alice" = Some false /\
  match usecase.Login libs a
          (domain.mkUserLoginRequest "alice@example.com" "password123") w_setup with
  | (Ok resp, _) =>
      domain.Requires2FA resp = false /\
      domain.Token resp <> "" /\
      option_map domain.Password (domain.AuthUser resp) = Some "" /\
      option_map domain.TOTPSecret (domain.AuthUser resp) = Some secret
  | (Err _, _) => False
  end.
Proof. vm_compute. repeat split; try reflexivity. discriminate. Qed.

(** C8 as stated fails: the six letters "abcdef" pass the handler's check
    and reach the engine, whose verdict comes back as 401, not 400. *)
Lemma verify2fa_non_digit_code_reaches_engine :
  router.auth_2fa_verify libs j (verify_with (temp_token_for dan t0) "abcdef") w0 =
    (Ok (response.Unauthorized "invalid 2FA code"),
     snd (router.auth_2fa_verify libs j (verify_with (temp_token_for dan t0) "abcdef") w0))
  /\
  totp_log (snd (router.auth_2fa_verify libs j
                   (verify_with (temp_token_for dan t0) "abcdef") w0))
    = [("abcdef", secret)].
Proof. vm_compute. split; reflexivity. Qed.

Lemma verify2fa_code_length_gate_witness :
  (exists msg,
     handler.Verify2FA libs (router.authHandler j)
       (verify_with (temp_token_for dan t0) "12345") w0
     = (Ok (response.BadRequest msg []), w0)) /\
  totp_log (snd (router.auth_2fa_verify libs j
                   (verify_with (temp_token_for dan t0) "12345") w0))
    = totp_log w0.
Proof.
  destruct (verify2fa_code_length_gate libs j
              (verify_with (temp_token_for dan t0) "12345")
              (domain.mkVerify2FARequest "" "12345") w0 eq_refl)
    as [H _].
  apply H. discriminate.
Defined.

Lemma session_token_roundtrip_witness :
  exists claims w3,
    jwt.ValidateToken reference.jwt_lib j (session_token_for alice t0)
      (after_reads 3 (at_time t0 [])) = (Ok claims, w3) /\
    jwt.UserID claims = "id-alice" /\
    jwt.Email claims = "alice@example.com".
Proof.
  apply (session_token_roundtrip reference.jwt_lib reference_jwt_roundtrip j
           "id-alice" "alice@example.com" (at_time t0 [])
           (after_reads 3 (at_time t0 []))).
  - vm_compute. reflexivity.
  - lia.
  - vm_compute. reflexivity.
Defined.

Lemma setup2fa_exposes_secret_witness :
  exists user w1 key w2,
    postgres.GetByID "id-alice" w0 = (Ok user, w1) /\
    totp.Generate (lib_totp libs)
      (totp.mkGenerateOpts "Telegram Bot API" (domain.Email user) 32) w1 = (Ok key, w2) /\
    domain.BackupCodes
      (domain.mkAuthResponse "" "" false None
         ("otpauth://totp/Telegram Bot API:alice@example.com?issuer=Telegram Bot API&secret="
          ++ secret) secret) = totp.Secret key.
Proof.
  destruct (setup2fa_exposes_secret libs j "id-alice" w0 w_setup
              (domain.mkAuthResponse "" "" false None
                 ("otpauth://totp/Telegram Bot API:alice@example.com?issuer=Telegram Bot API&secret="
                  ++ secret) secret))
    as (user & w1 & key & w2 & H1 & H2 & H3 & _).
  - vm_compute. reflexivity.
  - exists user, w1, key, w2. auto.
Defined.

End Concrete.

(** * Further properties of the code *)

(** ** The users table *)

Lemma NoDup_snoc {A} (l : list A) (x : A) : NoDup l -> ~ In x l -> NoDup (l ++ [x]).
Proof.
  induction l as [|y l IH]; intros Hl Hx; simpl.
  - constructor; [intros [] | constructor].
  - inversion Hl; subst. constructor.
    + rewrite in_app_iff. intros [H | [H | []]]; [contradiction|]. subst. apply Hx. now left.
    + apply IH; [assumption|]. intros H. apply Hx. now right.
Qed.

Lemma existsb_key_false (id email : string) (rows : list Row) :
  existsb (fun row => String.eqb (r_id row) id || String.eqb (r_email row) email) rows
    = false ->
  ~ In id (map r_id rows) /\ ~ In email (map r_email rows).
Proof.
  induction rows as [|row rows IH]; simpl; [intros _; split; intros []|].
  intros H. apply orb_false_iff in H as [H1 H2]. apply orb_false_iff in H1 as [Hi He].
  apply String.eqb_neq in Hi, He. destruct (IH H2) as [IH1 IH2].
  split; intros [H | H]; auto.
Qed.

Lemma map_update_where_id {A} (g : Row -> A) (id : UUID) (f : Row -> Row)
    (rows : list Row) :
  (forall row, g (f row) = g row) ->
  map g (postgres.update_where_id id f rows) = map g rows.
Proof.
  intros Hf. unfold postgres.update_where_id. rewrite map_map.
  apply map_ext. intros row. destruct (String.eqb (r_id row) id); auto.
Qed.

Lemma driver_users (w w1 : World) (r : Result unit) :
  postgres.driver w = (r, w1) -> users w1 = users w /\ clock w1 = clock w.
Proof.
  unfold postgres.driver. destruct (db_faults w) as [|[e|] rest];
    intros H; inversion H; subst; auto.
Qed.

Lemma keys_stay_unique_refl (w : World) : keys_stay_unique w w.
Proof. intros H; exact H. Qed.

Lemma keys_stay_unique_trans (w1 w2 w3 : World) :
  keys_stay_unique w1 w2 -> keys_stay_unique w2 w3 -> keys_stay_unique w1 w3.
Proof. unfold keys_stay_unique; auto. Qed.

Lemma keeps_users_keys {A} (c : M A) : keeps same_users c -> keeps keys_stay_unique c.
Proof.
  apply keeps_weaken. intros w w' H. unfold same_users in H.
  unfold keys_stay_unique. now rewrite H.
Qed.

#[local] Hint Resolve keys_stay_unique_refl keys_stay_unique_trans keeps_users_keys
  : keeps.

Lemma Create_keys (user : domain.User) : keeps keys_stay_unique (postgres.Create user).
Proof.
  unfold postgres.Create. keeps_tac.
  intros w [Hid Hem].
  match goal with |- context [existsb ?p ?l] => destruct (existsb p l) eqn:E end;
    [now split|].
  apply existsb_key_false in E as [E1 E2].
  unfold unique_keys; simpl. rewrite !map_app. simpl.
  split; apply NoDup_snoc; assumption.
Qed.

Lemma UpdateTOTPSecret_keys (id : UUID) (secret : string) :
  keeps keys_stay_unique (postgres.UpdateTOTPSecret id secret).
Proof.
  unfold postgres.UpdateTOTPSecret. keeps_tac.
  intros w H. unfold unique_keys in *; simpl.
  now rewrite !map_update_where_id by reflexivity.
Qed.

Lemma Enable2FA_keys (id : UUID) : keeps keys_stay_unique (postgres.Enable2FA id).
Proof.
  unfold postgres.Enable2FA. keeps_tac.
  intros w H. unfold unique_keys in *; simpl.
  now rewrite !map_update_where_id by reflexivity.
Qed.

(** The emails after [UPDATE ... SET email = e WHERE id = id], when no other
    row holds [e]. *)
Lemma NoDup_emails_after_update (id : UUID) (e : string) (f : Row -> Row)
    (rows : list Row) :
  (forall row, r_email (f row) = e) ->
  NoDup (map r_id rows) ->
  NoDup (map r_email rows) ->
  (forall row, In row rows -> r_id row <> id -> r_email row <> e) ->
  NoDup (map r_email (postgres.update_where_id id f rows)).
Proof.
  intros Hf. unfold postgres.update_where_id.
  induction rows as [|x xs IH]; intros Hid Hem Hother; simpl; [constructor|].
  inversion Hid as [|? ? Hx Hid']; inversion Hem as [|? ? Hy Hem']; subst.
  constructor.
  - rewrite map_map, in_map_iff. intros (y & Hyx & Hin).
    destruct (String.eqb (r_id x) id) eqn:Ex.
    + apply String.eqb_eq in Ex. rewrite Hf in Hyx.
      destruct (String.eqb (r_id y) id) eqn:Ey.
      * apply String.eqb_eq in Ey. apply Hx. rewrite Ex, <- Ey. now apply in_map.
      * apply String.eqb_neq in Ey. apply (Hother y); [now right | assumption | assumption].
    + apply String.eqb_neq in Ex.
      destruct (String.eqb (r_id y) id) eqn:Ey.
      * rewrite Hf in Hyx. apply (Hother x); [now left | assumption | now symmetry].
      * apply Hy. rewrite <- Hyx. now apply in_map.
  - apply IH; auto. intros row Hin. apply Hother. now right.
Qed.

Lemma Update_keys (user : domain.User) : keeps keys_stay_unique (postgres.Update user).
Proof.
  unfold postgres.Update. keeps_tac.
  intros w [Hid Hem].
  destruct (existsb (fun row => String.eqb (r_id row) (domain.ID user)) (users w)) eqn:E1;
    cbn [andb].
  - match goal with |- context [existsb ?p ?l] => destruct (existsb p l) eqn:E2 end;
      [now split|].
    unfold unique_keys; simpl. split.
    + now rewrite map_update_where_id by reflexivity.
    + apply NoDup_emails_after_update with (e := domain.Email user); auto.
      intros row Hin Hne He.
      assert (H : existsb
                    (fun row => negb (String.eqb (r_id row) (domain.ID user)) &&
                                String.eqb (r_email row) (domain.Email user))
                    (users w) = true).
      { apply existsb_exists. exists row. split; [assumption|].
        apply String.eqb_neq in Hne. rewrite Hne. simpl. now apply String.eqb_eq. }
      congruence.
  - assert (Hsame : postgres.update_where_id (domain.ID user)
                      (fun row =>
                         mkRow (r_id row) (domain.Email user) (domain.Password user)
                               (domain.FullName user) (domain.IsActive user)
                               (domain.Is2FAEnabled user) (r_totp_secret row)
                               (r_created_at row)
                               (postgres.timestamptz (domain.UpdatedAt user)))
                      (users w) = users w).
    { unfold postgres.update_where_id.
      rewrite <- (map_id (users w)) at 2. apply map_ext_in. intros row Hin.
      destruct (String.eqb (r_id row) (domain.ID user)) eqn:E; [|reflexivity].
      assert (H : existsb (fun row => String.eqb (r_id row) (domain.ID user)) (users w)
                  = true) by (apply existsb_exists; now exists row).
      congruence. }
    unfold unique_keys; simpl. rewrite Hsame. now split.
Qed.

#[local] Hint Resolve Create_keys UpdateTOTPSecret_keys Enable2FA_keys Update_keys
  : keeps.

Section Table.

Variable libs : Libs.
Variable j : jwt.JWTManager.

Let a : usecase.AuthUsecase := router.authUsecase j.

Lemma exec_keys (op : Op) (w : World) : keys_stay_unique w (exec libs a op w).
Proof.
  destruct op; simpl.
  - revert w. change (keeps keys_stay_unique (usecase.Register libs a req)).
    unfold usecase.Register, uuid_New, a. unfold_repo. keeps_tac.
  - revert w. change (keeps keys_stay_unique (usecase.Login libs a req)).
    unfold usecase.Login, a. unfold_repo. keeps_tac.
  - revert w. change (keeps keys_stay_unique (usecase.Setup2FA libs a userID)).
    unfold usecase.Setup2FA, a. unfold_repo. keeps_tac.
  - revert w. change (keeps keys_stay_unique (usecase.Verify2FA libs a tempToken code)).
    unfold usecase.Verify2FA, a. unfold_repo. keeps_tac.
Qed.

(** X1. Ids and emails stay unique in the users table: each of the six
    statements of the repository keeps them so, and so does every sequence of
    operations of the auth use case, with the environment moving on in
    between. *)
Theorem users_keys_stay_unique :
  (forall user, keeps keys_stay_unique (postgres.Create user)) /\
  (forall email, keeps keys_stay_unique (postgres.GetByEmail email)) /\
  (forall id, keeps keys_stay_unique (postgres.GetByID id)) /\
  (forall user, keeps keys_stay_unique (postgres.Update user)) /\
  (forall id secret, keeps keys_stay_unique (postgres.UpdateTOTPSecret id secret)) /\
  (forall id, keeps keys_stay_unique (postgres.Enable2FA id)) /\
  (forall events w,
     unique_keys (users w) -> unique_keys (users (run libs a events w))).
Proof.
  repeat (split; [intros; solve [eauto with keeps] |]).
  intros events. induction events as [|[op|dt t e f] events IH]; intros w H; simpl.
  - exact H.
  - apply IH. now apply exec_keys.
  - apply IH. exact H.
Qed.

End Table.

(** ** Registration and the repository *)

Lemma driver_ok_users (w w1 : World) :
  postgres.driver w = (Ok tt, w1) -> postgres.set_users w1 (users w) = w1.
Proof.
  intros H. destruct (driver_users _ _ _ H) as [Hu _]. rewrite <- Hu.
  now destruct w1.
Qed.

Lemma update_where_id_absent (id : UUID) (f : Row -> Row) (rows : list Row) :
  find (by_id id) rows = None -> postgres.update_where_id id f rows = rows.
Proof.
  unfold postgres.update_where_id.
  induction rows as [|row rows IH]; simpl; [reflexivity|].
  unfold by_id at 1. destruct (String.eqb (r_id row) id); [discriminate|].
  intros H. now rewrite IH.
Qed.

(** X2. A statement that updates the row of an id the table does not hold
    succeeds all the same and changes nothing: [UpdateTOTPSecret], [Enable2FA]
    and [Update] do not report a missing account. *)
Theorem update_of_missing_id_is_silent (id : UUID) (w w1 : World) :
  find (by_id id) (users w) = None ->
  postgres.driver w = (Ok tt, w1) ->
  (forall secret, postgres.UpdateTOTPSecret id secret w = (Ok tt, w1)) /\
  postgres.Enable2FA id w = (Ok tt, w1) /\
  (forall user, domain.ID user = id -> postgres.Update user w = (Ok tt, w1)).
Proof.
  intros Hf Hd. pose proof (driver_users _ _ _ Hd) as [Hu _].
  pose proof (driver_ok_users _ _ Hd) as Hw.
  split; [|split].
  - intros secret. unfold postgres.UpdateTOTPSecret, bind, attempt. rewrite Hd.
    rewrite update_where_id_absent by (now rewrite Hu). now rewrite Hu, Hw.
  - unfold postgres.Enable2FA, bind, attempt. rewrite Hd.
    rewrite update_where_id_absent by (now rewrite Hu). now rewrite Hu, Hw.
  - intros user Hid. subst id. unfold postgres.Update, bind, attempt. rewrite Hd.
    assert (He : existsb (fun row => String.eqb (r_id row) (domain.ID user)) (users w1)
                 = false).
    { rewrite Hu. apply not_true_is_false. intros H.
      apply existsb_exists in H as (row & Hin & Hrow).
      pose proof (find_none _ _ Hf row Hin) as Hn. unfold by_id in Hn. congruence. }
    rewrite He. cbn [andb].
    rewrite update_where_id_absent by (now rewrite Hu). now rewrite Hu, Hw.
Qed.

Lemma Create_ok_rows (user : domain.User) (w w1 : World) :
  postgres.Create user w = (Ok tt, w1) ->
  users w1 =
    (users w ++ [mkRow (domain.ID user) (domain.Email user) (domain.Password user)
                       (domain.FullName user) (domain.IsActive user)
                       (domain.Is2FAEnabled user) None
                       (postgres.timestamptz (domain.CreatedAt user))
                       (postgres.timestamptz (domain.UpdatedAt user))])%list /\
  clock w1 = clock w /\
  ~ In (domain.ID user) (map r_id (users w)) /\
  ~ In (domain.Email user) (map r_email (users w)).
Proof.
  unfold postgres.Create, bind, attempt, fail. intros Hc.
  destruct (postgres.driver w) as [[[]|e] w0] eqn:Hd; [|discriminate].
  destruct (driver_users _ _ _ Hd) as [Hu Hk].
  match type of Hc with context [existsb ?p ?l] => destruct (existsb p l) eqn:E end;
    [discriminate|].
  inversion Hc; subst. simpl. rewrite <- Hu. repeat split; auto.
  - now apply existsb_key_false in E.
  - now apply existsb_key_false in E.
Qed.



Section Registration.

Variable libs : Libs.
Variable j : jwt.JWTManager.

Let a : usecase.AuthUsecase := router.authUsecase j.

Lemma frame_users {A} (c : M A) (w w1 : World) (r : Result A) :
  keeps frame c -> c w = (r, w1) -> users w1 = users w.
Proof. intros H E. destruct (H w) as [Hu _]. now rewrite E in Hu. Qed.

Lemma HashPassword_ok (password hash : string) (w w1 : World) :
  crypto.HashPassword (lib_bcrypt libs) password w = (Ok hash, w1) ->
  exists salt,
    bcrypt.GenerateFromPassword (lib_bcrypt libs) password bcrypt.DefaultCost salt
      = Ok hash.
Proof.
  unfold crypto.HashPassword. intros H. step H as salt w0 Hs.
  exists salt. destruct (bcrypt.GenerateFromPassword _ _ _ _) as [h|e]; [|discriminate].
  apply ret_ok in H as [H _]. now subst.
Qed.

Lemma Register_ok_rows (req : domain.UserRegisterRequest) (w w' : World)
    (u : domain.User) :
  usecase.Register libs a req w = (Ok u, w') ->
  exists salt hash,
    bcrypt.GenerateFromPassword (lib_bcrypt libs) (domain.RegPassword req)
      bcrypt.DefaultCost salt = Ok hash /\
    users w' =
      (users w ++ [mkRow (domain.ID u) (domain.RegEmail req) hash
                         (domain.RegFullName req) true false None
                         (postgres.timestamptz (domain.CreatedAt u))
                         (postgres.timestamptz (domain.UpdatedAt u))])%list /\
    u = domain.mkUser (domain.ID u) (domain.RegEmail req) "" (domain.RegFullName req)
                      true false "" (domain.CreatedAt u) (domain.UpdatedAt u) /\
    ~ In (domain.ID u) (map r_id (users w)) /\
    ~ In (domain.RegEmail req) (map r_email (users w)).
Proof.
  unfold usecase.Register, a. unfold_repo. intros H.
  step H as existing w1 H1. destruct existing as [?|e1]; [discriminate|].
  step H as hashed w2 H2. destruct hashed as [hashedPassword|e2]; [|discriminate].
  step H as id w3 H3. step H as created w4 H4. step H as updated w5 H5.
  step H as r w6 H6. destruct r as [[]|e6]; [|discriminate].
  apply ret_ok in H as [Hu Hw]; subst u w6.
  apply HashPassword_ok in H2 as Hh. destruct Hh as [salt Hh].
  apply Create_ok_rows in H6 as (Hrows & _ & Hid & Hem). cbn in Hrows, Hid, Hem.
  assert (Hu5 : users w5 = users w).
  { apply (frame_users _ _ _ _ (frame_GetByEmail _)) in H1.
    apply (frame_users _ _ _ _ (frame_HashPassword _ _)) in H2.
    apply (frame_users _ _ _ _ frame_rand_Read) in H3.
    apply (frame_users _ _ _ _ frame_time_Now) in H4.
    apply (frame_users _ _ _ _ frame_time_Now) in H5. congruence. }
  rewrite Hu5 in *.
  exists salt, hashedPassword. cbn. repeat split; auto.
Qed.


(** X5. An email that is in the users table cannot be registered again:
    whether the lookup finds the account or fails, [Register] returns an
    error and leaves the table as it was. *)
Theorem register_known_email_never_succeeds (req : domain.UserRegisterRequest)
    (w : World) (row : Row) :
  In row (users w) ->
  r_email row = domain.RegEmail req ->
  exists e w',
    usecase.Register libs a req w = (Err e, w') /\ users w' = users w.
Proof.
  intros Hin Hrow. unfold usecase.Register, a. unfold_repo.
  unfold bind at 1, attempt at 1.
  pose proof (frame_GetByEmail (domain.RegEmail req) w) as [H1 _].
  destruct (postgres.GetByEmail (domain.RegEmail req) w) as [[found|e1] w1];
    cbn [snd] in H1; [now eexists; eexists|].
  unfold bind at 1, attempt at 1.
  pose proof (frame_HashPassword (lib_bcrypt libs) (domain.RegPassword req) w1) as [H2 _].
  destruct (crypto.HashPassword (lib_bcrypt libs) (domain.RegPassword req) w1)
    as [[hashed|e2] w2]; cbn [snd] in H2;
    [|eexists; eexists; split; [reflexivity | congruence]].
  unfold bind at 1.
  pose proof (frame_rand_Read w2) as [H3 _]. unfold uuid_New.
  destruct (rand_Read w2) as [[id|e3] w3]; cbn [snd] in H3;
    [|eexists; eexists; split; [reflexivity | congruence]].
  unfold bind at 1, time_Now at 1. unfold bind at 1, time_Now at 1.
  unfold bind at 1, attempt at 1.
  unfold postgres.Create, bind, attempt, fail, ret.
  assert (H5 : users (tick (tick w3)) = users w) by (rewrite !tick_users; congruence).
  destruct (postgres.driver (tick (tick w3))) as [[[]|e6] w6] eqn:Hd;
    destruct (driver_users _ _ _ Hd) as [H6 _].
  - assert (E : existsb (fun row0 => String.eqb (r_id row0) id ||
                                     String.eqb (r_email row0) (domain.RegEmail req))
                        (users w6) = true).
    { apply existsb_exists. exists row. split; [congruence|].
      rewrite Hrow, String.eqb_refl. apply orb_true_r. }
    cbn [domain.ID domain.Email]. rewrite E.
    eexists; eexists; split; [reflexivity | congruence].
  - eexists; eexists; split; [reflexivity | congruence].
Qed.


End Registration.

(** ** More on tokens *)

Section Tokens.

Variable lib : jwtlib.Lib jwt.Claims.
Variable j : jwt.JWTManager.

(** The outcome of [ValidateToken] on a token that decodes, is signed with
    an HMAC method and verifies under the manager's key: the clock decides. *)
Lemma ValidateToken_signed (tok : string) (token : jwtlib.Token jwt.Claims) (w : World) :
  jwtlib.decode lib tok = Some token ->
  jwtlib.isHMAC (jwtlib.Method token) = true ->
  jwtlib.Verify lib (jwtlib.Method token) (jwtlib.SigningInput token)
    (jwtlib.Signature token) (jwt.secretKey j) = true ->
  jwt.ValidateToken lib j tok w =
    (match jwtlib.Validate jwt.Registered (jwtlib.Claims token) (clock w) with
     | [] => Ok (jwtlib.Claims token)
     | errs => Err ("token has invalid claims: " ++ jwtlib.joinErrors errs)
     end,
     tick w).
Proof.
  intros Hd Hm Hv.
  unfold jwt.ValidateToken, jwtlib.ParseWithClaims, jwt.keyFunc, bind, attempt, ret, fail.
  rewrite Hd, Hm; simpl. rewrite Hv. unfold time_Now.
  now destruct (jwtlib.Validate jwt.Registered (jwtlib.Claims token) (clock w)).
Qed.

(** X7. A token whose header names a signing method outside the HMAC family
    is refused by the key function before any signature is checked and before
    the clock is read, whatever it claims; the error is the key function's,
    wrapped by the parser. *)
Theorem non_hmac_token_refused (tok : string) (token : jwtlib.Token jwt.Claims)
    (w : World) :
  jwtlib.decode lib tok = Some token ->
  jwtlib.isHMAC (jwtlib.Method token) = false ->
  jwt.ValidateToken lib j tok w =
    (Err "token is unverifiable: error while executing keyfunc: unexpected signing method",
     w) /\
  jwt.ValidateTempToken lib j tok w =
    (Err "token is unverifiable: error while executing keyfunc: unexpected signing method",
     w).
Proof.
  intros Hd Hm.
  assert (H : jwt.ValidateToken lib j tok w =
              (Err "token is unverifiable: error while executing keyfunc: unexpected signing method",
               w)).
  { unfold jwt.ValidateToken, jwtlib.ParseWithClaims, jwt.keyFunc, bind, attempt, fail.
    now rewrite Hd, Hm. }
  split; [exact H|].
  unfold jwt.ValidateTempToken, bind, attempt, fail. now rewrite H.
Qed.

(** The verdict of [ValidateToken] is a function of the token and of the
    reading of the clock. *)
Lemma ValidateToken_by_clock (tok : string) (w w' : World) :
  clock w = clock w' ->
  fst (jwt.ValidateToken lib j tok w) = fst (jwt.ValidateToken lib j tok w').
Proof.
  intros Hc.
  unfold jwt.ValidateToken, jwtlib.ParseWithClaims, bind, attempt, ret, fail.
  destruct (jwtlib.decode lib tok) as [token|]; [|reflexivity].
  destruct (jwt.keyFunc j token) as [key|e]; [|reflexivity].
  destruct (jwtlib.Verify lib _ _ _ key); [|reflexivity].
  unfold time_Now. rewrite Hc.
  now destruct (jwtlib.Validate jwt.Registered (jwtlib.Claims token) (clock w')).
Qed.

(** X8. Tokens are never revoked: what [ValidateToken] and
    [ValidateTempToken] answer for a token depends on the token, the key and
    the reading of the clock only, not on the users table nor on anything
    that happened before. *)
Theorem token_verdict_depends_on_clock_only (tok : string) (w w' : World) :
  clock w = clock w' ->
  fst (jwt.ValidateToken lib j tok w) = fst (jwt.ValidateToken lib j tok w') /\
  fst (jwt.ValidateTempToken lib j tok w) = fst (jwt.ValidateTempToken lib j tok w').
Proof.
  intros Hc. pose proof (ValidateToken_by_clock tok w w' Hc) as H.
  split; [exact H|].
  unfold jwt.ValidateTempToken, bind, attempt, ret, fail.
  destruct (jwt.ValidateToken lib j tok w) as [r1 w1].
  destruct (jwt.ValidateToken lib j tok w') as [r2 w2].
  simpl in H. subst r2. destruct r1 as [claims|e]; [|reflexivity].
  now destruct (jwt.TempAuth claims).
Qed.

Hypothesis lib_roundtrip : jwtlib.roundtrip lib.

(** What the validator makes of an issued token. *)
Lemma issued_token_verdict (id : UUID) (email : string) (is2FA tempAuth : bool)
    (ttl : Duration) (t1 t2 t3 : Time) (tok : string) (w : World) :
  jwtlib.SignedString lib jwtlib.HS256
    (issued_claims id email is2FA tempAuth ttl t1 t2 t3) (jwt.secretKey j) = Ok tok ->
  jwt.ValidateToken lib j tok w =
    (if clock w <? jwtlib.NewNumericDate (t1 + ttl)
     then
       if clock w <? jwtlib.NewNumericDate t3
       then Err "token has invalid claims: token is not valid yet"
       else Ok (issued_claims id email is2FA tempAuth ttl t1 t2 t3)
     else
       if clock w <? jwtlib.NewNumericDate t3
       then Err "token has invalid claims: token is expired, token is not valid yet"
       else Err "token has invalid claims: token is expired",
     tick w).
Proof.
  intros Hs. apply lib_roundtrip in Hs; [|reflexivity].
  destruct Hs as (input & sig & Hd & Hv).
  rewrite (ValidateToken_signed tok _ w Hd eq_refl Hv).
  unfold jwtlib.Validate, jwtlib.verifyExpiresAt, jwtlib.verifyNotBefore; simpl.
  destruct (clock w <? jwtlib.NewNumericDate (t1 + ttl));
    destruct (clock w <? jwtlib.NewNumericDate t3); reflexivity.
Qed.

(** X9. A temporary token validates as one, for the account it was issued
    to, from the moment it is issued until fifteen minutes after. *)
Theorem temp_token_roundtrip (id : UUID) (email : string) (w w1 w2 : World)
    (tok : string) :
  jwt.GenerateTempToken lib j id email w = (Ok tok, w1) ->
  clock w1 <= clock w2 ->
  clock w2 < jwtlib.NewNumericDate (clock w + 15 * Minute) ->
  exists claims,
    jwt.ValidateTempToken lib j tok w2 = (Ok claims, tick w2) /\
    jwt.UserID claims = id /\
    jwt.Email claims = email /\
    jwt.TempAuth claims = true.
Proof.
  intros H Hle Hlt. rewrite GenerateTempToken_unfold in H.
  assert (Hs := f_equal fst H); assert (Hw := f_equal snd H); cbn [fst snd] in Hs, Hw.
  exists (issued_claims id email false true (15 * Minute)
            (clock w) (clock (after_reads 1 w)) (clock (after_reads 2 w))).
  split; [|repeat split].
  apply ValidateTempToken_accepts. split; [|reflexivity].
  rewrite (issued_token_verdict _ _ _ _ _ _ _ _ _ w2 Hs).
  apply Z.ltb_lt in Hlt. rewrite Hlt.
  assert (Hn : (clock w2 <? jwtlib.NewNumericDate (clock (after_reads 2 w))) = false).
  { apply Z.ltb_ge.
    pose proof (NewNumericDate_le (clock (after_reads 2 w))).
    pose proof (tick_clock (after_reads 2 w)) as Hc.
    change (tick (after_reads 2 w)) with (after_reads 3 w) in Hc.
    rewrite Hw in Hc. lia. }
  now rewrite Hn.
Qed.

(** The clock is past the [nbf] of a token once the call that issued it has
    returned. *)
Lemma issued_not_before (w w1 w2 : World) :
  after_reads 3 w = w1 ->
  clock w1 <= clock w2 ->
  (clock w2 <? jwtlib.NewNumericDate (clock (after_reads 2 w))) = false.
Proof.
  intros Hw Hle. apply Z.ltb_ge.
  pose proof (NewNumericDate_le (clock (after_reads 2 w))).
  pose proof (tick_clock (after_reads 2 w)) as Hc.
  change (tick (after_reads 2 w)) with (after_reads 3 w) in Hc.
  rewrite Hw in Hc. lia.
Qed.

(** X10. A token is refused from its expiry on: a session token once the
    configured lifetime has passed since it was issued, a temporary token
    once fifteen minutes have (dates counted in whole seconds). Validated
    after the call that issued it has returned, the token is refused with the
    library's "token has invalid claims: token is expired". *)
Theorem expired_token_refused (id : UUID) (email : string) (is2FA : bool)
    (w w1 w2 : World) (tok : string) :
  (jwt.GenerateToken lib j id email is2FA w = (Ok tok, w1) ->
   jwtlib.NewNumericDate (clock w + jwt.expiry j) <= clock w2 ->
   (exists e, jwt.ValidateToken lib j tok w2 = (Err e, tick w2)) /\
   (clock w1 <= clock w2 ->
    jwt.ValidateToken lib j tok w2 =
      (Err "token has invalid claims: token is expired", tick w2))) /\
  (jwt.GenerateTempToken lib j id email w = (Ok tok, w1) ->
   jwtlib.NewNumericDate (clock w + 15 * Minute) <= clock w2 ->
   (exists e, jwt.ValidateTempToken lib j tok w2 = (Err e, tick w2)) /\
   (clock w1 <= clock w2 ->
    jwt.ValidateTempToken lib j tok w2 =
      (Err "token has invalid claims: token is expired", tick w2))).
Proof.
  split; intros H Hle.
  - rewrite GenerateToken_unfold in H.
    assert (Hs := f_equal fst H); assert (Hw := f_equal snd H); cbn [fst snd] in Hs, Hw.
    rewrite (issued_token_verdict _ _ _ _ _ _ _ _ _ w2 Hs).
    apply Z.ltb_ge in Hle. rewrite Hle. cbv iota. split.
    + destruct (clock w2 <? jwtlib.NewNumericDate (clock (after_reads 2 w)));
        eexists; reflexivity.
    + intros Hafter. now rewrite (issued_not_before w w1 w2 Hw Hafter).
  - rewrite GenerateTempToken_unfold in H.
    assert (Hs := f_equal fst H); assert (Hw := f_equal snd H); cbn [fst snd] in Hs, Hw.
    unfold jwt.ValidateTempToken, bind, attempt, fail.
    rewrite (issued_token_verdict _ _ _ _ _ _ _ _ _ w2 Hs).
    apply Z.ltb_ge in Hle. rewrite Hle. cbv iota. split.
    + destruct (clock w2 <? jwtlib.NewNumericDate (clock (after_reads 2 w)));
        eexists; reflexivity.
    + intros Hafter. now rewrite (issued_not_before w w1 w2 Hw Hafter).
Qed.

(** X11. A session token is not a temporary token: [ValidateTempToken]
    refuses every token issued by [GenerateToken], at any time, and while the
    token is valid the reason is "not a temporary token". *)
Theorem session_token_is_not_temporary (id : UUID) (email : string) (is2FA : bool)
    (w w1 w2 : World) (tok : string) :
  jwt.GenerateToken lib j id email is2FA w = (Ok tok, w1) ->
  (exists e, jwt.ValidateTempToken lib j tok w2 = (Err e, tick w2)) /\
  (clock w1 <= clock w2 ->
   clock w2 < jwtlib.NewNumericDate (clock w + jwt.expiry j) ->
   jwt.ValidateTempToken lib j tok w2 = (Err "not a temporary token", tick w2)).
Proof.
  intros H. rewrite GenerateToken_unfold in H.
  assert (Hs := f_equal fst H); assert (Hw := f_equal snd H); cbn [fst snd] in Hs, Hw.
  pose proof (issued_token_verdict _ _ _ _ _ _ _ _ _ w2 Hs) as Hv.
  unfold jwt.ValidateTempToken, bind, attempt, ret, fail. rewrite Hv. split.
  - destruct (_ <? _); destruct (_ <? _); now eexists.
  - intros Hle Hlt. apply Z.ltb_lt in Hlt. rewrite Hlt.
    now rewrite (issued_not_before w w1 w2 Hw Hle).
Qed.

End Tokens.

(** ** Logging in and verifying the second factor *)

Lemma driver_clock (w w1 : World) (r : Result unit) :
  postgres.driver w = (r, w1) -> clock w1 = clock w.
Proof.
  unfold postgres.driver. destruct (db_faults w) as [|[e|] rest]; intros H;
    inversion H; reflexivity.
Qed.

Lemma GetByEmail_clock (email : string) (w w1 : World) (r : Result domain.User) :
  postgres.GetByEmail email w = (r, w1) -> clock w1 = clock w.
Proof.
  unfold postgres.GetByEmail, postgres.QueryRow, bind, attempt, ret, fail.
  destruct (postgres.driver w) as [[[]|e] w2] eqn:Hd; apply driver_clock in Hd.
  - destruct (find _ (users w2)); [|destruct (String.eqb _ _)];
      intros H; inversion H; now subst.
  - destruct (String.eqb _ _); intros H; inversion H; now subst.
Qed.

Section Sessions.

Variable libs : Libs.
Variable j : jwt.JWTManager.

Let a : usecase.AuthUsecase := router.authUsecase j.

(** X12. No token without the password: a login that succeeds has read an
    account for the email, verified the password against its hash and found
    the account active. With the second factor enabled it hands out a
    temporary token only, no session token and no account; without, a session
    token that records [is_2fa = false] and the account with its password
    hash cleared. *)
Theorem login_success (req : domain.UserLoginRequest) (w w' : World)
    (resp : domain.AuthResponse) :
  usecase.Login libs a req w = (Ok resp, w') ->
  exists user w1,
    postgres.GetByEmail (domain.LoginEmail req) w = (Ok user, w1) /\
    crypto.CheckPassword (lib_bcrypt libs) (domain.LoginPassword req)
      (domain.Password user) = true /\
    domain.IsActive user = true /\
    domain.Requires2FA resp = domain.Is2FAEnabled user /\
    if domain.Is2FAEnabled user
    then
      domain.Token resp = "" /\ domain.AuthUser resp = None /\
      jwt.GenerateTempToken (lib_jwt libs) j (domain.ID user) (domain.Email user) w1 =
        (Ok (domain.TempToken resp), w')
    else
      domain.TempToken resp = "" /\
      domain.AuthUser resp = Some (domain.set_Password user "") /\
      jwt.GenerateToken (lib_jwt libs) j (domain.ID user) (domain.Email user) false w1 =
        (Ok (domain.Token resp), w').
Proof.
  unfold usecase.Login, a. unfold_repo. intros H.
  step H as found w1 H1. destruct found as [user|e1]; [|discriminate].
  destruct (crypto.CheckPassword _ _ _) eqn:Ep; [|discriminate].
  destruct (domain.IsActive user) eqn:Ea; [|discriminate].
  cbn [negb] in H. exists user, w1.
  destruct (domain.Is2FAEnabled user) eqn:E2.
  - step H as r w2 H2. destruct r as [tempToken|e2]; [|discriminate].
    apply ret_ok in H as [H Hw]; subst resp w2. repeat split; auto.
  - step H as r w2 H2. destruct r as [token|e2]; [|discriminate].
    apply ret_ok in H as [H Hw]; subst resp w2. repeat split; auto.
Qed.

(** X13. What a successful [Verify2FA] returns: the temporary token was
    valid, the account is the one it names, read from the table; the account
    comes back with the second factor enabled and with its password hash and
    its TOTP secret cleared, next to a session token for it that records
    [is_2fa = true]; no temporary token is returned. *)
Theorem verify2fa_success (tok code : string) (w w' : World)
    (resp : domain.AuthResponse) :
  usecase.Verify2FA libs a tok code w = (Ok resp, w') ->
  exists claims w1 user w2 u w4,
    jwt.ValidateTempToken (lib_jwt libs) j tok w = (Ok claims, w1) /\
    postgres.GetByID (jwt.UserID claims) w1 = (Ok user, w2) /\
    totp.ValidateCustom (lib_totp libs) code (domain.TOTPSecret user) (clock w2) = true /\
    domain.AuthUser resp = Some u /\
    u = domain.mkUser (jwt.UserID claims) (domain.Email user) "" (domain.FullName user)
          (domain.IsActive user) true "" (domain.CreatedAt user) (domain.UpdatedAt user) /\
    jwt.GenerateToken (lib_jwt libs) j (jwt.UserID claims) (domain.Email user) true w4 =
      (Ok (domain.Token resp), w') /\
    domain.TempToken resp = "" /\
    domain.Requires2FA resp = false.
Proof.
  unfold usecase.Verify2FA, a. unfold_repo. intros H.
  step H as validated w1 H1. destruct validated as [claims|e1]; [|discriminate].
  step H as found w2 H2. destruct found as [user|e2]; [|discriminate].
  step H as valid w3 H3. destruct valid; [|discriminate]. cbn [negb] in H.
  step H as user' w4 H4. step H as r w5 H5. destruct r as [token|e5]; [|discriminate].
  apply ret_ok in H as [Hr Hw]; subst resp w5.
  assert (Hid : domain.ID user = jwt.UserID claims).
  { apply GetByID_ok in H2 as (row & Hq & Hu).
    apply QueryRow_ok in Hq as [Hfind _].
    apply find_some in Hfind as [_ Hp]. apply String.eqb_eq in Hp.
    subst user. exact Hp. }
  assert (Hv : totp.ValidateCustom (lib_totp libs) code (domain.TOTPSecret user) (clock w2)
               = true).
  { unfold totp.Validate, bind, time_Now, ret in H3. now inversion H3. }
  assert (Hu' : user' = domain.set_Is2FAEnabled user true).
  { destruct (domain.Is2FAEnabled user) eqn:E2; cbn [negb] in H4.
    - apply ret_ok in H4 as [Hu' _]; subst user'. destruct user; simpl in *; now subst.
    - step H4 as r w4' H6. destruct r as [[]|e6]; [|discriminate].
      now apply ret_ok in H4 as [Hu' _]. }
  subst user'. cbn [domain.set_Is2FAEnabled domain.ID domain.Email domain.Is2FAEnabled] in H5.
  rewrite Hid in H5.
  exists claims, w1, user, w2.
  exists (domain.mkUser (jwt.UserID claims) (domain.Email user) "" (domain.FullName user)
            (domain.IsActive user) true "" (domain.CreatedAt user) (domain.UpdatedAt user)).
  exists w4.
  split; [exact H1|]. split; [exact H2|]. split; [exact Hv|].
  split; [cbn [domain.AuthUser]; unfold domain.set_TOTPSecret, domain.set_Password,
    domain.set_Is2FAEnabled; cbn; now rewrite Hid|]. split; [reflexivity|].
  split; [exact H5|]. split; reflexivity.
Qed.

Hypothesis lib_roundtrip : jwtlib.roundtrip (lib_jwt libs).

(** X14. A session token cannot stand in for the temporary token:
    [Verify2FA] refuses every token issued by [GenerateToken], at any time
    and for any code, and stops there; the table is not read and the TOTP
    engine is not asked. *)
Theorem verify2fa_refuses_session_token (id : UUID) (email : string) (is2FA : bool)
    (w w1 w2 : World) (tok code : string) :
  jwt.GenerateToken (lib_jwt libs) j id email is2FA w = (Ok tok, w1) ->
  usecase.Verify2FA libs a tok code w2 =
    (Err "invalid or expired temporary token", tick w2).
Proof.
  intros H. rewrite GenerateToken_unfold in H.
  assert (Hs := f_equal fst H); cbn [fst] in Hs.
  pose proof (issued_token_verdict _ j lib_roundtrip _ _ _ _ _ _ _ _ _ w2 Hs) as Hv.
  unfold usecase.Verify2FA, a. unfold_repo.
  unfold bind at 1, attempt at 1.
  unfold jwt.ValidateTempToken, bind, attempt, ret, fail. rewrite Hv.
  destruct (_ <? _); destruct (_ <? _); reflexivity.
Qed.

End Sessions.

(** ** The gates in front of the routes *)

(** [strings.Split]: two parts are the two sides of the only space. *)
Lemma Split_two (s a b : string) : Split s = [a; b] -> s = a ++ " " ++ b.
Proof.
  revert a; induction s as [|c s IH]; intros a H; simpl in H; [discriminate|].
  destruct (Ascii.eqb c " ") eqn:Ec.
  - apply Ascii.eqb_eq in Ec; subst c.
    inversion H as [[Ha Hs]]. apply Split_single in Hs. now subst.
  - destruct (Split s) as [|p ps] eqn:E; [discriminate|].
    inversion H; subst. simpl. now rewrite (IH p eq_refl).
Qed.

Lemma Split_bearer (tok : string) :
  Split tok = [tok] -> Split ("Bearer " ++ tok) = ["Bearer"; tok].
Proof. intros H. simpl. now rewrite H. Qed.

(** The second of two parts holds no space. *)
Lemma Split_second (s a b : string) : Split s = [a; b] -> Split b = [b].
Proof.
  revert a; induction s as [|c s IH]; intros a H; simpl in H; [discriminate|].
  destruct (Ascii.eqb c " ") eqn:Ec.
  - inversion H as [[Ha Hs]]. pose proof (Split_single _ _ Hs) as E. now subst.
  - destruct (Split s) as [|p ps] eqn:E; [discriminate|].
    inversion H; subst. now apply (IH p).
Qed.

Section Gates.

Variable libs : Libs.
Variable j : jwt.JWTManager.

Let a : usecase.AuthUsecase := router.authUsecase j.

(** The header the middlewares go on with: scheme [Bearer], one space, a
    token. *)
Lemma bearer_or_not (s : string) :
  (exists tok, s = "Bearer " ++ tok /\ Split s = ["Bearer"; tok]) \/
  (String.eqb s "" = true \/
   match Split s with
   | [scheme; _] => String.eqb scheme "Bearer" = false
   | _ => True
   end).
Proof.
  destruct (String.eqb s "") eqn:E0; [right; now left|].
  destruct (Split s) as [|scheme [|tok [|x rest]]] eqn:E; try (right; now right).
  destruct (String.eqb scheme "Bearer") eqn:Es; [|right; now right].
  apply String.eqb_eq in Es; subst scheme. left. exists tok.
  split; [exact (Split_two _ _ _ E) | reflexivity].
Qed.

(** Every outcome of [AuthMiddleware]. *)
Lemma AuthMiddleware_cases {B} (c : fiber.Ctx B) (w : World) :
  exists o w',
    middleware.AuthMiddleware libs j c w = (Ok o, w') /\
    match o with
    | fiber.Respond r => exists msg, r = response.Unauthorized msg
    | fiber.Next l =>
        exists tok claims,
          fiber.Authorization c = "Bearer " ++ tok /\
          jwt.ValidateToken (lib_jwt libs) j tok w = (Ok claims, w') /\
          jwt.TempAuth claims = false /\
          l = fiber.mkLocals (Some (jwt.UserID claims)) (Some (jwt.Email claims))
                (Some (jwt.Is2FA claims)) (fiber.temp_token (fiber.locals c))
    end.
Proof.
  unfold middleware.AuthMiddleware.
  destruct (bearer_or_not (fiber.Authorization c)) as [(tok & Hh & Hs)|[H0|Hn]].
  - assert (E0 : String.eqb (fiber.Authorization c) "" = false)
      by (rewrite Hh; reflexivity).
    cbv zeta. rewrite E0, Hs.
    change (String.eqb "Bearer" "Bearer") with true. cbn [negb].
    unfold bind, attempt, ret.
    destruct (jwt.ValidateToken (lib_jwt libs) j tok w) as [[claims|e] w1] eqn:Ev.
    + destruct (jwt.TempAuth claims) eqn:Et.
      * eexists; eexists; split; [reflexivity|]. now eexists.
      * eexists; eexists; split; [reflexivity|]. exists tok, claims. auto.
    + eexists; eexists; split; [reflexivity|]. now eexists.
  - rewrite H0. eexists; eexists; split; [reflexivity|]. now eexists.
  - destruct (String.eqb (fiber.Authorization c) "");
      [eexists; eexists; split; [reflexivity|]; now eexists|].
    destruct (Split (fiber.Authorization c)) as [|scheme [|tok [|x rest]]];
      try (eexists; eexists; split; [reflexivity|]; now eexists).
    rewrite Hn. eexists; eexists; split; [reflexivity|]. now eexists.
Qed.

(** When the gate lets a request through. *)
Lemma AuthMiddleware_passes {B} (c : fiber.Ctx B) (w w' : World) (l : fiber.Locals) :
  middleware.AuthMiddleware libs j c w = (Ok (fiber.Next l), w') <->
  exists tok claims,
    fiber.Authorization c = "Bearer " ++ tok /\
    Split tok = [tok] /\
    jwt.ValidateToken (lib_jwt libs) j tok w = (Ok claims, w') /\
    jwt.TempAuth claims = false /\
    l = fiber.mkLocals (Some (jwt.UserID claims)) (Some (jwt.Email claims))
          (Some (jwt.Is2FA claims)) (fiber.temp_token (fiber.locals c)).
Proof.
  split.
  - unfold middleware.AuthMiddleware. cbv zeta.
    destruct (String.eqb (fiber.Authorization c) ""); [discriminate|].
    destruct (Split (fiber.Authorization c)) as [|scheme [|tok [|x rest]]] eqn:E;
      try discriminate.
    destruct (String.eqb scheme "Bearer") eqn:Es; cbn [negb]; [|discriminate].
    apply String.eqb_eq in Es; subst scheme.
    unfold bind, attempt, ret.
    destruct (jwt.ValidateToken (lib_jwt libs) j tok w) as [[claims|e] w1] eqn:Ev;
      [|discriminate].
    destruct (jwt.TempAuth claims) eqn:Et; [discriminate|].
    intros H; inversion H; subst. exists tok, claims.
    split; [exact (Split_two _ _ _ E)|]. split; [exact (Split_second _ _ _ E)|]. auto.
  - intros (tok & claims & Hh & Hs & Hv & Ht & Hl). subst l.
    unfold middleware.AuthMiddleware. cbv zeta. rewrite Hh.
    change (String.eqb ("Bearer " ++ tok) "") with false. cbv iota.
    rewrite (Split_bearer tok Hs).
    change (String.eqb "Bearer" "Bearer") with true. cbn [negb].
    unfold bind, attempt, ret. now rewrite Hv, Ht.
Qed.

(** X15. The gate of the protected routes answers every request: it never
    fails and it refuses with 401 Unauthorized and nothing else. It lets a
    request through exactly when the header is [Bearer <token>] with a token
    that holds no space, [ValidateToken] accepts that token and its claims
    are not those of a temporary token; the values it stores are the id, the
    email and the second-factor mark of the claims. *)
Theorem auth_middleware_verdict {B} (c : fiber.Ctx B) (w : World) :
  (exists o w',
     middleware.AuthMiddleware libs j c w = (Ok o, w') /\
     match o with
     | fiber.Respond r => exists msg, r = response.Unauthorized msg
     | fiber.Next _ => True
     end) /\
  (forall l w',
     middleware.AuthMiddleware libs j c w = (Ok (fiber.Next l), w') <->
     exists tok claims,
       fiber.Authorization c = "Bearer " ++ tok /\
       Split tok = [tok] /\
       jwt.ValidateToken (lib_jwt libs) j tok w = (Ok claims, w') /\
       jwt.TempAuth claims = false /\
       l = fiber.mkLocals (Some (jwt.UserID claims)) (Some (jwt.Email claims))
             (Some (jwt.Is2FA claims)) (fiber.temp_token (fiber.locals c))).
Proof.
  split.
  - destruct (AuthMiddleware_cases c w) as (o & w' & Hm & Ho).
    exists o, w'. split; [exact Hm|]. now destruct o.
  - intros l w'. apply AuthMiddleware_passes.
Qed.

(** X16. A request whose [Authorization] header is not [Bearer <token>]
    (absent, another scheme, no space) is turned away by both gates with 401
    before any token is looked at: the clock is not read and nothing changes.
    The optional gate lets it through with the values the context had. *)
Theorem header_without_bearer {B} (c : fiber.Ctx B) (w : World) :
  (forall tok, fiber.Authorization c <> "Bearer " ++ tok) ->
  (exists msg, middleware.AuthMiddleware libs j c w =
                 (Ok (fiber.Respond (response.Unauthorized msg)), w)) /\
  (exists msg, middleware.TempAuthMiddleware libs j c w =
                 (Ok (fiber.Respond (response.Unauthorized msg)), w)) /\
  middleware.OptionalAuthMiddleware libs j c w = (Ok (fiber.Next (fiber.locals c)), w).
Proof.
  intros Hno.
  unfold middleware.AuthMiddleware, middleware.TempAuthMiddleware,
    middleware.OptionalAuthMiddleware.
  destruct (bearer_or_not (fiber.Authorization c)) as [(tok & Hh & _)|[H0|Hn]].
  - now destruct (Hno tok).
  - rewrite H0. repeat split; now eexists.
  - destruct (String.eqb (fiber.Authorization c) ""); [repeat split; now eexists|].
    destruct (Split (fiber.Authorization c)) as [|scheme [|tok [|x rest]]];
      try (repeat split; now eexists).
    rewrite Hn. repeat split; now eexists.
Qed.

(** X17. The optional gate never turns a request away and never fails. It
    agrees with the gate of the protected routes: where that one lets a
    request through, the optional gate stores the same values; where that one
    refuses, the optional gate goes on with the values the context had. Both
    leave the same world. *)
Theorem optional_auth_never_refuses {B} (c : fiber.Ctx B) (w : World) :
  match middleware.AuthMiddleware libs j c w with
  | (Ok (fiber.Next l), w') =>
      middleware.OptionalAuthMiddleware libs j c w = (Ok (fiber.Next l), w')
  | (Ok (fiber.Respond _), w') =>
      middleware.OptionalAuthMiddleware libs j c w = (Ok (fiber.Next (fiber.locals c)), w')
  | (Err _, _) => False
  end.
Proof.
  unfold middleware.AuthMiddleware, middleware.OptionalAuthMiddleware.
  destruct (String.eqb (fiber.Authorization c) ""); [reflexivity|].
  destruct (Split (fiber.Authorization c)) as [|scheme [|tok [|x rest]]];
    try reflexivity.
  destruct (negb (String.eqb scheme "Bearer")); [reflexivity|].
  unfold bind, attempt, ret.
  destruct (jwt.ValidateToken (lib_jwt libs) j tok w) as [[claims|e] w1];
    [|reflexivity].
  now destruct (jwt.TempAuth claims).
Qed.

Lemma AuthMiddleware_by_clock {B} (c : fiber.Ctx B) (w w2 : World) :
  clock w = clock w2 ->
  fst (middleware.AuthMiddleware libs j c w) = fst (middleware.AuthMiddleware libs j c w2).
Proof.
  intros Hc. unfold middleware.AuthMiddleware.
  destruct (String.eqb (fiber.Authorization c) ""); [reflexivity|].
  destruct (Split (fiber.Authorization c)) as [|scheme [|tok [|x rest]]];
    try reflexivity.
  destruct (negb (String.eqb scheme "Bearer")); [reflexivity|].
  unfold bind, attempt, ret.
  pose proof (ValidateToken_by_clock (lib_jwt libs) j tok w w2 Hc) as H.
  destruct (jwt.ValidateToken (lib_jwt libs) j tok w) as [r1 w1].
  destruct (jwt.ValidateToken (lib_jwt libs) j tok w2) as [r2 w3].
  simpl in H; subst r2. destruct r1 as [claims|e]; [|reflexivity].
  now destruct (jwt.TempAuth claims).
Qed.

(** X18. The profile route behind its gate: the type assertions of
    [GetProfile] never panic, for the gate stores all three values whenever
    it lets a request through. The route answers 401 or the profile, and the
    profile is made of the token's claims: the users table is not read, so
    the answer is the same whatever the table holds at the time. *)
Theorem profile_route {B} (c : fiber.Ctx B) (w : World) :
  match router.auth_profile libs j c w with
  | (Ok (handler.ProfileOK msg p), w') =>
      exists tok claims,
        fiber.Authorization c = "Bearer " ++ tok /\
        jwt.ValidateToken (lib_jwt libs) j tok w = (Ok claims, w') /\
        jwt.TempAuth claims = false /\
        p = handler.mkProfile (jwt.UserID claims) (jwt.Email claims) (jwt.Is2FA claims)
  | (Ok (handler.ProfileRefused r), _) => exists msg, r = response.Unauthorized msg
  | (Ok handler.ProfilePanic, _) => False
  | (Err _, _) => False
  end /\
  forall w2, clock w2 = clock w ->
    fst (router.auth_profile libs j c w2) = fst (router.auth_profile libs j c w).
Proof.
  split.
  - unfold router.auth_profile, bind.
    destruct (AuthMiddleware_cases c w) as (o & w' & Hm & Ho).
    rewrite Hm. destruct o as [r|l].
    + exact Ho.
    + destruct Ho as (tok & claims & Hh & Hv & Ht & Hl). subst l.
      unfold handler.GetProfile, ret; cbn. exists tok, claims. auto.
  - intros w2 Hc. unfold router.auth_profile, bind.
    pose proof (AuthMiddleware_by_clock c w2 w Hc) as H.
    destruct (middleware.AuthMiddleware libs j c w2) as [r1 w1].
    destruct (middleware.AuthMiddleware libs j c w) as [r2 w3].
    simpl in H; subst r2. destruct r1 as [[r|l]|e]; try reflexivity.
    unfold handler.GetProfile, ret; cbn.
    destruct (fiber.user_email l); [|reflexivity].
    destruct (fiber.user_id l); [|reflexivity].
    now destruct (fiber.is_2fa l).
Qed.

End Gates.

(** ** From a token to the routes *)

Section Journeys.

Variable libs : Libs.
Variable j : jwt.JWTManager.

Let a : usecase.AuthUsecase := router.authUsecase j.

Hypothesis lib_roundtrip : jwtlib.roundtrip (lib_jwt libs).

(** An issued token is accepted from the instant it was issued until its
    expiry. *)
Lemma issued_token_accepted (id : UUID) (email : string) (is2FA tempAuth : bool)
    (ttl : Duration) (w w1 w2 : World) (tok : string) :
  (jwtlib.SignedString (lib_jwt libs) jwtlib.HS256
     (issued_claims id email is2FA tempAuth ttl
        (clock w) (clock (after_reads 1 w)) (clock (after_reads 2 w)))
     (jwt.secretKey j),
   after_reads 3 w) = (Ok tok, w1) ->
  clock w1 <= clock w2 ->
  clock w2 < jwtlib.NewNumericDate (clock w + ttl) ->
  jwt.ValidateToken (lib_jwt libs) j tok w2 =
    (Ok (issued_claims id email is2FA tempAuth ttl
           (clock w) (clock (after_reads 1 w)) (clock (after_reads 2 w))),
     tick w2).
Proof.
  intros H Hle Hlt.
  assert (Hs := f_equal fst H); assert (Hw := f_equal snd H); cbn [fst snd] in Hs, Hw.
  rewrite (issued_token_verdict _ j lib_roundtrip _ _ _ _ _ _ _ _ _ w2 Hs).
  apply Z.ltb_lt in Hlt. rewrite Hlt.
  now rewrite (issued_not_before w w1 w2 Hw Hle).
Qed.

Lemma bearer_not_empty (tok : string) : String.eqb ("Bearer " ++ tok) "" = false.
Proof. reflexivity. Qed.

(** The gate of the protected routes on an issued session token. *)
Lemma AuthMiddleware_issued {B} (body : Result B) (l0 : fiber.Locals)
    (id : UUID) (email : string) (is2FA : bool) (w w1 w2 : World) (tok : string) :
  jwt.GenerateToken (lib_jwt libs) j id email is2FA w = (Ok tok, w1) ->
  Split tok = [tok] ->
  clock w1 <= clock w2 ->
  clock w2 < jwtlib.NewNumericDate (clock w + jwt.expiry j) ->
  middleware.AuthMiddleware libs j (fiber.mkCtx ("Bearer " ++ tok) body l0) w2 =
    (Ok (fiber.Next (fiber.mkLocals (Some id) (Some email) (Some is2FA)
                       (fiber.temp_token l0))),
     tick w2).
Proof.
  intros H Hs Hle Hlt. rewrite GenerateToken_unfold in H.
  unfold middleware.AuthMiddleware. cbv zeta. cbn [fiber.Authorization fiber.locals].
  rewrite bearer_not_empty, (Split_bearer tok Hs).
  change (String.eqb "Bearer" "Bearer") with true. cbn [negb].
  unfold bind, attempt, ret.
  now rewrite (issued_token_accepted _ _ _ _ _ _ _ _ _ H Hle Hlt).
Qed.

(** X19. A session token shows its own claims on the profile route: from the
    instant [GenerateToken] has returned until the token expires, a request
    carrying it as [Bearer] token gets the profile made of the id, the email
    and the second-factor mark the token was issued with. The token is taken
    to hold no space, as every compact JWT does. *)
Theorem session_token_shows_profile {B} (body : Result B) (l0 : fiber.Locals)
    (id : UUID) (email : string) (is2FA : bool) (w w1 w2 : World) (tok : string) :
  jwt.GenerateToken (lib_jwt libs) j id email is2FA w = (Ok tok, w1) ->
  Split tok = [tok] ->
  clock w1 <= clock w2 ->
  clock w2 < jwtlib.NewNumericDate (clock w + jwt.expiry j) ->
  router.auth_profile libs j (fiber.mkCtx ("Bearer " ++ tok) body l0) w2 =
    (Ok (handler.ProfileOK "Profile retrieved successfully"
           (handler.mkProfile id email is2FA)),
     tick w2).
Proof.
  intros H Hs Hle Hlt. unfold router.auth_profile, bind.
  now rewrite (AuthMiddleware_issued body l0 _ _ _ _ _ _ _ H Hs Hle Hlt).
Qed.

(** X20. The session token of a login opens the protected routes: after a
    login that did not ask for a second factor, and until the configured
    lifetime has passed since the login began, the gate lets a request with
    that token through as the account that logged in. *)
Theorem login_token_opens_gate {B} (body : Result B) (l0 : fiber.Locals)
    (req : domain.UserLoginRequest) (w w' w2 : World) (resp : domain.AuthResponse) :
  usecase.Login libs a req w = (Ok resp, w') ->
  domain.Requires2FA resp = false ->
  Split (domain.Token resp) = [domain.Token resp] ->
  clock w' <= clock w2 ->
  clock w2 < jwtlib.NewNumericDate (clock w + jwt.expiry j) ->
  exists user,
    domain.AuthUser resp = Some user /\
    middleware.AuthMiddleware libs j
      (fiber.mkCtx ("Bearer " ++ domain.Token resp) body l0) w2 =
      (Ok (fiber.Next (fiber.mkLocals (Some (domain.ID user)) (Some (domain.Email user))
                         (Some false) (fiber.temp_token l0))),
       tick w2).
Proof.
  intros H Hr Hs Hle Hlt.
  apply Login_without_2fa in H as (user & w1 & Hg & _ & Ht & Hu); [|exact Hr].
  apply GetByEmail_clock in Hg. rewrite <- Hg in Hlt.
  exists (domain.set_Password user ""). split; [exact Hu|].
  exact (AuthMiddleware_issued body l0 _ _ _ _ _ _ _ Ht Hs Hle Hlt).
Qed.

(** X21. The temporary token of a login opens the verification route, and
    only for fifteen minutes: after a login that asked for the second factor,
    the gate of that route lets a request with the temporary token through,
    storing the account's id and the token for the handler. *)
Theorem login_temp_token_opens_verification {B} (body : Result B) (l0 : fiber.Locals)
    (req : domain.UserLoginRequest) (w w' w2 : World) (resp : domain.AuthResponse) :
  usecase.Login libs a req w = (Ok resp, w') ->
  domain.Requires2FA resp = true ->
  Split (domain.TempToken resp) = [domain.TempToken resp] ->
  clock w' <= clock w2 ->
  clock w2 < jwtlib.NewNumericDate (clock w + 15 * Minute) ->
  exists user w1,
    postgres.GetByEmail (domain.LoginEmail req) w = (Ok user, w1) /\
    middleware.TempAuthMiddleware libs j
      (fiber.mkCtx ("Bearer " ++ domain.TempToken resp) body l0) w2 =
      (Ok (fiber.Next (fiber.mkLocals (Some (domain.ID user)) (Some (domain.Email user))
                         (fiber.is_2fa l0) (Some (domain.TempToken resp)))),
       tick w2).
Proof.
  intros H Hr Hs Hle Hlt.
  unfold usecase.Login, a in H. unfold_repo.
  step H as found w1 H1. destruct found as [user|e1]; [|discriminate].
  destruct (negb (crypto.CheckPassword _ _ _)); [discriminate|].
  destruct (negb (domain.IsActive user)); [discriminate|].
  destruct (domain.Is2FAEnabled user) eqn:E2.
  - step H as r w3 H2. destruct r as [tempToken|e2]; [|discriminate].
    apply ret_ok in H as [H Hw]; subst resp w3. cbn [domain.TempToken] in *.
    exists user, w1. split; [exact H1|].
    apply GetByEmail_clock in H1. rewrite <- H1 in Hlt.
    rewrite GenerateTempToken_unfold in H2.
    unfold middleware.TempAuthMiddleware. cbv zeta.
    cbn [fiber.Authorization fiber.locals].
    rewrite bearer_not_empty, (Split_bearer tempToken Hs).
    change (String.eqb "Bearer" "Bearer") with true. cbn [negb].
    unfold bind at 1, attempt at 1.
    unfold jwt.ValidateTempToken, bind, attempt, ret, fail.
    now rewrite (issued_token_accepted _ _ _ _ _ _ _ _ _ H2 Hle Hlt).
  - step H as r w3 H2. destruct r as [token|e2]; [|discriminate].
    apply ret_ok in H as [H Hw]; subst resp. discriminate.
Qed.

End Journeys.

(** ** The handlers *)

Lemma UpdateTOTPSecret_ok_rows (id : UUID) (secret : string) (w w' : World) :
  postgres.UpdateTOTPSecret id secret w = (Ok tt, w') ->
  exists t,
    users w' =
      postgres.update_where_id id
        (fun row =>
           mkRow (r_id row) (r_email row) (r_password row) (r_full_name row)
                 (r_is_active row) (r_is_2fa_enabled row) (Some secret)
                 (r_created_at row) t)
        (users w) /\
    totp_log w' = totp_log w.
Proof.
  unfold postgres.UpdateTOTPSecret, bind, attempt, fail.
  destruct (postgres.driver w) as [[[]|e] w1] eqn:Hd; [|discriminate].
  intros H; inversion H; subst; clear H. exists (postgres.timestamptz (clock w1)).
  destruct (frame_driver w) as [Hu Hl]. rewrite Hd in Hu, Hl. cbn [snd] in Hu, Hl.
  cbn [users totp_log postgres.set_users]. now rewrite Hu, Hl.
Qed.

Section Handlers.

Variable libs : Libs.
Variable j : jwt.JWTManager.

Let a : usecase.AuthUsecase := router.authUsecase j.
Let h : handler.AuthHandler := router.authHandler j.

(** X22. Running the two-factor setup replaces the stored secret of the one
    account and changes nothing else but its [updated_at]: the account keeps
    its [is_2fa_enabled] mark, so an account that already had a second factor
    gets a new secret, and no code is asked from the TOTP engine on the
    way. *)
Theorem setup2fa_replaces_secret (id : UUID) (w w' : World)
    (resp : domain.AuthResponse) :
  usecase.Setup2FA libs a id w = (Ok resp, w') ->
  (exists t,
     users w' =
       postgres.update_where_id id
         (fun row =>
            mkRow (r_id row) (r_email row) (r_password row) (r_full_name row)
                  (r_is_active row) (r_is_2fa_enabled row)
                  (Some (domain.BackupCodes resp)) (r_created_at row) t)
         (users w)) /\
  totp_log w' = totp_log w.
Proof.
  unfold usecase.Setup2FA, a. unfold_repo. intros H.
  step H as found w1 H1. destruct found as [user|e1]; [|discriminate].
  step H as generated w2 H2. destruct generated as [key|e2]; [|discriminate].
  step H as r w3 H3. destruct r as [[]|e3]; [|discriminate].
  apply ret_ok in H as [Hr Hw]; subst resp w3. cbn [domain.BackupCodes].
  destruct (frame_GetByID id w) as [Hu1 Hl1]. rewrite H1 in Hu1, Hl1.
  destruct (frame_totp_Generate (lib_totp libs)
              (totp.mkGenerateOpts "Telegram Bot API" (domain.Email user) 32) w1)
    as [Hu2 Hl2]. rewrite H2 in Hu2, Hl2. cbn [snd] in *.
  apply UpdateTOTPSecret_ok_rows in H3 as (t & Hu3 & Hl3).
  split; [exists t|]; congruence.
Qed.

(** X23. The status codes of the auth handlers. No handler fails. The
    registration handler answers 201 or 400 and nothing else, a fault of the
    database included; the login handler 200, 400 or 401; the setup handler
    200, 401 or 500; the verification handler 200, 400 or 401. *)
Theorem handler_status_codes :
  (forall c w, exists r w',
     handler.Register libs h c w = (Ok r, w') /\
     (response.Status r = 201 \/ response.Status r = 400)) /\
  (forall c w, exists r w',
     handler.Login libs h c w = (Ok r, w') /\
     (response.Status r = 200 \/ response.Status r = 400 \/ response.Status r = 401)) /\
  (forall B (c : fiber.Ctx B) w, exists r w',
     handler.Setup2FA libs h c w = (Ok r, w') /\
     (response.Status r = 200 \/ response.Status r = 401 \/ response.Status r = 500)) /\
  (forall c w, exists r w',
     handler.Verify2FA libs h c w = (Ok r, w') /\
     (response.Status r = 200 \/ response.Status r = 400 \/ response.Status r = 401)).
Proof.
  repeat split.
  - intros c w. unfold handler.Register.
    destruct (fiber.ParsedBody c) as [req|e];
      [|eexists; eexists; split; [reflexivity | now right]].
    destruct (String.eqb (domain.RegEmail req) "");
      [eexists; eexists; split; [reflexivity | now right]|].
    destruct (String.eqb (domain.RegPassword req) "");
      [eexists; eexists; split; [reflexivity | now right]|].
    destruct (String.eqb (domain.RegFullName req) "");
      [eexists; eexists; split; [reflexivity | now right]|].
    destruct (_ <? 8);
      [eexists; eexists; split; [reflexivity | now right]|].
    unfold bind, attempt, ret.
    destruct (usecase.Register libs (handler.authUsecase h) req w) as [[u|e] w1];
      eexists; eexists; (split; [reflexivity|]); [now left | now right].
  - intros c w. unfold handler.Login.
    destruct (fiber.ParsedBody c) as [req|e];
      [|eexists; eexists; split; [reflexivity | right; now left]].
    destruct (String.eqb (domain.LoginEmail req) "");
      [eexists; eexists; split; [reflexivity | right; now left]|].
    destruct (String.eqb (domain.LoginPassword req) "");
      [eexists; eexists; split; [reflexivity | right; now left]|].
    unfold bind, attempt, ret.
    destruct (usecase.Login libs (handler.authUsecase h) req w) as [[u|e] w1];
      eexists; eexists; (split; [reflexivity|]); [now left | right; now right].
  - intros B c w. unfold handler.Setup2FA.
    destruct (fiber.user_id (fiber.locals c)) as [userID|];
      [|eexists; eexists; split; [reflexivity | right; now left]].
    unfold bind, attempt, ret.
    destruct (usecase.Setup2FA libs (handler.authUsecase h) userID w) as [[u|e] w1];
      eexists; eexists; (split; [reflexivity|]); [now left | right; now right].
  - intros c w. unfold handler.Verify2FA.
    destruct (fiber.ParsedBody c) as [req|e];
      [|eexists; eexists; split; [reflexivity | right; now left]].
    destruct (String.eqb (domain.Code req) "");
      [eexists; eexists; split; [reflexivity | right; now left]|].
    destruct (negb _);
      [eexists; eexists; split; [reflexivity | right; now left]|].
    destruct (fiber.temp_token (fiber.locals c)) as [tempToken|];
      [|eexists; eexists; split; [reflexivity | right; now right]].
    unfold bind, attempt, ret.
    destruct (usecase.Verify2FA libs (handler.authUsecase h) tempToken (domain.Code req) w)
      as [[u|e] w1];
      eexists; eexists; (split; [reflexivity|]); [now left | right; now right].
Qed.

(** X24. What the registration handler lets through: a 201 answer means that
    the body parsed, that email, password and full name were not empty, that
    the password was at least 8 bytes long and that the use case registered
    the account; the answer carries the registered account with its password
    cleared. A request that misses one of the four checks gets 400 and
    changes nothing, the use case is not called. *)
Theorem register_boundary (c : fiber.Ctx domain.UserRegisterRequest) (w : World) :
  (forall r w',
     handler.Register libs h c w = (Ok r, w') ->
     response.Status r = 201 ->
     exists req u,
       fiber.ParsedBody c = Ok req /\
       domain.RegEmail req <> "" /\
       domain.RegFullName req <> "" /\
       (8 <= String.length (domain.RegPassword req))%nat /\
       usecase.Register libs a req w = (Ok u, w') /\
       domain.Password u = "" /\
       r = response.Created "User registered successfully" (response.UserData u)) /\
  (forall req,
     fiber.ParsedBody c = Ok req ->
     domain.RegEmail req = "" \/ domain.RegFullName req = "" \/
     (String.length (domain.RegPassword req) < 8)%nat ->
     exists msg, handler.Register libs h c w = (Ok (response.BadRequest msg []), w)).
Proof.
  split.
  - intros r w'. unfold handler.Register.
    destruct (fiber.ParsedBody c) as [req|e]; [|intros H; inversion H; discriminate].
    destruct (String.eqb (domain.RegEmail req) "") eqn:E1;
      [intros H; inversion H; discriminate|].
    destruct (String.eqb (domain.RegPassword req) "") eqn:E2;
      [intros H; inversion H; discriminate|].
    destruct (String.eqb (domain.RegFullName req) "") eqn:E3;
      [intros H; inversion H; discriminate|].
    destruct (_ <? 8) eqn:E4; [intros H; inversion H; discriminate|].
    unfold bind, attempt, ret.
    change (handler.authUsecase h) with a.
    destruct (usecase.Register libs a req w) as [[u|e] w1] eqn:Hr;
      intros H; inversion H; subst; [|discriminate].
    intros _. exists req, u.
    apply String.eqb_neq in E1. apply String.eqb_neq in E3. apply Z.ltb_ge in E4.
    repeat split; auto; [lia|].
    apply Register_ok_rows in Hr as (_ & _ & _ & _ & Hu & _). now rewrite Hu.
  - intros req Hb Hbad. unfold handler.Register. rewrite Hb.
    destruct (String.eqb (domain.RegEmail req) "") eqn:E1; [now eexists|].
    destruct (String.eqb (domain.RegPassword req) "") eqn:E2; [now eexists|].
    destruct (String.eqb (domain.RegFullName req) "") eqn:E3; [now eexists|].
    destruct (_ <? 8) eqn:E4; [now eexists|].
    apply String.eqb_neq in E1. apply String.eqb_neq in E3. apply Z.ltb_ge in E4.
    destruct Hbad as [Hbad|[Hbad|Hbad]]; [congruence | congruence | lia].
Qed.

End Handlers.

(** ** Request logs *)

Section RequestLogs.

Variable Stats : Type.
Variable r : request_log.RequestLogUsecase Stats.

(** X25. Pagination of the request logs: whatever limit and offset the
    caller gives, the repository is queried once, with a limit between 1 and
    100 and an offset that is not negative. A limit within 1..100 and an
    offset from 0 on are passed as they are; a limit of 0 or less becomes 50,
    one above 100 becomes 100, a negative offset becomes 0. The same holds
    for the logs of a user and for the logs of an IP address. *)
Theorem request_log_page_bounds (limit offset : Z) :
  exists limit' offset',
    1 <= limit' <= 100 /\ 0 <= offset' /\
    (1 <= limit <= 100 -> limit' = limit) /\
    (limit <= 0 -> limit' = 50) /\
    (100 < limit -> limit' = 100) /\
    (0 <= offset -> offset' = offset) /\
    (offset < 0 -> offset' = 0) /\
    (forall userID w,
       request_log.GetUserRequestLogs Stats r userID limit offset w =
       wrapped "failed to get user request logs: "
         (request_log.GetByUserID Stats (request_log.requestLogRepo Stats r)
            userID limit' offset' w)) /\
    (forall ip w,
       request_log.GetIPRequestLogs Stats r ip limit offset w =
       wrapped "failed to get IP request logs: "
         (request_log.GetByIPAddress Stats (request_log.requestLogRepo Stats r)
            ip limit' offset' w)).
Proof.
  set (l1 := if limit <=? 0 then 50 else limit).
  set (l2 := if 100 <? l1 then 100 else l1).
  set (o1 := if offset <? 0 then 0 else offset).
  exists l2, o1.
  assert (Hb : 1 <= l2 <= 100 /\ 0 <= o1 /\ (1 <= limit <= 100 -> l2 = limit) /\
               (limit <= 0 -> l2 = 50) /\ (100 < limit -> l2 = 100) /\
               (0 <= offset -> o1 = offset) /\ (offset < 0 -> o1 = 0)).
  { subst l2 l1 o1. destruct (Z.leb_spec limit 0), (Z.ltb_spec offset 0);
      match goal with
      | |- context [100 <? ?x] => destruct (Z.ltb_spec 100 x)
      end; lia. }
  destruct Hb as (H1 & H2 & H3 & H4 & H5 & H6 & H7).
  split; [exact H1|]. split; [exact H2|]. split; [exact H3|]. split; [exact H4|].
  split; [exact H5|]. split; [exact H6|]. split; [exact H7|].
  clear H1 H2 H3 H4 H5 H6 H7.
  subst l2 l1 o1. split.
  - intros userID w.
    unfold request_log.GetUserRequestLogs, bind, attempt, ret, fail, wrapped. cbv zeta.
    now destruct (request_log.GetByUserID _ _ _ _ _ _) as [[logs|e] w'].
  - intros ip w.
    unfold request_log.GetIPRequestLogs, bind, attempt, ret, fail, wrapped. cbv zeta.
    now destruct (request_log.GetByIPAddress _ _ _ _ _ _) as [[logs|e] w'].
Qed.

(** X26. The gate of the request statistics: the repository is asked exactly
    when the end date is not before the start date and the range is at most
    thirty days, and then with the two dates as given; otherwise the call
    fails and nothing is read. The range is measured with [time.Time.Sub],
    which saturates: a range too long for a [time.Duration] is still
    refused. *)
Theorem request_stats_range_gate (startDate endDate : Time) (w : World) :
  request_log.GetRequestStats Stats r startDate endDate w =
    if endDate <? startDate then (Err "end date cannot be before start date", w)
    else if thirty_days <? endDate - startDate
    then (Err "date range cannot exceed 30 days", w)
    else wrapped "failed to get request stats: "
           (request_log.GetStats Stats (request_log.requestLogRepo Stats r)
              startDate endDate w).
Proof.
  unfold request_log.GetRequestStats.
  destruct (Z.ltb_spec endDate startDate) as [Hlt|Hge]; [reflexivity|].
  cbv zeta.
  assert (E : (30 * 24 * (60 * Minute) <? request_log.Sub endDate startDate) =
              (thirty_days <? endDate - startDate)).
  { unfold request_log.Sub, thirty_days, Minute, Second.
    destruct (Z.ltb_spec (30 * 24 * 3600 * 1000000000) (endDate - startDate));
      [apply Z.ltb_lt | apply Z.ltb_ge]; lia. }
  rewrite E. destruct (thirty_days <? endDate - startDate); [reflexivity|].
  unfold bind, attempt, ret, fail, wrapped.
  now destruct (request_log.GetStats _ _ _ _ _) as [[stats|e] w'].
Qed.

End RequestLogs.

(** ** Restaurant search *)

Lemma In_firstn {A} (n : nat) (l : list A) (x : A) : In x (firstn n l) -> In x l.
Proof.
  intros H. rewrite <- (firstn_skipn n l). apply in_or_app. now left.
Qed.

Section Restaurants.

Variable TrimSpace : string -> string.

(** The restaurants the filter keeps. *)
Let kept (restaurant : restaurant.Restaurant) : bool :=
  negb (String.eqb (TrimSpace (restaurant.Name restaurant)) "") &&
  negb (String.eqb (restaurant.BusinessStatus restaurant) "CLOSED_PERMANENTLY").

Lemma filtered_map_filter (restaurants : list restaurant.Restaurant) :
  restaurant.filtered TrimSpace restaurants =
    map (restaurant.enhanceRestaurantData TrimSpace) (filter kept restaurants).
Proof.
  induction restaurants as [|x rest IH]; [reflexivity|]. simpl. unfold kept at 1.
  destruct (String.eqb (TrimSpace (restaurant.Name x)) ""); [exact IH|].
  destruct (String.eqb (restaurant.BusinessStatus x) "CLOSED_PERMANENTLY"); [exact IH|].
  simpl. now rewrite IH.
Qed.

Lemma filterAndEnhanceResults_firstn (restaurants : list restaurant.Restaurant) :
  restaurant.filterAndEnhanceResults TrimSpace restaurants =
    firstn 10 (restaurant.filtered TrimSpace restaurants).
Proof.
  unfold restaurant.filterAndEnhanceResults. cbv zeta.
  destruct (Nat.ltb_spec 10 (length (restaurant.filtered TrimSpace restaurants)));
    [reflexivity|].
  symmetry. now apply firstn_all2.
Qed.

(** The rating after the two comparisons of [enhanceRestaurantData]. *)
Lemma enhanced_rating (x : restaurant.Restaurant) :
  let rating := restaurant.Rating (restaurant.enhanceRestaurantData TrimSpace x) in
  PrimFloat.ltb rating 0 = false /\ PrimFloat.ltb 5 rating = false.
Proof.
  unfold restaurant.enhanceRestaurantData. cbv zeta. cbn [restaurant.Rating].
  destruct (PrimFloat.ltb (restaurant.Rating x) 0) eqn:E0.
  - change (PrimFloat.ltb 5 0) with false. cbv iota. split; reflexivity.
  - destruct (PrimFloat.ltb 5 (restaurant.Rating x)) eqn:E5.
    + split; reflexivity.
    + now split.
Qed.

(** X27. What the search hands back is the first ten of the restaurants that
    have a name and are not permanently closed, each one enhanced, in the
    order the repository gave them. *)
Theorem filter_keeps_first_ten (restaurants : list restaurant.Restaurant) :
  restaurant.filterAndEnhanceResults TrimSpace restaurants =
    firstn 10
      (map (restaurant.enhanceRestaurantData TrimSpace)
           (filter (fun x =>
                      negb (String.eqb (TrimSpace (restaurant.Name x)) "") &&
                      negb (String.eqb (restaurant.BusinessStatus x) "CLOSED_PERMANENTLY"))
                   restaurants)).
Proof.
  rewrite filterAndEnhanceResults_firstn, filtered_map_filter. reflexivity.
Qed.

Lemma filtered_results_sound (restaurants : list restaurant.Restaurant)
    (x' : restaurant.Restaurant) :
  In x' (restaurant.filterAndEnhanceResults TrimSpace restaurants) ->
  exists x,
    In x restaurants /\
    x' = restaurant.enhanceRestaurantData TrimSpace x /\
    TrimSpace (restaurant.Name x) <> "" /\
    restaurant.BusinessStatus x <> "CLOSED_PERMANENTLY".
Proof.
  rewrite filterAndEnhanceResults_firstn, filtered_map_filter. intros H.
  apply In_firstn in H. apply in_map_iff in H as (x & Hx & Hin).
  apply filter_In in Hin as [Hin Hk]. unfold kept in Hk.
  apply andb_true_iff in Hk as [Hn Hs].
  apply negb_true_iff, String.eqb_neq in Hn. apply negb_true_iff, String.eqb_neq in Hs.
  exists x. auto.
Qed.

(** X28. Every restaurant in a result list is presentable: there are at
    most ten, each has a name that is not blank, a business status that is
    neither empty nor CLOSED_PERMANENTLY, and a rating that is neither below
    0 nor above 5. *)
Theorem filtered_results_clean (restaurants : list restaurant.Restaurant) :
  (length (restaurant.filterAndEnhanceResults TrimSpace restaurants) <= 10)%nat /\
  forall x',
    In x' (restaurant.filterAndEnhanceResults TrimSpace restaurants) ->
    restaurant.Name x' <> "" /\
    restaurant.BusinessStatus x' <> "" /\
    restaurant.BusinessStatus x' <> "CLOSED_PERMANENTLY" /\
    PrimFloat.ltb (restaurant.Rating x') 0 = false /\
    PrimFloat.ltb 5 (restaurant.Rating x') = false.
Proof.
  split.
  - rewrite filterAndEnhanceResults_firstn. apply firstn_le_length.
  - intros x' H. apply filtered_results_sound in H as (x & _ & Hx & Hn & Hs).
    subst x'. split; [exact Hn|]. split; [|split; [|apply enhanced_rating]].
    + unfold restaurant.enhanceRestaurantData; cbn [restaurant.BusinessStatus].
      destruct (String.eqb (restaurant.BusinessStatus x) "") eqn:E;
        [discriminate | now apply String.eqb_neq].
    + unfold restaurant.enhanceRestaurantData; cbn [restaurant.BusinessStatus].
      destruct (String.eqb (restaurant.BusinessStatus x) "") eqn:E;
        [discriminate | exact Hs].
Qed.

Variable r : restaurant.RestaurantUsecase.

(** X29. A search by name that succeeds has asked the repository once, with
    the query trimmed and at least two bytes long and with the location as
    given; it returns the repository's status and page token next to the
    filtered list. A query that is blank or shorter than two bytes once
    trimmed fails before the repository is asked. *)
Theorem search_by_name_gate (req : restaurant.RestaurantSearchRequest) (w : World) :
  (forall resp w',
     restaurant.SearchByName TrimSpace r req w = (Ok resp, w') ->
     (2 <= String.length (TrimSpace (restaurant.Query req)))%nat /\
     exists result,
       restaurant.RepoSearchByName (restaurant.restaurantRepo r)
         (TrimSpace (restaurant.Query req)) (restaurant.ReqLocation req) w =
         (Ok result, w') /\
       resp = restaurant.mkRestaurantSearchResponse
                (restaurant.filterAndEnhanceResults TrimSpace
                   (restaurant.Restaurants result))
                (restaurant.Status result) (restaurant.NextPageToken result)) /\
  ((String.length (TrimSpace (restaurant.Query req)) < 2)%nat ->
   exists e, restaurant.SearchByName TrimSpace r req w = (Err e, w)).
Proof.
  unfold restaurant.SearchByName. split.
  - intros resp w'.
    destruct (String.eqb (TrimSpace (restaurant.Query req)) ""); [discriminate|].
    cbv zeta. destruct (Nat.ltb_spec (String.length (TrimSpace (restaurant.Query req))) 2)
      as [Hlt|Hge]; [discriminate|].
    intros H. step H as result w1 H1. destruct result as [result|e]; [|discriminate].
    apply ret_ok in H as [Hr Hw]; subst resp w1.
    split; [exact Hge|]. now exists result.
  - intros Hlt.
    destruct (String.eqb (TrimSpace (restaurant.Query req)) ""); [now eexists|].
    cbv zeta. apply Nat.ltb_lt in Hlt. rewrite Hlt. now eexists.
Qed.

(** X30. A search around a point that succeeds has passed the coordinate
    checks and has asked the repository once, with the coordinates as given
    and a radius between 1 and 50000 metres: the radius of the caller when it
    lies in that range, 1000 when it is 0 or less, 50000 when it is
    larger. *)
Theorem search_nearby_gate (lat lng : float) (radius : Z) (restaurantType : string)
    (w w' : World) (resp : restaurant.RestaurantSearchResponse) :
  restaurant.SearchNearby TrimSpace r lat lng radius restaurantType w = (Ok resp, w') ->
  PrimFloat.ltb lat (-90) = false /\ PrimFloat.ltb 90 lat = false /\
  PrimFloat.ltb lng (-180) = false /\ PrimFloat.ltb 180 lng = false /\
  exists radius' result,
    1 <= radius' <= 50000 /\
    (1 <= radius <= 50000 -> radius' = radius) /\
    (radius <= 0 -> radius' = 1000) /\
    (50000 < radius -> radius' = 50000) /\
    restaurant.RepoSearchNearby (restaurant.restaurantRepo r)
      lat lng radius' restaurantType w = (Ok result, w') /\
    resp = restaurant.mkRestaurantSearchResponse
             (restaurant.filterAndEnhanceResults TrimSpace
                (restaurant.Restaurants result))
             (restaurant.Status result) (restaurant.NextPageToken result).
Proof.
  unfold restaurant.SearchNearby.
  destruct (PrimFloat.ltb lat (-90)); [discriminate|].
  destruct (PrimFloat.ltb 90 lat); [discriminate|].
  destruct (PrimFloat.ltb lng (-180)); [discriminate|].
  destruct (PrimFloat.ltb 180 lng); [discriminate|].
  cbn [orb]. cbv zeta. intros H.
  step H as result w1 H1. destruct result as [result|e]; [|discriminate].
  apply ret_ok in H as [Hr Hw]; subst resp w1.
  repeat (split; [reflexivity|]).
  eexists; exists result.
  split; [|split; [|split; [|split; [|split; [exact H1 | reflexivity]]]]];
    destruct (Z.leb_spec radius 0);
    match goal with
    | |- context [50000 <? ?x] => destruct (Z.ltb_spec 50000 x)
    end; lia.
Qed.

End Restaurants.

(** ** The further properties on concrete inputs *)

Section FurtherConcrete.

Import scenario.

Let libs : Libs := reference.libs.

Lemma users_keys_stay_unique_witness :
  unique_keys
    (users (run libs a [Call (OpRegister erin_req); Call (OpSetup2FA "id-alice")] w_reg)).
Proof.
  destruct (users_keys_stay_unique libs j) as (_ & _ & _ & _ & _ & _ & H).
  apply H. split; repeat constructor; simpl; intuition discriminate.
Defined.

Lemma update_of_missing_id_is_silent_witness :
  postgres.Enable2FA "id-zed" w0 = (Ok tt, w0).
Proof.
  destruct (update_of_missing_id_is_silent "id-zed" w0 w0) as (_ & H & _);
    [reflexivity | reflexivity | exact H].
Defined.



Lemma register_known_email_never_succeeds_witness :
  exists e w',
    usecase.Register libs a
      (domain.mkUserRegisterRequest "alice@example.com" "another-password" "Mallory") w0
      = (Err e, w') /\
    users w' = users w0.
Proof.
  apply (register_known_email_never_succeeds libs j
           (domain.mkUserRegisterRequest "alice@example.com" "another-password" "Mallory")
           w0 alice); [now left | reflexivity].
Defined.


Lemma non_hmac_token_refused_witness :
  jwt.ValidateToken reference.jwt_lib j rs256_token w0 =
    (Err "token is unverifiable: error while executing keyfunc: unexpected signing method",
     w0).
Proof.
  destruct (jwtlib.decode reference.jwt_lib rs256_token) as [token|] eqn:Hd;
    [|vm_compute in Hd; discriminate Hd].
  destruct (non_hmac_token_refused reference.jwt_lib j rs256_token token w0 Hd)
    as [H _]; [|exact H].
  vm_compute in Hd. injection Hd as <-. reflexivity.
Defined.

Lemma token_verdict_depends_on_clock_only_witness :
  fst (jwt.ValidateToken reference.jwt_lib j (session_token_for alice t0) (at_time t0 [])) =
  fst (jwt.ValidateToken reference.jwt_lib j (session_token_for alice t0) w0).
Proof.
  apply (token_verdict_depends_on_clock_only reference.jwt_lib j
           (session_token_for alice t0) (at_time t0 []) w0).
  reflexivity.
Defined.

Lemma temp_token_roundtrip_witness :
  exists claims,
    jwt.ValidateTempToken reference.jwt_lib j (temp_token_for dan t0)
      (at_time (t0 + 14 * Minute) []) =
      (Ok claims, tick (at_time (t0 + 14 * Minute) [])) /\
    jwt.UserID claims = "id-dan" /\
    jwt.Email claims = "dan@example.com" /\
    jwt.TempAuth claims = true.
Proof.
  apply (temp_token_roundtrip reference.jwt_lib j reference_jwt_roundtrip
           "id-dan" "dan@example.com" (at_time t0 [])
           (after_reads 3 (at_time t0 []))).
  - vm_compute. reflexivity.
  - vm_compute. discriminate.
  - vm_compute. reflexivity.
Defined.

Lemma expired_token_refused_witness :
  jwt.ValidateToken reference.jwt_lib j (session_token_for alice t0)
    (at_time (t0 + 24 * 60 * Minute) []) =
    (Err "token has invalid claims: token is expired",
     tick (at_time (t0 + 24 * 60 * Minute) [])).
Proof.
  destruct (expired_token_refused reference.jwt_lib j reference_jwt_roundtrip
              "id-alice" "alice@example.com" false (at_time t0 [])
              (after_reads 3 (at_time t0 [])) (at_time (t0 + 24 * 60 * Minute) [])
              (session_token_for alice t0)) as [H _].
  destruct H as [_ H].
  - vm_compute. reflexivity.
  - vm_compute. discriminate.
  - apply H. vm_compute. discriminate.
Defined.

Lemma session_token_is_not_temporary_witness :
  jwt.ValidateTempToken reference.jwt_lib j (session_token_for alice t0)
    (at_time (t0 + Minute) []) =
    (Err "not a temporary token", tick (at_time (t0 + Minute) [])).
Proof.
  destruct (session_token_is_not_temporary reference.jwt_lib j reference_jwt_roundtrip
              "id-alice" "alice@example.com" false (at_time t0 [])
              (after_reads 3 (at_time t0 [])) (at_time (t0 + Minute) [])
              (session_token_for alice t0))
    as [_ H].
  - vm_compute. reflexivity.
  - apply H.
    + vm_compute. discriminate.
    + vm_compute. reflexivity.
Defined.

Lemma login_success_witness :
  exists user w1,
    postgres.GetByEmail "alice@example.com" w0 = (Ok user, w1) /\
    crypto.CheckPassword (lib_bcrypt libs) "password123" (domain.Password user) = true /\
    domain.IsActive user = true.
Proof.
  destruct (login_success libs j
              (domain.mkUserLoginRequest "alice@example.com" "password123") w0
              (snd (usecase.Login libs a
                      (domain.mkUserLoginRequest "alice@example.com" "password123") w0))
              (value no_response
                 (usecase.Login libs a
                    (domain.mkUserLoginRequest "alice@example.com" "password123") w0)))
    as (user & w1 & H1 & H2 & H3 & _).
  - vm_compute. reflexivity.
  - exists user, w1. auto.
Defined.

Lemma verify2fa_success_witness :
  exists u,
    domain.AuthUser
      (value no_response (usecase.Verify2FA libs a (temp_token_for dan t0) "921300" w0))
      = Some u /\
    domain.Password u = "" /\ domain.TOTPSecret u = "" /\ domain.Is2FAEnabled u = true.
Proof.
  destruct (verify2fa_success libs j (temp_token_for dan t0) "921300" w0
              (snd (usecase.Verify2FA libs a (temp_token_for dan t0) "921300" w0))
              (value no_response
                 (usecase.Verify2FA libs a (temp_token_for dan t0) "921300" w0)))
    as (claims & w1 & user & w2 & u & w4 & _ & _ & _ & Hu & Eu & _).
  - vm_compute. reflexivity.
  - exists u. split; [exact Hu|]. rewrite Eu. repeat split.
Defined.

Lemma verify2fa_refuses_session_token_witness :
  usecase.Verify2FA libs a (session_token_for dan t0) "921300" w0 =
    (Err "invalid or expired temporary token", tick w0).
Proof.
  apply (verify2fa_refuses_session_token libs j reference_jwt_roundtrip
           "id-dan" "dan@example.com" true (at_time t0 [])
           (after_reads 3 (at_time t0 []))).
  vm_compute. reflexivity.
Defined.

Lemma auth_middleware_verdict_witness :
  middleware.AuthMiddleware libs j (with_bearer (session_token_for alice t0))
    (at_time (t0 + Minute) []) =
    (Ok (fiber.Next (fiber.mkLocals (Some "id-alice") (Some "alice@example.com")
                       (Some false) None)),
     tick (at_time (t0 + Minute) [])).
Proof.
  destruct (auth_middleware_verdict libs j (with_bearer (session_token_for alice t0))
              (at_time (t0 + Minute) [])) as [_ H].
  apply H.
  exists (session_token_for alice t0),
         (issued_claims "id-alice" "alice@example.com" false false (24 * 60 * Minute)
            t0 (clock (after_reads 1 (at_time t0 []))) (clock (after_reads 2 (at_time t0 [])))).
  split; [reflexivity|]. split; [vm_compute; reflexivity|].
  split; [vm_compute; reflexivity|]. split; reflexivity.
Defined.

Lemma header_without_bearer_witness :
  middleware.OptionalAuthMiddleware libs j
    (fiber.mkCtx "Basic YWxpY2U6cGFzc3dvcmQxMjM=" (Ok tt) fiber.no_locals) w0 =
    (Ok (fiber.Next fiber.no_locals), w0).
Proof.
  destruct (header_without_bearer libs j
              (fiber.mkCtx "Basic YWxpY2U6cGFzc3dvcmQxMjM=" (Ok tt) fiber.no_locals) w0)
    as (_ & _ & H); [|exact H].
  intros tok E. discriminate E.
Defined.

Lemma profile_route_witness :
  fst (router.auth_profile libs j (with_bearer (session_token_for alice t0)) w0) =
  fst (router.auth_profile libs j (with_bearer (session_token_for alice t0))
         (at_time t0 [])).
Proof.
  destruct (profile_route libs j (with_bearer (session_token_for alice t0))
              (at_time t0 [])) as [_ H].
  apply H. reflexivity.
Defined.

Lemma session_token_shows_profile_witness :
  router.auth_profile libs j (with_bearer (session_token_for dan t0))
    (at_time (t0 + 60 * Minute) []) =
    (Ok (handler.ProfileOK "Profile retrieved successfully"
           (handler.mkProfile "id-dan" "dan@example.com" true)),
     tick (at_time (t0 + 60 * Minute) [])).
Proof.
  apply (session_token_shows_profile libs j reference_jwt_roundtrip (Ok tt)
           fiber.no_locals "id-dan" "dan@example.com" true (at_time t0 [])
           (after_reads 3 (at_time t0 []))).
  - vm_compute. reflexivity.
  - vm_compute. reflexivity.
  - vm_compute. discriminate.
  - vm_compute. reflexivity.
Defined.

Lemma login_token_opens_gate_witness :
  exists user,
    domain.AuthUser
      (value no_response
         (usecase.Login libs a
            (domain.mkUserLoginRequest "alice@example.com" "password123") w0))
      = Some user /\
    middleware.AuthMiddleware libs j
      (with_bearer
         (domain.Token
            (value no_response
               (usecase.Login libs a
                  (domain.mkUserLoginRequest "alice@example.com" "password123") w0))))
      (at_time (t0 + 60 * Minute) []) =
      (Ok (fiber.Next (fiber.mkLocals (Some (domain.ID user)) (Some (domain.Email user))
                         (Some false) None)),
       tick (at_time (t0 + 60 * Minute) [])).
Proof.
  apply (login_token_opens_gate libs j reference_jwt_roundtrip (Ok tt) fiber.no_locals
           (domain.mkUserLoginRequest "alice@example.com" "password123") w0
           (snd (usecase.Login libs a
                   (domain.mkUserLoginRequest "alice@example.com" "password123") w0))).
  - vm_compute. reflexivity.
  - vm_compute. reflexivity.
  - vm_compute. reflexivity.
  - vm_compute. discriminate.
  - vm_compute. reflexivity.
Defined.

Lemma login_temp_token_opens_verification_witness :
  exists user w1,
    postgres.GetByEmail "dan@example.com" w0 = (Ok user, w1) /\
    middleware.TempAuthMiddleware libs j
      (with_bearer
         (domain.TempToken
            (value no_response
               (usecase.Login libs a
                  (domain.mkUserLoginRequest "dan@example.com" "tr0ub4dor&3") w0))))
      (at_time (t0 + 10 * Minute) []) =
      (Ok (fiber.Next
             (fiber.mkLocals (Some (domain.ID user)) (Some (domain.Email user)) None
                (Some (domain.TempToken
                         (value no_response
                            (usecase.Login libs a
                               (domain.mkUserLoginRequest "dan@example.com" "tr0ub4dor&3")
                               w0)))))),
       tick (at_time (t0 + 10 * Minute) [])).
Proof.
  apply (login_temp_token_opens_verification libs j reference_jwt_roundtrip (Ok tt)
           fiber.no_locals
           (domain.mkUserLoginRequest "dan@example.com" "tr0ub4dor&3") w0
           (snd (usecase.Login libs a
                   (domain.mkUserLoginRequest "dan@example.com" "tr0ub4dor&3") w0))).
  - vm_compute. reflexivity.
  - vm_compute. reflexivity.
  - vm_compute. reflexivity.
  - vm_compute. discriminate.
  - vm_compute. reflexivity.
Defined.

Lemma setup2fa_replaces_secret_witness :
  totp_log (snd (usecase.Setup2FA libs a "id-dan" w0)) = totp_log w0.
Proof.
  destruct (setup2fa_replaces_secret libs j "id-dan" w0
              (snd (usecase.Setup2FA libs a "id-dan" w0))
              (value no_response (usecase.Setup2FA libs a "id-dan" w0)))
    as [_ H]; [vm_compute; reflexivity | exact H].
Defined.

Lemma register_boundary_witness :
  exists msg,
    handler.Register libs (router.authHandler j)
      (fiber.mkCtx "" (Ok (domain.mkUserRegisterRequest "erin@example.com" "short" "Erin E"))
         fiber.no_locals) w0
    = (Ok (response.BadRequest msg []), w0).
Proof.
  destruct (register_boundary libs j
              (fiber.mkCtx ""
                 (Ok (domain.mkUserRegisterRequest "erin@example.com" "short" "Erin E"))
                 fiber.no_locals) w0) as [_ H].
  apply (H (domain.mkUserRegisterRequest "erin@example.com" "short" "Erin E") eq_refl).
  right; right. simpl. lia.
Defined.

Lemma request_log_page_bounds_witness :
  request_log.GetUserRequestLogs unit no_logs "id-alice" 500 (-3) w0 =
    wrapped "failed to get user request logs: "
      (request_log.GetByUserID unit (request_log.requestLogRepo unit no_logs)
         "id-alice" 100 0 w0).
Proof.
  destruct (request_log_page_bounds unit no_logs 500 (-3))
    as (l & o & _ & _ & _ & _ & Hl & _ & Ho & Hu & _).
  rewrite (Hu "id-alice" w0), Hl, Ho by lia. reflexivity.
Defined.

Lemma filtered_results_clean_witness :
  let x' := restaurant.mkRestaurant "place-id" "Warung Sate" "1 Main Street" 5 12 2
              None None [] [] "OPERATIONAL" in
  restaurant.Name x' <> "" /\
  restaurant.BusinessStatus x' <> "" /\
  restaurant.BusinessStatus x' <> "CLOSED_PERMANENTLY" /\
  PrimFloat.ltb (restaurant.Rating x') 0 = false /\
  PrimFloat.ltb 5 (restaurant.Rating x') = false.
Proof.
  intros x'.
  destruct (filtered_results_clean reference.TrimSpace places) as [_ H].
  apply H. vm_compute. left. reflexivity.
Defined.

Lemma search_by_name_gate_witness :
  exists e,
    restaurant.SearchByName reference.TrimSpace places_repo
      (restaurant.mkRestaurantSearchRequest "  a  " "Jakarta" 0 "") w0 = (Err e, w0).
Proof.
  destruct (search_by_name_gate reference.TrimSpace places_repo
              (restaurant.mkRestaurantSearchRequest "  a  " "Jakarta" 0 "") w0) as [_ H].
  apply H. vm_compute. lia.
Defined.

Lemma search_nearby_gate_witness :
  exists radius' result,
    1 <= radius' <= 50000 /\
    restaurant.RepoSearchNearby (restaurant.restaurantRepo places_repo)
      (-6.25)%float 106.75%float radius' "restaurant" w0 = (Ok result, w0).
Proof.
  destruct (search_nearby_gate reference.TrimSpace places_repo
              (-6.25)%float 106.75%float 0 "restaurant" w0 w0
              (restaurant.mkRestaurantSearchResponse
                 (restaurant.filterAndEnhanceResults reference.TrimSpace places) "OK" ""))
    as (_ & _ & _ & _ & radius' & result & Hb & _ & _ & _ & Hr & _).
  - vm_compute. reflexivity.
  - exists radius', result. split; [exact Hb | exact Hr].
Defined.

End FurtherConcrete.
